(** * GTFS data-access layer and synthetic-demand scripts: a shallow embedding

    The development follows [utils/gtfs_utils.py] (class [GTFSProcessor]),
    [src/simulate_demand.py] and [src/generate_synthetic_demand.py].

    Python exceptions are explicit: a method that can raise returns a
    [result].  A pandas [DataFrame] is a list of column labels and a list
    of rows; a cell is a string, an integral number or NaN.  The dictionary
    [self.gtfs_data] is a finite map from table names to what gtfs_kit read
    for them: a frame, or [None] for a table the feed does not have.

    What belongs to the installation rather than to the program is a
    parameter: the character database and the digit limit of the
    interpreter, the order in which it enumerates a set, the range of dates
    of the pandas release, and the random generator of numpy. *)

From Stdlib Require Import ZArith NArith List String Ascii Bool Lia Permutation Sorted.
From Stdlib Require Import DecimalString DecimalZ DecimalPos.
From stdpp Require Import base option list gmap strings.

Local Open Scope Z_scope.
Local Open Scope string_scope.

(** ** Exceptions and results *)

Inductive exn : Type :=
  | KeyError (key : string)
  | IndexError
  | AttributeError (attr : string)
  | TypeError
  | ValueError (msg : string)
  | OutOfBoundsDatetime
  | OverflowError.

Inductive result (A : Type) : Type :=
  | Ok (a : A)
  | Raise (e : exn).

Arguments Ok {A} a.
Arguments Raise {A} e.

#[global] Instance result_ret : MRet result := fun A a => Ok a.

#[global] Instance result_bind : MBind result :=
  fun A B k r =>
    match r with
    | Ok a => k a
    | Raise e => Raise e
    end.

(** ** Cell values *)

Inductive value : Type :=
  | VStr (s : string)
  | VInt (n : Z)
  | VNaN.

#[global] Instance value_eq_dec : EqDecision value.
Proof. solve_decision. Defined.

(** Python's [==] on scalars: NaN is equal to nothing, a string is never
    equal to a number. *)
Definition py_eq (a b : value) : bool :=
  match a, b with
  | VStr s, VStr t => bool_decide (s = t)
  | VInt m, VInt n => bool_decide (m = n)
  | _, _ => false
  end.

(** Membership as [Series.isin] and [unique] see it: NaN matches NaN. *)
Definition same_value (a b : value) : bool := bool_decide (a = b).

Definition isin (v : value) (l : list value) : bool := existsb (same_value v) l.

(** [pd.isna] on a scalar. *)
Definition isna (v : value) : bool :=
  match v with
  | VNaN => true
  | _ => false
  end.

(** Truth value of an optional argument in [if arg and ...]: [None], the
    empty string and zero are falsy; NaN (a non-zero float) is truthy. *)
Definition truthy (arg : option value) : bool :=
  match arg with
  | None => false
  | Some (VStr s) => negb (bool_decide (s = ""))
  | Some (VInt n) => negb (bool_decide (n = 0))
  | Some VNaN => true
  end.

(** [Series.unique]: distinct values in order of first appearance. *)
Fixpoint unique_acc (seen : list value) (l : list value) : list value :=
  match l with
  | [] => []
  | v :: l' =>
      if isin v seen then unique_acc seen l'
      else v :: unique_acc (v :: seen) l'
  end.

Definition unique (l : list value) : list value := unique_acc [] l.

(** [Series.nunique] with its default [dropna=True]. *)
Definition nunique (l : list value) : nat :=
  length (unique (List.filter (fun v => negb (isna v)) l)).

(** ** Data frames *)

Definition row : Type := list value.

Record DataFrame : Type := mkDataFrame {
  columns : list string;
  rows : list row
}.

(** [pd.DataFrame()] *)
Definition DataFrame_new : DataFrame := mkDataFrame [] [].

(** [df.empty]: some axis has length zero. *)
Definition empty (df : DataFrame) : bool :=
  match columns df, rows df with
  | [], _ => true
  | _, [] => true
  | _, _ => false
  end.

(** [len(df)] *)
Definition len (df : DataFrame) : nat := length (rows df).

(** ['c' in df.columns] *)
Definition has_column (df : DataFrame) (c : string) : bool :=
  bool_decide (c ∈ columns df).

Fixpoint col_index (c : string) (cols : list string) : option nat :=
  match cols with
  | [] => None
  | c' :: cols' =>
      if bool_decide (c = c') then Some 0%nat
      else option_map S (col_index c cols')
  end.

(** The cell of row [r] under label [c]; a cell that the row does not
    carry reads as NaN, as pandas stores it. *)
Definition cell (cols : list string) (r : row) (c : string) : value :=
  match col_index c cols with
  | Some i => nth i r VNaN
  | None => VNaN
  end.

(** The cells under label [c], row by row. *)
Definition column (df : DataFrame) (c : string) : list value :=
  map (fun r => cell (columns df) r c) (rows df).

(** [df[c]]: the column as a list, [KeyError] for an unknown label. *)
Definition getcol (df : DataFrame) (c : string) : result (list value) :=
  if has_column df c then Ok (column df c) else Raise (KeyError c).

(** [df[mask]] with the mask computed row by row. *)
Definition select (df : DataFrame) (p : row -> bool) : DataFrame :=
  mkDataFrame (columns df) (List.filter p (rows df)).

(** [df[df[c] == v]] *)
Definition filter_eq (df : DataFrame) (c : string) (v : value) : result DataFrame :=
  if has_column df c
  then Ok (select df (fun r => py_eq (cell (columns df) r c) v))
  else Raise (KeyError c).

(** [df[df[c].isin(vs)]] *)
Definition filter_isin (df : DataFrame) (c : string) (vs : list value) : result DataFrame :=
  if has_column df c
  then Ok (select df (fun r => isin (cell (columns df) r c) vs))
  else Raise (KeyError c).

(** [df.iloc[0]] *)
Definition iloc0 (df : DataFrame) : result row :=
  match rows df with
  | r :: _ => Ok r
  | [] => Raise IndexError
  end.

(** [series.get(c, default)] on a row taken from [df]. *)
Definition series_get (df : DataFrame) (r : row) (c : string) (default : value) : value :=
  if has_column df c then cell (columns df) r c else default.

(** [row[c]] on a row taken from [df]. *)
Definition series_item (df : DataFrame) (r : row) (c : string) : result value :=
  if has_column df c then Ok (cell (columns df) r c) else Raise (KeyError c).

(** *** Sorting

    [df.sort_values(c)]: ascending, NaN last.  Keys that mix strings and
    numbers cannot be ordered ([TypeError]).  The insertion sort is stable;
    pandas leaves the relative order of equal keys unspecified. *)

Definition key_leb (a b : value) : bool :=
  match a, b with
  | _, VNaN => true
  | VNaN, _ => false
  | VInt m, VInt n => Z.leb m n
  | VStr s, VStr t => String.leb s t
  | VInt _, VStr _ => true
  | VStr _, VInt _ => false
  end.

Definition is_str (v : value) : bool :=
  match v with VStr _ => true | _ => false end.

Definition is_int (v : value) : bool :=
  match v with VInt _ => true | _ => false end.

Definition orderable (keys : list value) : bool :=
  negb (existsb is_str keys && existsb is_int keys).

Fixpoint insert_by {A : Type} (key : A -> value) (x : A) (l : list A) : list A :=
  match l with
  | [] => [x]
  | y :: l' =>
      if key_leb (key x) (key y) then x :: l
      else y :: insert_by key x l'
  end.

Fixpoint sort_by {A : Type} (key : A -> value) (l : list A) : list A :=
  match l with
  | [] => []
  | x :: l' => insert_by key x (sort_by key l')
  end.

Definition sort_values (df : DataFrame) (c : string) : result DataFrame :=
  keys ← getcol df c;
  if orderable keys
  then Ok (mkDataFrame (columns df)
             (sort_by (fun r => cell (columns df) r c) (rows df)))
  else Raise TypeError.

(** ** Geometry *)

(** A shapely [LineString]: its coordinate pairs, x first. *)
Record LineString : Type := mkLineString { coords : list (value * value) }.

Record Point : Type := mkPoint { point_x : value; point_y : value }.

(** Coordinates have to be numbers. *)
Definition LineString_new (cs : list (value * value)) : result LineString :=
  if existsb (fun xy => is_str (fst xy) || is_str (snd xy)) cs
  then Raise TypeError
  else Ok (mkLineString cs).

Definition Point_new (x y : value) : result Point :=
  if is_str x || is_str y then Raise TypeError else Ok (mkPoint x y).

(** ** Text of Python values *)

Definition dquote : ascii := ascii_of_nat 34.
Definition squote : ascii := ascii_of_nat 39.
Definition backslash : ascii := ascii_of_nat 92.

Fixpoint contains_char (c : ascii) (s : string) : bool :=
  match s with
  | EmptyString => false
  | String a s' => bool_decide (a = c) || contains_char c s'
  end.

Definition hex_digit (n : nat) : ascii :=
  nth n (list_ascii_of_string "0123456789abcdef") "0"%char.

(** One character of [repr(str)] inside the quote [q].  Bytes above 127
    belong to printable text and are kept. *)
Definition repr_char (q : ascii) (a : ascii) : string :=
  let n := nat_of_ascii a in
  if bool_decide (a = q) || bool_decide (a = backslash)
  then String backslash (String a EmptyString)
  else if bool_decide (n = 9%nat) then String backslash "t"
  else if bool_decide (n = 10%nat) then String backslash "n"
  else if bool_decide (n = 13%nat) then String backslash "r"
  else if bool_decide (n < 32)%nat || bool_decide (n = 127%nat)
  then String backslash
         (String "x" (String (hex_digit (n / 16)) (String (hex_digit (n mod 16)) EmptyString)))
  else String a EmptyString.

Fixpoint repr_chars (q : ascii) (s : string) : string :=
  match s with
  | EmptyString => EmptyString
  | String a s' => repr_char q a ++ repr_chars q s'
  end.

(** [repr(s)]: single quotes, unless [s] has a single quote and no double
    quote. *)
Definition repr_str (s : string) : string :=
  let q := if contains_char squote s && negb (contains_char dquote s)
           then dquote else squote in
  String q (repr_chars q s ++ String q EmptyString).

(** [str(n)] for an integer. *)
Definition str_of_Z (n : Z) : string := NilZero.string_of_int (Z.to_int n).

Definition repr_value (v : value) : string :=
  match v with
  | VStr s => repr_str s
  | VInt n => str_of_Z n
  | VNaN => "nan"
  end.

Fixpoint join (sep : string) (l : list string) : string :=
  match l with
  | [] => ""
  | [s] => s
  | s :: l' => s ++ sep ++ join sep l'
  end.

(** [repr] of a list, as an f-string interpolates it. *)
Definition repr_list (l : list value) : string :=
  "[" ++ join ", " (map repr_value l) ++ "]".

(** ** Python sets of cell values

    The elements of a set are kept as a duplicate-free list.  The order in
    which [list(s)] enumerates a set is not theirs: it follows the hashes of
    the elements, and the hash of a string changes from one run of the
    interpreter to the next.  The missing cells of a column count as one
    element: gtfs_kit reads the identifier columns as text, where every
    missing cell is the same NaN object, which a set finds by identity. *)

Definition py_set (l : list value) : list value := unique l.

Definition set_difference (a b : list value) : list value :=
  List.filter (fun v => negb (isin v b)) a.

(** What one run of the interpreter makes of [list(set(a) - set(b))]: the
    elements of the difference, in an order of its own. *)
Class PythonSets : Type := {
  list_difference : list value -> list value -> list value;
  list_difference_perm :
    forall a b, Permutation (list_difference a b) (set_difference (py_set a) (py_set b))
}.

(** ** Calendar dates

    A [datetime.date] is identified by its proleptic Gregorian ordinal
    ([date.toordinal()], 0001-01-01 is day 1): CPython orders dates as it
    orders their ordinals, adds a [timedelta] on the ordinal, and derives
    the weekday from it. *)

Record date : Type := mkDate { toordinal : Z }.

#[global] Instance date_eq_dec : EqDecision date.
Proof. solve_decision. Defined.

Definition is_leap (year : Z) : bool :=
  Z.eqb (year mod 4) 0 && (negb (Z.eqb (year mod 100) 0) || Z.eqb (year mod 400) 0).

Definition days_before_year (year : Z) : Z :=
  let y := year - 1 in
  y * 365 + y / 4 - y / 100 + y / 400.

Definition days_in_month (year month : Z) : Z :=
  if Z.eqb month 2 && is_leap year then 29
  else nth (Z.to_nat month) [-1; 31; 28; 31; 30; 31; 30; 31; 31; 30; 31; 30; 31] (-1).

Definition days_before_month (year month : Z) : Z :=
  nth (Z.to_nat month) [-1; 0; 31; 59; 90; 120; 151; 181; 212; 243; 273; 304; 334] (-1)
  + (if Z.ltb 2 month && is_leap year then 1 else 0).

Definition ymd2ord (year month day : Z) : Z :=
  days_before_year year + days_before_month year month + day.

Definition date_of_ymd (year month day : Z) : date :=
  mkDate (ymd2ord year month day).

(** [d.weekday()]: Monday is 0. *)
Definition weekday (d : date) : Z := (toordinal d + 6) mod 7.

(** [date.max] is 9999-12-31. *)
Definition date_max_ordinal : Z := ymd2ord 9999 12 31.

(** [pd.Timedelta(days=1) + d]: the next day; after [date.max] there is
    none. *)
Definition add_day (d : date) : result date :=
  if Z.ltb (toordinal d) date_max_ordinal then Ok (mkDate (toordinal d + 1))
  else Raise OverflowError.

Definition date_leb (a b : date) : bool := Z.leb (toordinal a) (toordinal b).

(** The days a nanosecond-resolution pandas [Timestamp] can hold at
    midnight: 1677-09-22 to 2262-04-11. *)
Definition ns_min_day : Z := ymd2ord 1677 9 22.
Definition ns_max_day : Z := ymd2ord 2262 4 11.

(** What the releases of pandas do differently in [to_datetime].  In
    pandas 2 the result is a nanosecond [Timestamp], and a date outside its
    range raises [OutOfBoundsDatetime]; pandas 3 keeps the second as unit
    and holds every date of the calendar.  The range is the pair of
    [Timestamp_min_day] and [Timestamp_max_day].  An argument other than a
    text of eight ASCII digits or a missing value (a month or a day of one
    digit, digits of another script, a number, the empty text) is read by
    [to_datetime_other]. *)
Class Pandas : Type := {
  Timestamp_min_day : Z;
  Timestamp_max_day : Z;
  Timestamp_holds_ns :
    Z.leb Timestamp_min_day ns_min_day && Z.leb ns_max_day Timestamp_max_day = true;
  to_datetime_other : value -> result (option date)
}.

Definition is_digit (a : ascii) : bool :=
  let n := nat_of_ascii a in
  bool_decide (48 <= n)%nat && bool_decide (n <= 57)%nat.

Definition digit_value (a : ascii) : Z := Z.of_nat (nat_of_ascii a) - 48.

Fixpoint digits_to_Z (acc : Z) (s : string) : option Z :=
  match s with
  | EmptyString => Some acc
  | String a s' =>
      if is_digit a then digits_to_Z (10 * acc + digit_value a) s'
      else None
  end.

Section to_datetime.
Context `{Pandas}.

(** The date written by the eight digits of [n] read as YYYYMMDD. *)
Definition date_of_yyyymmdd (n : Z) : result (option date) :=
  let year := n / 10000 in
  let month := (n / 100) mod 100 in
  let day := n mod 100 in
  if negb (Z.leb 1 year && Z.leb year 9999) then Raise (ValueError "year")
  else if negb (Z.leb 1 month && Z.leb month 12) then Raise (ValueError "month")
  else if negb (Z.leb 1 day && Z.leb day (days_in_month year month))
  then Raise (ValueError "day")
  else
    let o := ymd2ord year month day in
    if Z.leb Timestamp_min_day o && Z.leb o Timestamp_max_day
    then Ok (Some (mkDate o))
    else Raise OutOfBoundsDatetime.

(** [pd.to_datetime(v, format='%Y%m%d').date()].  [None] is [NaT], what a
    missing cell gives. *)
Definition to_datetime (v : value) : result (option date) :=
  match v with
  | VNaN => Ok None
  | VInt _ => to_datetime_other v
  | VStr s =>
      if bool_decide (String.length s = 8%nat) then
        match digits_to_Z 0 s with
        | Some n => date_of_yyyymmdd n
        | None => to_datetime_other v
        end
      else to_datetime_other v
  end.

End to_datetime.

(** ** GTFSProcessor *)

(** How [os.path] sees [gtfs_path]. *)
Inductive path_kind : Type := ZipFile | Directory | NoFeedPath.

(** What [self.gtfs_data] holds under a table name: the frame gtfs_kit read,
    or [None]. *)
Inductive table_or_none : Type :=
  | PyNone
  | Frame (df : DataFrame).

(** A gtfs_kit [Feed], given by the tables that were read from its files.
    The object has one attribute for every table of the GTFS reference,
    whether the feed has the file or not. *)
Definition Feed : Type := gmap string DataFrame.

Definition required_files : list string :=
  ["agency"; "stops"; "routes"; "trips"; "stop_times"; "calendar"].

Definition optional_files : list string :=
  ["calendar_dates"; "fare_attributes"; "fare_rules";
   "shapes"; "frequencies"; "transfers"; "feed_info"].

(** The table attributes of a [Feed]: the thirteen names the loaders ask
    for are among them in every release of gtfs_kit. *)
Definition feed_attributes : list string := (required_files ++ optional_files)%list.

(** [hasattr(feed, name)] *)
Definition hasattr (fd : Feed) (name : string) : bool :=
  bool_decide (name ∈ feed_attributes).

(** [getattr(feed, name)] for a table attribute: [None] when the feed has no
    such file, and when the file has no row ([read_feed] keeps a table only
    [if not df.empty]). *)
Definition getattr (fd : Feed) (name : string) : table_or_none :=
  match fd !! name with
  | Some df => if empty df then PyNone else Frame df
  | None => PyNone
  end.

Record GTFSProcessor : Type := mkGTFSProcessor {
  gtfs_path : string;
  gtfs_data : gmap string table_or_none;
  feed : option Feed
}.

(** The loop shared by the two loaders: store the attribute of the feed
    object under each of [names] that the object has. *)
Definition load_files (names : list string) (fd : Feed)
    (data : gmap string table_or_none) : gmap string table_or_none :=
  foldl (fun acc file_name =>
           if hasattr fd file_name
           then <[file_name := getattr fd file_name]> acc
           else acc) data names.

Definition _load_required_files (fd : Feed) (data : gmap string table_or_none)
    : gmap string table_or_none :=
  load_files required_files fd data.

Definition _load_optional_files (fd : Feed) (data : gmap string table_or_none)
    : gmap string table_or_none :=
  load_files optional_files fd data.

(** [__init__] with [load_gtfs_data]: [read_feed] is what [gk.read_feed]
    gives for the path. *)
Definition load_gtfs_data (path : string) (kind : path_kind)
    (read_feed : result Feed) : result GTFSProcessor :=
  fd ← match kind with
       | ZipFile | Directory => read_feed
       | NoFeedPath => Raise (ValueError "Invalid GTFS path")
       end;
  Ok (mkGTFSProcessor path
        (_load_optional_files fd (_load_required_files fd ∅)) (Some fd)).

(** [self.gtfs_data.get(name, pd.DataFrame())]: the default is for a name
    that is no key; a key that holds [None] gives [None]. *)
Definition table (self : GTFSProcessor) (name : string) : table_or_none :=
  default (Frame DataFrame_new) (gtfs_data self !! name).

(** The frame behind [t] where the code reads an attribute of [t]
    ([t.empty]): [None] has no attribute. *)
Definition getattr_frame (t : table_or_none) (attr : string) : result DataFrame :=
  match t with
  | Frame df => Ok df
  | PyNone => Raise (AttributeError attr)
  end.

(** The frame behind [t] where the code subscripts [t] or takes its length:
    [None] allows neither. *)
Definition subscript_frame (t : table_or_none) : result DataFrame :=
  match t with
  | Frame df => Ok df
  | PyNone => Raise TypeError
  end.

(** The lines shared by the filtered accessors,
    [if arg and not t.empty: t = t[t[c] == arg]].  [t.empty] is read for a
    truthy [arg] only. *)
Definition filter_if_given (t : table_or_none) (c : string) (arg : option value)
    : result table_or_none :=
  if truthy arg then
    df ← getattr_frame t "empty";
    if negb (empty df)
    then df ← filter_eq df c (default VNaN arg); Ok (Frame df)
    else Ok t
  else Ok t.

Definition get_routes (self : GTFSProcessor) : table_or_none := table self "routes".

Definition get_stops (self : GTFSProcessor) : table_or_none := table self "stops".

Definition get_trips (self : GTFSProcessor) (route_id : option value)
    : result table_or_none :=
  let trips := table self "trips" in
  filter_if_given trips "route_id" route_id.

Definition get_stop_times (self : GTFSProcessor) (trip_id : option value)
    : result table_or_none :=
  let stop_times := table self "stop_times" in
  filter_if_given stop_times "trip_id" trip_id.

Definition get_route_stops (self : GTFSProcessor) (route_id : string) : result DataFrame :=
  trips ← get_trips self (Some (VStr route_id));
  trips ← getattr_frame trips "empty";
  if empty trips then Ok DataFrame_new
  else
    trip_col ← getcol trips "trip_id";
    let trip_ids := unique trip_col in
    stop_times ← get_stop_times self None;
    stop_times ← subscript_frame stop_times;
    route_stop_times ← filter_isin stop_times "trip_id" trip_ids;
    if empty route_stop_times then Ok DataFrame_new
    else
      stops ← subscript_frame (get_stops self);
      _ ← getcol stops "stop_id";
      stop_col ← getcol route_stop_times "stop_id";
      filter_isin stops "stop_id" (unique stop_col).

Definition get_shapes (self : GTFSProcessor) (shape_id : option value)
    : result table_or_none :=
  let shapes := table self "shapes" in
  filter_if_given shapes "shape_id" shape_id.

Definition get_calendar (self : GTFSProcessor) (service_id : option value)
    : result table_or_none :=
  let calendar := table self "calendar" in
  filter_if_given calendar "service_id" service_id.

Definition get_frequencies (self : GTFSProcessor) (trip_id : option value)
    : result table_or_none :=
  let frequencies := table self "frequencies" in
  filter_if_given frequencies "trip_id" trip_id.

Definition get_transfers (self : GTFSProcessor) (from_stop_id to_stop_id : option value)
    : result table_or_none :=
  let transfers := table self "transfers" in
  transfers ← filter_if_given transfers "from_stop_id" from_stop_id;
  filter_if_given transfers "to_stop_id" to_stop_id.

(** The list comprehension over [shapes.iterrows()]. *)
Fixpoint shape_coords (shapes : DataFrame) (rs : list row) : result (list (value * value)) :=
  match rs with
  | [] => Ok []
  | r :: rs' =>
      lon ← series_item shapes r "shape_pt_lon";
      lat ← series_item shapes r "shape_pt_lat";
      rest ← shape_coords shapes rs';
      Ok ((lon, lat) :: rest)
  end.

Definition get_route_geometry (self : GTFSProcessor) (route_id : string)
    : result (option LineString) :=
  trips ← get_trips self (Some (VStr route_id));
  trips ← getattr_frame trips "empty";
  if empty trips || negb (has_column trips "shape_id") then Ok None
  else
    shape_col ← getcol trips "shape_id";
    let shape_id := hd VNaN shape_col in
    if isna shape_id then Ok None
    else
      shapes ← get_shapes self (Some shape_id);
      shapes ← getattr_frame shapes "empty";
      if empty shapes then Ok None
      else
        shapes ← sort_values shapes "shape_pt_sequence";
        cs ← shape_coords shapes (rows shapes);
        if bool_decide (1 < length cs)%nat
        then line ← LineString_new cs; Ok (Some line)
        else Ok None.

Definition get_stop_geometry (self : GTFSProcessor) (stop_id : string) : result (option Point) :=
  stops ← getattr_frame (get_stops self) "empty";
  if empty stops then Ok None
  else
    stop ← filter_eq stops "stop_id" (VStr stop_id);
    if empty stop then Ok None
    else
      r ← iloc0 stop;
      x ← series_item stop r "stop_lon";
      y ← series_item stop r "stop_lat";
      p ← Point_new x y;
      Ok (Some p).

(** The dictionary [calculate_route_stats] fills; the empty dictionary is
    [None] below. *)
Record RouteStats : Type := mkRouteStats {
  route_id : string;
  total_trips : nat;
  total_stops : nat;
  directions : nat;
  service_ids : nat;
  has_shapes : bool;
  wheelchair_accessible_trips : nat;
  bikes_allowed_trips : nat
}.

(** [(series == 1).sum()] *)
Definition count_eq_1 (col : list value) : nat :=
  length (List.filter (fun v => py_eq v (VInt 1)) col).

(** The entries of the dictionary are computed in the order they are
    written: [shapes.empty] is read after the service_id column. *)
Definition calculate_route_stats (self : GTFSProcessor) (rid : string)
    : result (option RouteStats) :=
  trips ← get_trips self (Some (VStr rid));
  trips ← getattr_frame trips "empty";
  if empty trips then Ok None
  else
    route_stops ← get_route_stops self rid;
    shapes ← get_shapes self None;
    dirs ← (if has_column trips "direction_id"
            then col ← getcol trips "direction_id"; Ok (nunique col)
            else Ok 1%nat);
    services ← getcol trips "service_id";
    shapes ← getattr_frame shapes "empty";
    let stats :=
      mkRouteStats rid (len trips) (len route_stops) dirs (nunique services)
        (negb (empty shapes) && has_column trips "shape_id") 0 0 in
    stats ←
      (if has_column trips "wheelchair_accessible"
       then col ← getcol trips "wheelchair_accessible";
            Ok (mkRouteStats (route_id stats) (total_trips stats) (total_stops stats)
                  (directions stats) (service_ids stats) (has_shapes stats)
                  (count_eq_1 col) (bikes_allowed_trips stats))
       else Ok stats);
    stats ←
      (if has_column trips "bikes_allowed"
       then col ← getcol trips "bikes_allowed";
            Ok (mkRouteStats (route_id stats) (total_trips stats) (total_stops stats)
                  (directions stats) (service_ids stats) (has_shapes stats)
                  (wheelchair_accessible_trips stats) (count_eq_1 col))
       else Ok stats);
    Ok (Some stats).

(** *** Service dates *)

Definition days_map : list (string * Z) :=
  [("monday", 0); ("tuesday", 1); ("wednesday", 2); ("thursday", 3);
   ("friday", 4); ("saturday", 5); ("sunday", 6)].

(** The loop over [days_map.items()]. *)
Definition active_days (calendar : DataFrame) (service : row) : list Z :=
  foldl (fun acc dw =>
           if py_eq (series_get calendar service (fst dw) (VInt 0)) (VInt 1)
           then (acc ++ [snd dw])%list
           else acc) [] days_map.

(** [a <= b] where either side may be [NaT]: [NaT] compares false with
    [NaT], and cannot be compared with a [datetime.date]. *)
Definition nat_leb (a b : option date) : result bool :=
  match a, b with
  | Some x, Some y => Ok (date_leb x y)
  | None, None => Ok false
  | _, _ => Raise TypeError
  end.

(** The [while current_date <= end_date] loop; [None] when [fuel] rounds
    do not reach its end. *)
Fixpoint generate_dates (fuel : nat) (active : list Z) (end_date : option date)
    (current_date : option date) (dates : list date) : option (result (list date)) :=
  match fuel with
  | O => None
  | S fuel' =>
      match nat_leb current_date end_date, current_date with
      | Raise e, _ => Some (Raise e)
      | Ok true, Some cur =>
          let dates :=
            if bool_decide (weekday cur ∈ active) then (dates ++ [cur])%list else dates in
          match add_day cur with
          | Ok next => generate_dates fuel' active end_date (Some next) dates
          | Raise e => Some (Raise e)
          end
      | Ok _, _ => Some (Ok dates)
      end
  end.

(** Rounds that suffice for the loop between two dates. *)
Definition rounds (start_date end_date : option date) : nat :=
  match start_date, end_date with
  | Some s, Some e => S (Z.to_nat (toordinal e - toordinal s + 1))
  | _, _ => 1%nat
  end.

Section service_dates.
Context `{Pandas}.

(** [None] stands for a loop that has not finished (see
    [get_service_dates_terminates]). *)
Definition get_service_dates (self : GTFSProcessor) (service_id : string)
    : option (result (list date)) :=
  match (calendar ← get_calendar self (Some (VStr service_id));
         getattr_frame calendar "empty") with
  | Raise e => Some (Raise e)
  | Ok calendar =>
      if empty calendar then Some (Ok [])
      else
        match (service ← iloc0 calendar;
               s ← series_item calendar service "start_date";
               start_date ← to_datetime s;
               e ← series_item calendar service "end_date";
               end_date ← to_datetime e;
               Ok (service, start_date, end_date)) with
        | Raise e => Some (Raise e)
        | Ok (service, start_date, end_date) =>
            let active := active_days calendar service in
            generate_dates (rounds start_date end_date) active end_date start_date []
        end
  end.

End service_dates.

(** *** Validation *)

Record ValidationResults : Type := mkValidationResults {
  valid : bool;
  errors : list string;
  warnings : list string;
  file_counts : gmap string nat
}.

Definition add_error (vr : ValidationResults) (msg : string) : ValidationResults :=
  mkValidationResults (valid vr) (errors vr ++ [msg])%list (warnings vr) (file_counts vr).

Section validation.
Context `{PythonSets}.

(** One check of [_validate_data_consistency], under the test
    [if not referring.empty and not referred.empty]: the identifiers of
    [referring[c]] that [referred[c]] lacks, reported (five at most, as the
    set enumerates them) when there are some. *)
Definition check_references (vr : ValidationResults) (referring referred : table_or_none)
    (c : string) (msg : string) : result ValidationResults :=
  referring ← getattr_frame referring "empty";
  if empty referring then Ok vr
  else
    referred ← getattr_frame referred "empty";
    if empty referred then Ok vr
    else
      used ← getcol referring c;
      known ← getcol referred c;
      let missing := list_difference used known in
      match missing with
      | [] => Ok vr
      | _ :: _ => Ok (add_error vr (msg ++ repr_list (take 5 missing)))
      end.

Definition _validate_data_consistency (self : GTFSProcessor) (vr : ValidationResults)
    : result ValidationResults :=
  trips ← get_trips self None;
  let routes := get_routes self in
  vr ← check_references vr trips routes "route_id" "Trips reference missing routes: ";
  stop_times ← get_stop_times self None;
  let stops := get_stops self in
  vr ← check_references vr stop_times stops "stop_id" "Stop times reference missing stops: ";
  check_references vr stop_times trips "trip_id" "Stop times reference missing trips: ".

(** One round of the loop over the required files, under the test
    [file_name not in self.gtfs_data or self.gtfs_data[file_name].empty]. *)
Definition check_required_file (self : GTFSProcessor) (vr : ValidationResults)
    (file_name : string) : result ValidationResults :=
  let missing :=
    mkValidationResults false
      (errors vr ++ [("Missing required file: " ++ file_name ++ ".txt")%string])%list
      (warnings vr) (file_counts vr) in
  match gtfs_data self !! file_name with
  | None => Ok missing
  | Some t =>
      df ← getattr_frame t "empty";
      if empty df then Ok missing
      else
        Ok (mkValidationResults (valid vr) (errors vr) (warnings vr)
              (<[file_name := len df]> (file_counts vr)))
  end.

(** The loop over the required files. *)
Definition check_required_files (self : GTFSProcessor) (vr : ValidationResults)
    : result ValidationResults :=
  foldl (fun acc file_name => vr ← acc; check_required_file self vr file_name)
    (Ok vr) required_files.

Definition validate_gtfs_data (self : GTFSProcessor) : result ValidationResults :=
  let validation_results := mkValidationResults true [] [] ∅ in
  validation_results ← check_required_files self validation_results;
  if valid validation_results
  then _validate_data_consistency self validation_results
  else Ok validation_results.

End validation.

(** *** Summary *)

(** The dictionary [get_gtfs_summary] returns.  [feed_info] is the first
    feed_info row as label and cell pairs ([Series.to_dict]), empty when
    there is none. *)
Record Summary : Type := mkSummary {
  summary_feed_info : list (string * value);
  agencies : nat;
  routes : nat;
  stops : nat;
  trips : nat;
  stop_times : nat;
  shapes : nat;
  calendar_services : nat;
  has_frequencies : bool;
  has_transfers : bool;
  has_feed_info : bool;
  route_types : list value
}.

(** [len(self.gtfs_data.get(name, []))]: the length of the empty list for a
    name that is no key; [None] has no length. *)
Definition table_len (self : GTFSProcessor) (name : string) : result nat :=
  match gtfs_data self !! name with
  | Some t => df ← subscript_frame t; Ok (len df)
  | None => Ok 0%nat
  end.

(** [name in self.gtfs_data] *)
Definition has_table (self : GTFSProcessor) (name : string) : bool :=
  bool_decide (is_Some (gtfs_data self !! name)).

(** [row.to_dict()] for a row of [df]. *)
Definition to_dict (df : DataFrame) (r : row) : list (string * value) :=
  map (fun c => (c, cell (columns df) r c)) (columns df).

(** The entries of the dictionary are computed in the order they are
    written, then the route types, then the feed info. *)
Definition get_gtfs_summary (self : GTFSProcessor) : result Summary :=
  n_agency ← table_len self "agency";
  n_routes ← table_len self "routes";
  n_stops ← table_len self "stops";
  n_trips ← table_len self "trips";
  n_stop_times ← table_len self "stop_times";
  n_shapes ← table_len self "shapes";
  n_calendar ← table_len self "calendar";
  let frequencies_key := has_table self "frequencies" in
  let transfers_key := has_table self "transfers" in
  let feed_info_key := has_table self "feed_info" in
  routes_table ← getattr_frame (get_routes self) "empty";
  let types :=
    if negb (empty routes_table) && has_column routes_table "route_type"
    then unique (column routes_table "route_type")
    else [] in
  info ←
    match gtfs_data self !! "feed_info" with
    | Some feed_info =>
        feed_info ← getattr_frame feed_info "empty";
        if negb (empty feed_info)
        then r ← iloc0 feed_info; Ok (to_dict feed_info r)
        else Ok []
    | None => Ok []
    end;
  Ok (mkSummary info n_agency n_routes n_stops n_trips n_stop_times n_shapes n_calendar
        frequencies_key transfers_key feed_info_key types).

(** ** Frame operations of the demand scripts *)

(** The cells of a row, one per label. *)
Definition cells (cols : list string) (r : row) : row :=
  map (cell cols r) cols.

(** [df[c] = values]: overwrite the column, or add it as the last one;
    the values must be as many as the rows. *)
Definition set_column (df : DataFrame) (c : string) (values : list value)
    : result DataFrame :=
  let cols := columns df in
  if negb (bool_decide (length values = length (rows df)))
  then Raise (ValueError "Length of values does not match length of index")
  else if has_column df c then
    Ok (mkDataFrame cols
          (zip_with (fun r v =>
                       map (fun c' => if bool_decide (c' = c) then v else cell cols r c') cols)
             (rows df) values))
  else
    Ok (mkDataFrame (cols ++ [c])%list
          (zip_with (fun r v => (cells cols r ++ [v])%list) (rows df) values)).

(** [df.dropna(subset=[c])] *)
Definition dropna (df : DataFrame) (c : string) : result DataFrame :=
  if has_column df c
  then Ok (select df (fun r => negb (isna (cell (columns df) r c))))
  else Raise (KeyError c).

(** [df[[c1, ..., cn]]] *)
Definition project (df : DataFrame) (cs : list string) : result DataFrame :=
  match List.filter (fun c => negb (has_column df c)) cs with
  | c :: _ => Raise (KeyError c)
  | [] => Ok (mkDataFrame cs (map (fun r => map (cell (columns df) r) cs) (rows df)))
  end.

(** [series.clip(lo, hi)] on a numeric cell; NaN stays NaN. *)
Definition clip (lo hi : Z) (n : Z) : Z := Z.min (Z.max n lo) hi.

Definition clip_value (lo hi : Z) (v : value) : value :=
  match v with
  | VInt n => VInt (clip lo hi n)
  | _ => v
  end.

(** [left.merge(right, on=key)]: inner join in the order of the left rows;
    a label other than the key carried by both sides gets [_x] and [_y]. *)
Definition merge (left right : DataFrame) (key : string) : result DataFrame :=
  if negb (has_column left key) || negb (has_column right key) then Raise (KeyError key)
  else
    let lcols := columns left in
    let rcols := List.filter (fun c => negb (bool_decide (c = key))) (columns right) in
    let out_l := map (fun c => if negb (bool_decide (c = key)) && bool_decide (c ∈ rcols)
                               then (c ++ "_x")%string else c) lcols in
    let out_r := map (fun c => if bool_decide (c ∈ lcols) then (c ++ "_y")%string else c) rcols in
    Ok (mkDataFrame (out_l ++ out_r)%list
          (flat_map (fun l =>
             map (fun r => (cells lcols l ++ map (cell (columns right) r) rcols)%list)
               (List.filter (fun r => same_value (cell lcols l key) (cell (columns right) r key))
                  (rows right)))
             (rows left))).

(** ** The random generator of numpy

    What the scripts use of [np.random]: [seed] installs the state a seed
    determines, whatever the state was; each draw returns a number and the
    next state. *)
Class NumpyRandom : Type := {
  rng : Type;
  seed : Z -> rng;
  randint : Z -> Z -> rng -> Z * rng;
  poisson : Z -> rng -> Z * rng
}.

(** [size=n] draws, one after the other. *)
Fixpoint draws {R : Type} (draw : R -> Z * R) (n : nat) (g : R) : list Z * R :=
  match n with
  | O => ([], g)
  | S n' =>
      let (x, g1) := draw g in
      let (xs, g2) := draws draw n' g1 in
      (x :: xs, g2)
  end.

(** A [for] loop threading a state. *)
Definition for_each {A S : Type} (l : list A) (body : A -> S -> S) (s : S) : S :=
  foldl (fun s a => body a s) s l.

(** ** Integers from text

    A Python [str] is kept as the bytes of its UTF-8 form, which is how a
    CSV file holds it; [int] works on its characters. *)

Definition continuation (b : N) : bool := (N.leb 128 b && N.ltb b 192)%N.

Definition two_bytes (b0 b1 : N) : option N :=
  if (N.leb 194 b0 && N.ltb b0 224)%N && continuation b1
  then Some ((b0 - 192) * 64 + (b1 - 128))%N
  else None.

Definition three_bytes (b0 b1 b2 : N) : option N :=
  let c := ((b0 - 224) * 4096 + (b1 - 128) * 64 + (b2 - 128))%N in
  if (N.leb 224 b0 && N.ltb b0 240)%N && continuation b1 && continuation b2
     && (N.leb 2048 c && negb (N.leb 55296 c && N.leb c 57343))%N
  then Some c
  else None.

Definition four_bytes (b0 b1 b2 b3 : N) : option N :=
  let c := ((b0 - 240) * 262144 + (b1 - 128) * 4096 + (b2 - 128) * 64 + (b3 - 128))%N in
  if (N.leb 240 b0 && N.ltb b0 245)%N && continuation b1 && continuation b2 && continuation b3
     && (N.leb 65536 c && N.leb c 1114111)%N
  then Some c
  else None.

(** The characters of a text.  A byte that begins no well-formed sequence
    stands for a character of its own, U+DC80 to U+DCFF, which is neither
    a digit nor a space (so [surrogateescape] decodes it). *)
Fixpoint code_points (s : string) : list N :=
  match s with
  | EmptyString => []
  | String a0 s1 =>
      let b0 := N_of_ascii a0 in
      if N.ltb b0 128%N then b0 :: code_points s1
      else
        match s1 with
        | String a1 s2 =>
            match two_bytes b0 (N_of_ascii a1) with
            | Some c => c :: code_points s2
            | None =>
                match s2 with
                | String a2 s3 =>
                    match three_bytes b0 (N_of_ascii a1) (N_of_ascii a2) with
                    | Some c => c :: code_points s3
                    | None =>
                        match s3 with
                        | String a3 s4 =>
                            match four_bytes b0 (N_of_ascii a1) (N_of_ascii a2)
                                    (N_of_ascii a3) with
                            | Some c => c :: code_points s4
                            | None => (56320 + b0)%N :: code_points s1
                            end
                        | EmptyString => (56320 + b0)%N :: code_points s1
                        end
                    end
                | EmptyString => (56320 + b0)%N :: code_points s1
                end
            end
        | EmptyString => [(56320 + b0)%N]
        end
  end.

(** What [int] asks of the interpreter.  [decimal] and [isspace] are
    [unicodedata.decimal] and [str.isspace] of its Unicode release, asked
    for the characters from U+0080 on.  [int_max_str_digits] is
    [sys.get_int_max_str_digits()], the most digits a number text may have:
    0 stands for no limit (as in the interpreters before the limit was
    introduced), and a limit is 640 at least. *)
Class PythonText : Type := {
  decimal : N -> option N;
  isspace : N -> bool;
  int_max_str_digits : nat;
  int_max_str_digits_range :
    Nat.eqb int_max_str_digits 0 || Nat.leb 640 int_max_str_digits = true
}.

(** [Py_ISSPACE]: the white space of the C locale. *)
Definition Py_ISSPACE (c : N) : bool := ((N.leb 9 c && N.leb c 13) || N.eqb c 32)%N.

Definition is_decimal (c : N) : bool := (N.leb 48 c && N.leb c 57)%N.

Definition underscore : N := 95%N.
Definition plus_sign : N := 43%N.
Definition minus_sign : N := 45%N.
Definition question_mark : N := 63%N.

Fixpoint skip_spaces (cs : list N) : list N :=
  match cs with
  | [] => []
  | c :: cs' => if Py_ISSPACE c then skip_spaces cs' else cs
  end.

(** The scan over digits and underscores that follows the sign: the value
    and the number of the digits, and the text after them.  [prev] is the
    character before; an underscore after an underscore and an underscore
    at the end are refused. *)
Fixpoint scan_digits (acc : Z) (digits : nat) (prev : N) (cs : list N)
    : option (Z * nat * list N) :=
  match cs with
  | [] => if N.eqb prev underscore then None else Some (acc, digits, [])
  | c :: cs' =>
      if is_decimal c then scan_digits (10 * acc + Z.of_N (c - 48)) (S digits) c cs'
      else if N.eqb c underscore then
        if N.eqb prev underscore then None else scan_digits acc digits c cs'
      else if N.eqb prev underscore then None
      else Some (acc, digits, cs)
  end.

Section int.
Context `{PythonText}.

(** The ASCII character [int] reads for a character: itself for an ASCII
    character, a blank for a space and the ASCII digit for a decimal digit
    of another script, and none for any other character. *)
Definition ascii_of (c : N) : option N :=
  if N.ltb c 128%N then Some c
  else if isspace c then Some 32%N
  else
    match decimal c with
    | Some d => if N.leb d 9%N then Some (48 + d)%N else None
    | None => None
    end.

(** The text [int] parses: the ASCII characters of the text, ended by a
    question mark at the first character that has none. *)
Fixpoint to_ascii (cs : list N) : list N :=
  match cs with
  | [] => []
  | c :: cs' =>
      match ascii_of c with
      | Some a => a :: to_ascii cs'
      | None => [question_mark]
      end
  end.

(** The parse of the ASCII text in base 10: white space, a sign, digits
    (at least one, no more than the limit, not led by an underscore), white
    space, and nothing else.  [None] is [ValueError]. *)
Definition long_from_string (cs : list N) : option Z :=
  let cs := skip_spaces cs in
  let negative := match cs with c :: _ => N.eqb c minus_sign | [] => false end in
  let cs :=
    match cs with
    | c :: cs' => if N.eqb c plus_sign || N.eqb c minus_sign then cs' else cs
    | [] => cs
    end in
  match cs with
  | c :: _ => if N.eqb c underscore then None
              else
                match scan_digits 0 0 0%N cs with
                | Some (n, digits, rest) =>
                    if Nat.eqb digits 0 then None
                    else if negb (Nat.eqb int_max_str_digits 0)
                            && Nat.ltb int_max_str_digits digits then None
                    else
                      match skip_spaces rest with
                      | [] => Some (if negative then - n else n)
                      | _ :: _ => None
                      end
                | None => None
                end
  | [] => None
  end.

(** [int(s)] for a string; [None] is [ValueError]. *)
Definition int_of_str (s : string) : option Z :=
  long_from_string (to_ascii (code_points s)).

End int.

(** ** simulate_demand.py *)

Module simulate_demand.

(** [time_str.split(":")[0]] *)
Fixpoint before_colon (s : string) : string :=
  match s with
  | EmptyString => EmptyString
  | String a s' =>
      if bool_decide (a = ":"%char) then EmptyString
      else String a (before_colon s')
  end.

Section parse_hour.
Context `{PythonText}.

(** The bare [except] turns every failure (a cell that is no string and
    has no [split], a prefix that [int] rejects) into NaN. *)
Definition parse_hour (time_str : value) : value :=
  match time_str with
  | VStr s =>
      match int_of_str (before_colon s) with
      | Some n => VInt (n mod 24)
      | None => VNaN
      end
  | _ => VNaN
  end.

(** The two statements under "Extract hour from arrival_time": the hour
    column is added and the rows without an hour are dropped. *)
Definition extract_hour (stop_times : DataFrame) : result DataFrame :=
  arrival ← getcol stop_times "arrival_time";
  stop_times ← set_column stop_times "hour" (map parse_hour arrival);
  dropna stop_times "hour".

End parse_hour.

Section script.
Context `{PythonText} `{NumpyRandom}.

(** The script on the three tables it reads, with the literal seed as
    [seed_value]; [g0] is the generator's state when the script
    starts. *)
Definition run_with (seed_value : Z) (stop_times trips calendar : DataFrame) (g0 : rng)
    : result DataFrame :=
  trips ← merge trips calendar "service_id";
  stop_times ← merge stop_times trips "trip_id";
  stop_times ← extract_hour stop_times;
  let g := seed seed_value in
  synthetic_data ← project stop_times ["route_id"; "stop_id"; "hour"];
  let (weekdays, g) := draws (randint 0 7) (len synthetic_data) g in
  synthetic_data ← set_column synthetic_data "weekday" (map VInt weekdays);
  let (counts, g) := draws (poisson 20) (len synthetic_data) g in
  synthetic_data ← set_column synthetic_data "passenger_count" (map VInt counts);
  counts ← getcol synthetic_data "passenger_count";
  set_column synthetic_data "passenger_count" (map (clip_value 0 100) counts).

Definition run : DataFrame -> DataFrame -> DataFrame -> rng -> result DataFrame :=
  run_with 42.
End script.

End simulate_demand.

(** ** generate_synthetic_demand.py *)

Module generate_synthetic_demand.

(** [f"{i:03d}"] *)
Definition format_03d (i : nat) : string :=
  let digits := NilZero.string_of_uint (Nat.to_uint i) in
  string_of_list_ascii (repeat "0"%char (3 - String.length digits)) ++ digits.

Definition ROUTES : list string := map (fun i => "R" ++ format_03d i) (seq 1 20).
Definition STOPS : list string := map (fun i => "ST" ++ format_03d i) (seq 1 50).
Definition HOURS : list Z := map Z.of_nat (seq 6 16).
Definition WEEKDAYS : list Z := map Z.of_nat (seq 0 7).

Definition output_columns : list string :=
  ["route_id"; "stop_id"; "hour"; "weekday"; "passenger_count"].

Section script.
Context `{NumpyRandom}.

(** The body of the innermost loop: one draw, one record appended. *)
Definition entry (route stop : string) (hour weekday : Z) (st : list row * rng)
    : list row * rng :=
  let (data, g) := st in
  let (base_demand, g) :=
    if (Z.leb 7 hour && Z.leb hour 9) || (Z.leb 16 hour && Z.leb hour 18)
    then poisson 35 g
    else if Z.leb 10 hour && Z.leb hour 15 then poisson 15 g
    else poisson 5 g in
  let passenger_count := clip 0 100 base_demand in
  ((data ++ [[VStr route; VStr stop; VInt hour; VInt weekday; VInt passenger_count]])%list,
   g).

(** The script with the literal seed as [seed_value]; [g0] is the
    generator's state when the script starts. *)
Definition run_with (seed_value : Z) (g0 : rng) : DataFrame :=
  let g := seed seed_value in
  let (data, _) :=
    for_each ROUTES (fun route =>
      for_each STOPS (fun stop =>
        for_each HOURS (fun hour =>
          for_each WEEKDAYS (fun weekday => entry route stop hour weekday))))
      ([], g) in
  mkDataFrame output_columns data.

Definition run : rng -> DataFrame := run_with 42.
End script.

End generate_synthetic_demand.

(** ** Vocabulary of the statements *)


(** A frame read from CSV text has no empty-string cell: an empty field is
    read as NaN. *)
Definition no_empty_cells (df : DataFrame) : bool :=
  forallb (fun r =>
             forallb (fun c => negb (same_value (cell (columns df) r c) (VStr "")))
               (columns df))
    (rows df).



(** A passenger_count cell as the scripts promise it: a number between 0
    and 100. *)
Definition bounded_count (cols : list string) (r : row) : Prop :=
  exists n, cell cols r "passenger_count" = VInt n /\ 0 <= n <= 100.

(** The point a shapes row stands for, longitude first. *)
Definition lon_lat (cols : list string) (r : row) : value * value :=
  (cell cols r "shape_pt_lon", cell cols r "shape_pt_lat").

Definition numeric_point (cols : list string) (r : row) : bool :=
  negb (is_str (cell cols r "shape_pt_lon") || is_str (cell cols r "shape_pt_lat")).

(** [n] is the number of distinct non-null values of [l]. *)
Definition distinct_count (l : list value) (n : nat) : Prop :=
  exists d, List.NoDup d /\ (forall v, In v d <-> In v l /\ v <> VNaN) /\ n = length d.

(** The number of rows whose cell under [c] equals 1. *)
Definition count_flagged (cols : list string) (c : string) (rs : list row) : nat :=
  length (List.filter (fun r => py_eq (cell cols r c) (VInt 1)) rs).

(** A table that the processor does not hold as a frame with rows: the name
    is no key of the dictionary, or it holds [None] or an empty frame. *)
Definition absent_or_empty (self : GTFSProcessor) (name : string) : bool :=
  match gtfs_data self !! name with
  | Some (Frame t) => empty t
  | _ => true
  end.

(** A name that holds [None]. *)
Definition holds_none (self : GTFSProcessor) (name : string) : bool :=
  match gtfs_data self !! name with
  | Some PyNone => true
  | _ => false
  end.

(** A name that is no key of the dictionary, or holds an empty frame. *)
Definition no_key_or_empty (self : GTFSProcessor) (name : string) : bool :=
  match gtfs_data self !! name with
  | None => true
  | Some (Frame t) => empty t
  | Some PyNone => false
  end.

(** The number of rows of the frame held under a name. *)
Definition rows_held (self : GTFSProcessor) (name : string) : nat :=
  match gtfs_data self !! name with
  | Some (Frame t) => len t
  | _ => 0%nat
  end.

(** The tables whose rows [get_gtfs_summary] counts, in the order it counts
    them. *)
Definition counted_tables : list string :=
  ["agency"; "routes"; "stops"; "trips"; "stop_times"; "shapes"; "calendar"].

(** A file of the feed that has rows. *)
Definition has_rows (fd : Feed) (name : string) : bool :=
  match fd !! name with
  | Some df => negb (empty df)
  | None => false
  end.

(** The error string for a missing required table. *)
Definition missing_file_error (name : string) : string :=
  "Missing required file: " ++ name ++ ".txt".

(** The value a decimal digit stands for. *)
Definition digit_of (c : N) : Z := Z.of_N (c - 48).

(** What may follow a digit of a number text: nothing, a digit, or an
    underscore and a digit, and so on.  [ds] are the values of the
    digits. *)
Inductive more_digits : list N -> list Z -> Prop :=
  | no_more : more_digits [] []
  | next_digit (c : N) (cs : list N) (ds : list Z) :
      is_decimal c = true -> more_digits cs ds ->
      more_digits (c :: cs) (digit_of c :: ds)
  | next_group (c : N) (cs : list N) (ds : list Z) :
      is_decimal c = true -> more_digits cs ds ->
      more_digits (underscore :: c :: cs) (digit_of c :: ds).

(** The number written by decimal digits, the first one leading. *)
Definition decimal_value (ds : list Z) : Z :=
  fold_left (fun acc d => 10 * acc + d) ds 0.

(** The ASCII texts that are a number in base 10, as the documentation of
    [int] has them: white space, a sign or none, digits with single
    underscores between them, white space.  [n] is the number and [k] the
    number of its digits. *)
Definition ascii_integer (cs : list N) (n : Z) (k : nat) : Prop :=
  exists before sign c body after ds,
    cs = (before ++ sign ++ c :: body ++ after)%list
    /\ forallb Py_ISSPACE before = true
    /\ forallb Py_ISSPACE after = true
    /\ is_decimal c = true
    /\ more_digits body ds
    /\ k = S (length ds)
    /\ (((sign = [] \/ sign = [plus_sign]) /\ n = decimal_value (digit_of c :: ds))
        \/ (sign = [minus_sign] /\ n = - decimal_value (digit_of c :: ds))).

(** The texts [int] reads as the number [n]: those which, with the spaces
    and the decimal digits of other scripts written in ASCII, are a number
    of no more digits than the interpreter allows. *)
Definition integer_text `{PythonText} (s : string) (n : Z) : Prop :=
  exists k,
    ascii_integer (to_ascii (code_points s)) n k
    /\ (int_max_str_digits = 0%nat \/ (k <= int_max_str_digits)%nat).

(** The values of the digits of a decimal numeral, the first one leading,
    and the ASCII character of a digit. *)
Fixpoint uint_digits (u : Decimal.uint) : list Z :=
  match u with
  | Decimal.Nil => []
  | Decimal.D0 u' => 0 :: uint_digits u'
  | Decimal.D1 u' => 1 :: uint_digits u'
  | Decimal.D2 u' => 2 :: uint_digits u'
  | Decimal.D3 u' => 3 :: uint_digits u'
  | Decimal.D4 u' => 4 :: uint_digits u'
  | Decimal.D5 u' => 5 :: uint_digits u'
  | Decimal.D6 u' => 6 :: uint_digits u'
  | Decimal.D7 u' => 7 :: uint_digits u'
  | Decimal.D8 u' => 8 :: uint_digits u'
  | Decimal.D9 u' => 9 :: uint_digits u'
  end.

Definition digit_code (d : Z) : N := Z.to_N (48 + d).

(** The text after a number stops the scan of its digits. *)
Definition stops_digits (rest : list N) : Prop :=
  match rest with
  | c :: _ => is_decimal c = false /\ N.eqb c underscore = false
  | [] => True
  end.

(** The values of [l] that [known] lacks, as the consistency checks see
    them. *)
Definition dangling (used known : list value) : list value :=
  set_difference (py_set used) (py_set known).

(** What one consistency check adds to the error list: nothing, or one
    string listing five of the dangling identifiers at most. *)
Definition reference_errors (msg : string) (missing : list value) : list string :=
  match missing with
  | [] => []
  | _ :: _ => [(msg ++ repr_list (take 5 missing))%string]
  end.

(** A record of the generated table: a route, a stop, an hour of service,
    a weekday and a count in range. *)
Definition generated_record (r : row) : Prop :=
  exists route stop hour weekday count,
    r = [VStr route; VStr stop; VInt hour; VInt weekday; VInt count]
    /\ In route generate_synthetic_demand.ROUTES
    /\ In stop generate_synthetic_demand.STOPS
    /\ 6 <= hour <= 21
    /\ 0 <= weekday <= 6
    /\ 0 <= count <= 100.

(** The rows of [df] whose cell under [c] equals [v]. *)
Definition matching (df : DataFrame) (c : string) (v : value) : list row :=
  List.filter (fun r => py_eq (cell (columns df) r c) v) (rows df).

(** ** Sample feeds *)

Module Samples.

Definition agency : DataFrame :=
  mkDataFrame ["agency_id"; "agency_name"] [[VStr "A1"; VStr "Metro"]].

Definition routes : DataFrame :=
  mkDataFrame ["route_id"; "route_type"] [[VStr "R1"; VInt 3]; [VStr "R2"; VInt 3]].

Definition stops : DataFrame :=
  mkDataFrame ["stop_id"; "stop_lat"; "stop_lon"]
    [[VStr "S1"; VInt 5; VInt 0]; [VStr "S2"; VInt 6; VInt (-1)]].

(** The trip of R1 has no shape; the trip of R2 follows SH1. *)
Definition trips : DataFrame :=
  mkDataFrame ["route_id"; "service_id"; "trip_id"; "shape_id"]
    [[VStr "R1"; VStr "WK"; VStr "T1"; VNaN];
     [VStr "R2"; VStr "WK"; VStr "T2"; VStr "SH1"]].

Definition stop_times : DataFrame :=
  mkDataFrame ["trip_id"; "arrival_time"; "stop_id"; "stop_sequence"]
    [[VStr "T1"; VStr "08:00:00"; VStr "S1"; VInt 1];
     [VStr "T1"; VStr "25:10:00"; VStr "S2"; VInt 2];
     [VStr "T2"; VStr "09:00:00"; VStr "S1"; VInt 1]].

(** As [stop_times], with a visit to a stop that [stops] does not list. *)
Definition stop_times_dangling : DataFrame :=
  mkDataFrame ["trip_id"; "arrival_time"; "stop_id"; "stop_sequence"]
    [[VStr "T1"; VStr "08:00:00"; VStr "S1"; VInt 1];
     [VStr "T1"; VStr "08:05:00"; VStr "S9"; VInt 2]].

(** Mondays of the first two weeks of 2024. *)
Definition calendar : DataFrame :=
  mkDataFrame
    ["service_id"; "monday"; "tuesday"; "wednesday"; "thursday"; "friday";
     "saturday"; "sunday"; "start_date"; "end_date"]
    [[VStr "S1"; VInt 1; VInt 0; VInt 0; VInt 0; VInt 0; VInt 0; VInt 0;
      VStr "20240101"; VStr "20240114"];
     [VStr "S1"; VInt 0; VInt 1; VInt 0; VInt 0; VInt 0; VInt 0; VInt 0;
      VStr "20240201"; VStr "20240229"]].

(** The first row of [calendar] alone. *)
Definition calendar_first_row : DataFrame :=
  mkDataFrame (columns calendar) (take 1 (rows calendar)).

Definition shapes : DataFrame :=
  mkDataFrame ["shape_id"; "shape_pt_lat"; "shape_pt_lon"; "shape_pt_sequence"]
    [[VStr "SH1"; VInt 6; VInt (-1); VInt 2];
     [VStr "SH1"; VInt 5; VInt 0; VInt 1];
     [VStr "SH2"; VInt 7; VInt 3; VInt 1]].

(** What [gk.read_feed] hands back for a complete feed. *)
Definition feed_full : Feed :=
  <["agency" := agency]> (<["stops" := stops]> (<["routes" := routes]>
  (<["trips" := trips]> (<["stop_times" := stop_times]>
  (<["calendar" := calendar]> (<["shapes" := shapes]> ∅)))))).

Definition feed_dangling : Feed :=
  <["stop_times" := stop_times_dangling]> feed_full.



Definition feed_first_row : Feed :=
  <["calendar" := calendar_first_row]> feed_full.

(** A feed without [stop_times.txt], and one without [shapes.txt]. *)
Definition feed_no_stop_times : Feed :=
  delete "stop_times" feed_full.

Definition feed_no_shapes : Feed :=
  delete "shapes" feed_full.

Definition processor (fd : Feed) : GTFSProcessor :=
  mkGTFSProcessor "feed.zip" (_load_optional_files fd (_load_required_files fd ∅)) (Some fd).

(** The dictionary of a processor from which a key was deleted by hand. *)
Definition without_key (self : GTFSProcessor) (name : string) : GTFSProcessor :=
  mkGTFSProcessor (gtfs_path self) (delete name (gtfs_data self)) (feed self).

End Samples.

(** ** Sample installations *)

Module Installation.

(** pandas 2: nanosecond timestamps.  What the release makes of an
    argument that is not a text of eight ASCII digits is not followed
    here: the stand-in refuses it. *)
Definition pandas_2 : Pandas := {|
  Timestamp_min_day := ns_min_day;
  Timestamp_max_day := ns_max_day;
  Timestamp_holds_ns := eq_refl;
  to_datetime_other := fun _ => Raise (ValueError "format")
|}.

(** pandas 3: every date from 0001-01-01 to 9999-12-31. *)
Definition pandas_3 : Pandas := {|
  Timestamp_min_day := 1;
  Timestamp_max_day := date_max_ordinal;
  Timestamp_holds_ns := eq_refl;
  to_datetime_other := fun _ => Raise (ValueError "format")
|}.

(** Two ways to enumerate a set: in the order of first insertion, and in
    the reverse order. *)
Definition insertion_order : PythonSets := {|
  list_difference := fun a b => set_difference (py_set a) (py_set b);
  list_difference_perm := fun a b => Permutation_refl _
|}.


(** The zero digits of the decimal digits of Unicode 14 from U+0080 on;
    the digits of a script follow its zero. *)
Definition decimal_zeros : list N :=
  [1632; 1776; 1984; 2406; 2534; 2662; 2790; 2918; 3046; 3174; 3302; 3430; 3558;
   3664; 3792; 3872; 4160; 4240; 6112; 6160; 6470; 6608; 6784; 6800; 6992; 7088;
   7232; 7248; 42528; 43216; 43264; 43472; 43504; 43600; 44016; 65296; 66720;
   68912; 69734; 69872; 69942; 70096; 70384; 70736; 70864; 71248; 71360; 71472;
   71904; 72016; 72784; 73040; 73120; 92768; 92864; 93008; 120782; 120792;
   120802; 120812; 120822; 123200; 123632; 125264; 130032]%N.

(** The spaces of Unicode 14 from U+0080 on. *)
Definition spaces : list N :=
  [133; 160; 5760; 8192; 8193; 8194; 8195; 8196; 8197; 8198; 8199; 8200; 8201;
   8202; 8232; 8233; 8239; 8287; 12288]%N.

(** CPython 3.11: Unicode 14, and 4300 digits at most. *)
Definition python_3_11 : PythonText := {|
  decimal := fun c =>
    match List.find (fun z => N.leb z c && N.ltb c (z + 10))%N decimal_zeros with
    | Some z => Some (c - z)%N
    | None => None
    end;
  isspace := fun c => existsb (N.eqb c) spaces;
  int_max_str_digits := 4300;
  int_max_str_digits_range := eq_refl
|}.

End Installation.

(** ** More sample tables *)

Module MoreSamples.

Definition transfers : DataFrame :=
  mkDataFrame ["from_stop_id"; "to_stop_id"; "transfer_type"]
    [[VStr "S1"; VStr "S2"; VInt 0];
     [VStr "S2"; VStr "S1"; VInt 0];
     [VStr "S1"; VStr "S1"; VInt 1]].

Definition feed_info : DataFrame :=
  mkDataFrame ["feed_publisher_name"; "feed_lang"] [[VStr "Metro"; VStr "en"]].

(** The complete feed with transfers and feed_info. *)
Definition feed_extended : Feed :=
  <["transfers" := transfers]> (<["feed_info" := feed_info]> Samples.feed_full).

(** A feed whose routes table was read without any row. *)
Definition feed_no_routes : Feed :=
  <["routes" := mkDataFrame (columns Samples.routes) []]> Samples.feed_full.

(** A calendar whose only service ends before it starts, and one that
    runs every day of one week. *)
Definition calendar_reversed : DataFrame :=
  mkDataFrame (columns Samples.calendar)
    [[VStr "S1"; VInt 1; VInt 1; VInt 1; VInt 1; VInt 1; VInt 1; VInt 1;
      VStr "20240114"; VStr "20240101"]].

Definition calendar_daily : DataFrame :=
  mkDataFrame (columns Samples.calendar)
    [[VStr "S1"; VInt 1; VInt 1; VInt 1; VInt 1; VInt 1; VInt 1; VInt 1;
      VStr "20240101"; VStr "20240107"]].

(** A calendar for the service of the sample trips. *)
Definition calendar_wk : DataFrame :=
  mkDataFrame (columns Samples.calendar)
    [[VStr "WK"; VInt 1; VInt 1; VInt 1; VInt 1; VInt 1; VInt 0; VInt 0;
      VStr "20240101"; VStr "20241231"]].

(** A stand-in for numpy's generator: the state is a counter, and a draw
    returns it (reduced to the asked range for [randint]). *)
#[local] Instance counting_random : NumpyRandom := {
  rng := Z;
  seed := fun s => s;
  randint := fun lo hi g => (lo + g mod (hi - lo), g + 1);
  poisson := fun lam g => (lam + g, g + 1)
}.

Definition feed_reversed_range : Feed :=
  <["calendar" := calendar_reversed]> Samples.feed_full.

Definition feed_daily : Feed :=
  <["calendar" := calendar_daily]> Samples.feed_full.

End MoreSamples.

(** * Properties *)

(** ** Results *)

Lemma bind_Ok {A B : Type} (a : A) (k : A -> result B) : (Ok a ≫= k) = k a.
Proof. reflexivity. Qed.

Lemma bind_Raise {A B : Type} (e : exn) (k : A -> result B) : (Raise e ≫= k) = Raise e.
Proof. reflexivity. Qed.

Lemma bind_Ok_inv {A B : Type} (r : result A) (k : A -> result B) (b : B) :
  (r ≫= k) = Ok b -> exists a, r = Ok a /\ k a = Ok b.
Proof. destruct r as [a|e]; simpl; [eauto | discriminate]. Qed.

(** Run the binds whose left side is known. *)
Ltac run := repeat (rewrite ?bind_Ok, ?bind_Raise; cbv beta).

(** ** Frames *)

Lemma getcol_has (df : DataFrame) (c : string) :
  has_column df c = true -> getcol df c = Ok (column df c).
Proof. unfold getcol. intros ->. reflexivity. Qed.

Lemma getcol_Ok_inv (df : DataFrame) (c : string) (l : list value) :
  getcol df c = Ok l -> has_column df c = true /\ l = column df c.
Proof.
  unfold getcol. destruct (has_column df c); [| discriminate].
  intros [= <-]. split; reflexivity.
Qed.

(** ** Cells and columns *)

Lemma py_eq_true (a b : value) : py_eq a b = true <-> a = b /\ a <> VNaN.
Proof.
  destruct a, b; simpl; rewrite ?bool_decide_eq_true; split;
    try discriminate; try (intros [? ?]; congruence);
    try (intros ->; split; congruence).
Qed.

Lemma has_column_true (df : DataFrame) (c : string) :
  has_column df c = true <-> In c (columns df).
Proof.
  unfold has_column. rewrite bool_decide_eq_true. apply list_elem_of_In.
Qed.

Lemma col_index_None (c : string) (cols : list string) :
  col_index c cols = None <-> ~ In c cols.
Proof.
  induction cols as [| c' cols IH]; simpl.
  - tauto.
  - case_bool_decide as Hc.
    + split; [discriminate | intros Hn; exfalso; apply Hn; left; congruence].
    + destruct (col_index c cols) eqn:E; simpl.
      * split; [discriminate |].
        intros Hn. exfalso. apply Hn. right.
        destruct (in_dec String.string_dec c cols) as [Hin | Hnin]; [exact Hin |].
        apply IH in Hnin. discriminate.
      * split; [| reflexivity].
        intros _ [Heq | Hin]; [congruence |].
        apply (proj1 IH); [reflexivity | exact Hin].
Qed.

Lemma cell_lacks (df : DataFrame) (r : row) (c : string) :
  has_column df c = false -> cell (columns df) r c = VNaN.
Proof.
  intros Hc. unfold cell.
  assert (Hn : ~ In c (columns df)).
  { rewrite <- has_column_true. congruence. }
  apply col_index_None in Hn. rewrite Hn. reflexivity.
Qed.

Lemma cell_not_nan_has_column (df : DataFrame) (r : row) (c : string) :
  cell (columns df) r c <> VNaN -> has_column df c = true.
Proof.
  intros Hv. destruct (has_column df c) eqn:E; [reflexivity |].
  exfalso. apply Hv. apply cell_lacks. exact E.
Qed.

Lemma series_item_has (df : DataFrame) (r : row) (c : string) :
  has_column df c = true -> series_item df r c = Ok (cell (columns df) r c).
Proof. unfold series_item. intros ->. reflexivity. Qed.

Lemma series_get_flag (df : DataFrame) (r : row) (c : string) :
  py_eq (series_get df r c (VInt 0)) (VInt 1) = true
  <-> cell (columns df) r c = VInt 1.
Proof.
  unfold series_get. destruct (has_column df c) eqn:E.
  - rewrite py_eq_true. split; [tauto | intros ->; split; congruence].
  - rewrite (cell_lacks _ _ _ E). simpl. split; discriminate.
Qed.

Lemma empty_false (df : DataFrame) :
  empty df = false <-> columns df <> [] /\ rows df <> [].
Proof.
  unfold empty. destruct (columns df), (rows df); split;
    try discriminate; try (intros [? ?]; congruence);
    intros _; split; discriminate.
Qed.

Lemma empty_no_rows (df : DataFrame) : rows df = [] -> empty df = true.
Proof. unfold empty. intros ->. destruct (columns df); reflexivity. Qed.

Lemma filter_first_match {A : Type} (p : A -> bool) (pre post : list A) (x : A) :
  (forall y, In y pre -> p y = false) ->
  p x = true ->
  List.filter p (pre ++ x :: post) = x :: List.filter p post.
Proof.
  intros Hpre Hx. induction pre as [| y pre IH]; simpl.
  - rewrite Hx. reflexivity.
  - rewrite (Hpre y (or_introl eq_refl)). apply IH.
    intros z Hz. apply Hpre. right. exact Hz.
Qed.

Lemma filter_no_match {A : Type} (p : A -> bool) (l : list A) :
  (forall y, In y l -> p y = false) -> List.filter p l = [].
Proof.
  intros Hl. induction l as [| y l IH]; simpl; [reflexivity |].
  rewrite (Hl y (or_introl eq_refl)). apply IH.
  intros z Hz. apply Hl. right. exact Hz.
Qed.

(** ** Construction *)

Lemma load_gtfs_data_sample (fd : Feed) :
  load_gtfs_data "feed.zip" ZipFile (Ok fd) = Ok (Samples.processor fd).
Proof. reflexivity. Qed.

Lemma load_files_lookup (names : list string) (fd : Feed) (name : string) :
  forall data : gmap string table_or_none,
    load_files names fd data !! name
    = if bool_decide (name ∈ names) && hasattr fd name
      then Some (getattr fd name)
      else data !! name.
Proof.
  unfold load_files. induction names as [| n names IH]; intros data; simpl.
  - reflexivity.
  - rewrite IH. clear IH.
    destruct (decide (name ∈ names)) as [Hin | Hnin].
    + rewrite (bool_decide_eq_true_2 (name ∈ names)) by exact Hin.
      rewrite (bool_decide_eq_true_2 (name ∈ n :: names))
        by (apply elem_of_cons; right; exact Hin).
      cbn [andb]. destruct (hasattr fd name) eqn:Hh; [reflexivity |].
      destruct (hasattr fd n) eqn:Hn; [| reflexivity].
      apply lookup_insert_ne. intros ->. congruence.
    + rewrite (bool_decide_eq_false_2 (name ∈ names)) by exact Hnin. cbn [andb].
      destruct (decide (n = name)) as [-> | Hne].
      * rewrite bool_decide_eq_true_2 by (apply elem_of_cons; left; reflexivity).
        cbn [andb]. destruct (hasattr fd name); [apply lookup_insert_eq | reflexivity].
      * rewrite bool_decide_eq_false_2
          by (intros Hin; apply elem_of_cons in Hin as [? | ?]; [congruence | contradiction]).
        cbn [andb]. destruct (hasattr fd n); [| reflexivity].
        apply lookup_insert_ne. exact Hne.
Qed.

(** The two loaders leave the attribute of the feed object under each of
    the thirteen table names, and nothing else. *)
Lemma loaders_lookup (fd : Feed) (name : string) :
  _load_optional_files fd (_load_required_files fd ∅) !! name
  = if bool_decide (name ∈ feed_attributes) then Some (getattr fd name) else None.
Proof.
  unfold _load_optional_files, _load_required_files.
  rewrite !load_files_lookup, lookup_empty. unfold hasattr, feed_attributes.
  destruct (decide (name ∈ required_files)) as [Hr | Hr];
    destruct (decide (name ∈ optional_files)) as [Ho | Ho];
    rewrite ?(bool_decide_eq_true_2 (name ∈ required_files)) by exact Hr;
    rewrite ?(bool_decide_eq_false_2 (name ∈ required_files)) by exact Hr;
    rewrite ?(bool_decide_eq_true_2 (name ∈ optional_files)) by exact Ho;
    rewrite ?(bool_decide_eq_false_2 (name ∈ optional_files)) by exact Ho;
    first [ rewrite (bool_decide_eq_true_2 (name ∈ (required_files ++ optional_files)%list))
              by (apply elem_of_app; tauto)
          | rewrite (bool_decide_eq_false_2 (name ∈ (required_files ++ optional_files)%list))
              by (intros Hin; apply elem_of_app in Hin; tauto) ];
    reflexivity.
Qed.

Lemma load_gtfs_data_Ok_inv (path : string) (kind : path_kind)
    (fd : Feed) (self : GTFSProcessor) :
  load_gtfs_data path kind (Ok fd) = Ok self ->
  kind <> NoFeedPath
  /\ gtfs_data self = _load_optional_files fd (_load_required_files fd ∅).
Proof.
  unfold load_gtfs_data. destruct kind; simpl; intros Hload;
    try discriminate; injection Hload as <-; split; try reflexivity; discriminate.
Qed.

(** What a processor built from a feed holds under a table name. *)
Lemma loaded_lookup (path : string) (kind : path_kind) (fd : Feed) (self : GTFSProcessor)
    (name : string) :
  load_gtfs_data path kind (Ok fd) = Ok self ->
  In name feed_attributes ->
  gtfs_data self !! name = Some (getattr fd name).
Proof.
  intros Hload Hname. apply load_gtfs_data_Ok_inv in Hload as [_ Hdata].
  rewrite Hdata, loaders_lookup.
  rewrite bool_decide_eq_true_2 by (apply list_elem_of_In; exact Hname). reflexivity.
Qed.

Lemma getattr_none (fd : Feed) (name : string) :
  getattr fd name = PyNone <-> has_rows fd name = false.
Proof.
  unfold getattr, has_rows. destruct (fd !! name) as [df |]; [| tauto].
  destruct (empty df); simpl; split; congruence.
Qed.

Lemma getattr_frame_inv (fd : Feed) (name : string) (df : DataFrame) :
  getattr fd name = Frame df <-> fd !! name = Some df /\ empty df = false.
Proof.
  unfold getattr. destruct (fd !! name) as [df' |].
  - destruct (empty df') eqn:E; split.
    + discriminate.
    + intros [[= ->] He]. congruence.
    + intros [= ->]. tauto.
    + intros [[= ->] _]. reflexivity.
  - split; [discriminate | intros [H _]; discriminate H].
Qed.

Lemma table_key (self : GTFSProcessor) (name : string) (t : table_or_none) :
  gtfs_data self !! name = Some t -> table self name = t.
Proof. unfold table. intros ->. reflexivity. Qed.

Lemma table_no_key (self : GTFSProcessor) (name : string) :
  gtfs_data self !! name = None -> table self name = Frame DataFrame_new.
Proof. unfold table. intros ->. reflexivity. Qed.

(** ** Filtered accessors *)

Lemma filter_if_given_falsy (t : table_or_none) (c : string) (arg : option value) :
  truthy arg = false -> filter_if_given t c arg = Ok t.
Proof. unfold filter_if_given. intros ->. reflexivity. Qed.

Lemma filter_if_given_none (c : string) (arg : option value) :
  truthy arg = true -> filter_if_given PyNone c arg = Raise (AttributeError "empty").
Proof. unfold filter_if_given. intros ->. reflexivity. Qed.

Lemma filter_if_given_frame (df : DataFrame) (c : string) (v : value) :
  truthy (Some v) = true ->
  filter_if_given (Frame df) c (Some v)
  = if empty df then Ok (Frame df) else df' ← filter_eq df c v; Ok (Frame df').
Proof.
  unfold filter_if_given. intros ->. cbn [getattr_frame default]. run.
  destruct (empty df); reflexivity.
Qed.

Lemma truthy_nonempty_string (s : string) : s <> "" -> truthy (Some (VStr s)) = true.
Proof. intros Hs. simpl. rewrite bool_decide_eq_false_2 by exact Hs. reflexivity. Qed.

(** C8: a falsy filter value (the empty string, zero) is the same as no
    filter: each of the six filtered accessors returns the stored table
    whole; for [get_transfers] this holds for each of its two filters. *)
Theorem falsy_filter_is_no_filter (self : GTFSProcessor) (v : value) :
  truthy (Some v) = false ->
  (get_trips self (Some v) = get_trips self None
   /\ get_trips self None = Ok (table self "trips"))
  /\ (get_stop_times self (Some v) = get_stop_times self None
      /\ get_stop_times self None = Ok (table self "stop_times"))
  /\ (get_shapes self (Some v) = get_shapes self None
      /\ get_shapes self None = Ok (table self "shapes"))
  /\ (get_calendar self (Some v) = get_calendar self None
      /\ get_calendar self None = Ok (table self "calendar"))
  /\ (get_frequencies self (Some v) = get_frequencies self None
      /\ get_frequencies self None = Ok (table self "frequencies"))
  /\ (forall w, get_transfers self (Some v) w = get_transfers self None w)
  /\ (forall w, get_transfers self w (Some v) = get_transfers self w None)
  /\ get_transfers self None None = Ok (table self "transfers").
Proof.
  intros Hv.
  unfold get_trips, get_stop_times, get_shapes, get_calendar, get_frequencies,
    get_transfers. cbv zeta.
  rewrite !(filter_if_given_falsy _ _ (Some v) Hv).
  rewrite !(filter_if_given_falsy _ _ None eq_refl).
  repeat split; try reflexivity.
  intros w. destruct (filter_if_given (table self "transfers") "from_stop_id" w) as [t | e];
    [| reflexivity].
  run. rewrite (filter_if_given_falsy _ _ (Some v) Hv).
  rewrite (filter_if_given_falsy _ _ None eq_refl). reflexivity.
Qed.

Lemma falsy_filter_empty_string :
  truthy (Some (VStr "")) = false
  /\ get_trips (Samples.processor Samples.feed_full) (Some (VStr ""))
     = get_trips (Samples.processor Samples.feed_full) None
  /\ get_trips (Samples.processor Samples.feed_full) None
     = Ok (table (Samples.processor Samples.feed_full) "trips").
Proof.
  split; [reflexivity |].
  exact (proj1 (falsy_filter_is_no_filter
                  (Samples.processor Samples.feed_full) (VStr "") eq_refl)).
Defined.

(** ** Validation *)

(** Check a hypothesis on the six required tables at a sample feed. *)
Ltac each_required :=
  let name := fresh "name" in
  let Hname := fresh "Hname" in
  intros name Hname; simpl in Hname;
  repeat (destruct Hname as [<- | Hname]; [reflexivity |]);
  destruct Hname.

Section validation_properties.
Context `{PythonSets}.

Lemma list_difference_nil (a b : list value) :
  dangling a b = [] -> list_difference a b = [].
Proof.
  intros Hd. apply Permutation_nil. apply Permutation_sym.
  rewrite <- Hd. apply list_difference_perm.
Qed.

Lemma list_difference_one (a b : list value) (v : value) :
  dangling a b = [v] -> list_difference a b = [v].
Proof.
  intros Hd. apply Permutation_length_1_inv. apply Permutation_sym.
  rewrite <- Hd. apply list_difference_perm.
Qed.


Lemma check_references_valid (vr vr' : ValidationResults) (a b : table_or_none)
    (c msg : string) :
  check_references vr a b c msg = Ok vr' -> valid vr' = valid vr.
Proof.
  unfold check_references. intros H0.
  apply bind_Ok_inv in H0 as (a' & _ & H0).
  destruct (empty a'); [congruence |].
  apply bind_Ok_inv in H0 as (b' & _ & H0).
  destruct (empty b'); [congruence |].
  apply bind_Ok_inv in H0 as (used & _ & H0).
  apply bind_Ok_inv in H0 as (known & _ & H0).
  destruct (list_difference used known); injection H0 as <-; reflexivity.
Qed.

(** The consistency pass appends errors and leaves the [valid] flag as it
    found it. *)
Lemma consistency_keeps_valid (self : GTFSProcessor) (vr vr' : ValidationResults) :
  _validate_data_consistency self vr = Ok vr' -> valid vr' = valid vr.
Proof.
  unfold _validate_data_consistency. intros H0.
  apply bind_Ok_inv in H0 as (trips0 & _ & H0).
  apply bind_Ok_inv in H0 as (vr1 & H1 & H0).
  apply bind_Ok_inv in H0 as (st0 & _ & H0).
  apply bind_Ok_inv in H0 as (vr2 & H2 & H0).
  apply check_references_valid in H1, H2, H0. congruence.
Qed.

Lemma check_references_keeps (vr vr' : ValidationResults) (a b : table_or_none)
    (c msg : string) :
  check_references vr a b c msg = Ok vr' ->
  warnings vr' = warnings vr /\ file_counts vr' = file_counts vr.
Proof.
  unfold check_references. intros H0.
  apply bind_Ok_inv in H0 as (a' & _ & H0).
  destruct (empty a'); [injection H0 as <-; split; reflexivity |].
  apply bind_Ok_inv in H0 as (b' & _ & H0).
  destruct (empty b'); [injection H0 as <-; split; reflexivity |].
  apply bind_Ok_inv in H0 as (used & _ & H0).
  apply bind_Ok_inv in H0 as (known & _ & H0).
  destruct (list_difference used known); injection H0 as <-; split; reflexivity.
Qed.

Lemma check_references_report (vr : ValidationResults) (a b : DataFrame) (c msg : string) :
  empty a = false -> empty b = false ->
  has_column a c = true -> has_column b c = true ->
  check_references vr (Frame a) (Frame b) c msg
  = Ok (mkValidationResults (valid vr)
          (errors vr ++ reference_errors msg (list_difference (column a c) (column b c)))%list
          (warnings vr) (file_counts vr)).
Proof.
  intros Ha Hb Hca Hcb. unfold check_references. cbn [getattr_frame]. run.
  rewrite Ha. run. rewrite Hb.
  rewrite (getcol_has a c Hca), (getcol_has b c Hcb). run.
  destruct (list_difference (column a c) (column b c)); cbn [reference_errors].
  - rewrite app_nil_r. destruct vr; reflexivity.
  - reflexivity.
Qed.

(** The loop over the required files stops at an exception. *)
Lemma check_required_raised (self : GTFSProcessor) (e : exn) (names : list string) :
  foldl (fun acc file_name => vr ← acc; check_required_file self vr file_name)
    (Raise e) names = Raise e.
Proof. induction names as [| n names IH]; simpl; [reflexivity | exact IH]. Qed.

(** It raises when it comes to a name that holds [None]. *)
Lemma check_required_none (self : GTFSProcessor) (names : list string) :
  (exists name, In name names /\ holds_none self name = true) ->
  forall vr,
    foldl (fun acc file_name => vr ← acc; check_required_file self vr file_name)
      (Ok vr) names = Raise (AttributeError "empty").
Proof.
  induction names as [| n names IH]; intros (name & Hin & Hnone) vr.
  - destruct Hin.
  - cbn [foldl]. run. unfold check_required_file at 2. unfold holds_none in *.
    destruct (gtfs_data self !! n) as [[| df] |] eqn:En.
    + cbn [getattr_frame]. run. apply check_required_raised.
    + cbn [getattr_frame]. run.
      assert (Htail : exists name', In name' names /\ holds_none self name' = true).
      { destruct Hin as [-> | Hin]; [rewrite En in Hnone; discriminate |].
        exists name. split; [exact Hin | exact Hnone]. }
      destruct (empty df); apply IH; exact Htail.
    + assert (Htail : exists name', In name' names /\ holds_none self name' = true).
      { destruct Hin as [-> | Hin]; [rewrite En in Hnone; discriminate |].
        exists name. split; [exact Hin | exact Hnone]. }
      apply IH; exact Htail.
Qed.

(** Where no name holds [None] the loop comes to its end: the flag is
    cleared and an error appended for each name that is no key or holds an
    empty frame, and the rows of the others are counted. *)
Lemma check_required_fold (self : GTFSProcessor) (names : list string) :
  (forall name, In name names -> holds_none self name = false) ->
  forall vr,
    exists vr',
      foldl (fun acc file_name => vr ← acc; check_required_file self vr file_name)
        (Ok vr) names = Ok vr'
      /\ valid vr' = valid vr && forallb (fun n => negb (no_key_or_empty self n)) names
      /\ errors vr'
         = (errors vr ++ map missing_file_error (List.filter (no_key_or_empty self) names))%list
      /\ warnings vr' = warnings vr
      /\ forall name,
           file_counts vr' !! name
           = if bool_decide (name ∈ names) && negb (no_key_or_empty self name)
             then Some (rows_held self name)
             else file_counts vr !! name.
Proof.
  induction names as [| n names IH]; intros Hall vr; cbn [foldl].
  - exists vr. cbn. rewrite andb_true_r, app_nil_r. repeat split; reflexivity.
  - run.
    assert (Hn : holds_none self n = false) by (apply Hall; left; reflexivity).
    assert (Hstep : check_required_file self vr n
                    = Ok (if no_key_or_empty self n
                          then mkValidationResults false
                                 (errors vr ++ [missing_file_error n])%list
                                 (warnings vr) (file_counts vr)
                          else mkValidationResults (valid vr) (errors vr) (warnings vr)
                                 (<[n := rows_held self n]> (file_counts vr)))).
    { unfold check_required_file, no_key_or_empty, rows_held, holds_none in *.
      destruct (gtfs_data self !! n) as [[| df] |]; [discriminate | | reflexivity].
      cbn [getattr_frame]. run. destruct (empty df); reflexivity. }
    rewrite Hstep. clear Hstep.
    destruct (IH (fun name Hin => Hall name (or_intror Hin))
                (if no_key_or_empty self n
                 then mkValidationResults false
                        (errors vr ++ [missing_file_error n])%list
                        (warnings vr) (file_counts vr)
                 else mkValidationResults (valid vr) (errors vr) (warnings vr)
                        (<[n := rows_held self n]> (file_counts vr))))
      as (vr' & Hfold & Hv & He & Hw & Hf).
    exists vr'. split; [exact Hfold |].
    rewrite Hv, He, Hw. clear Hv He Hw Hfold.
    cbn [forallb List.filter].
    destruct (no_key_or_empty self n) eqn:Hk; cbn [valid errors warnings negb andb map].
    + rewrite andb_false_r, <- app_assoc. split; [reflexivity |].
      split; [reflexivity |]. split; [reflexivity |].
      intros name. rewrite Hf. cbn [file_counts].
      destruct (decide (name = n)) as [-> | Hne].
      * rewrite Hk, !andb_false_r. reflexivity.
      * destruct (decide (name ∈ names)) as [Hin | Hnin].
        -- rewrite !bool_decide_eq_true_2; [reflexivity | | exact Hin].
           apply elem_of_cons. right. exact Hin.
        -- rewrite !bool_decide_eq_false_2; [reflexivity | | exact Hnin].
           intros Hin. apply elem_of_cons in Hin as [? | ?]; contradiction.
    + split; [reflexivity |]. split; [reflexivity |]. split; [reflexivity |].
      intros name. rewrite Hf. cbn [file_counts].
      destruct (decide (name = n)) as [-> | Hne].
      * rewrite Hk. cbn [negb]. rewrite !andb_true_r.
        rewrite (bool_decide_eq_true_2 (n ∈ n :: names))
          by (apply elem_of_cons; left; reflexivity).
        rewrite lookup_insert_eq.
        destruct (bool_decide (n ∈ names)); reflexivity.
      * rewrite lookup_insert_ne by congruence.
        destruct (decide (name ∈ names)) as [Hin | Hnin].
        -- rewrite !bool_decide_eq_true_2; [reflexivity | | exact Hin].
           apply elem_of_cons. right. exact Hin.
        -- rewrite !bool_decide_eq_false_2; [reflexivity | | exact Hnin].
           intros Hin. apply elem_of_cons in Hin as [? | ?]; contradiction.
Qed.

Lemma present_not_none (self : GTFSProcessor) (name : string) :
  absent_or_empty self name = false ->
  holds_none self name = false /\ no_key_or_empty self name = false.
Proof.
  unfold absent_or_empty, holds_none, no_key_or_empty.
  destruct (gtfs_data self !! name) as [[| df] |]; try discriminate. tauto.
Qed.

Lemma present_table (self : GTFSProcessor) (name : string) :
  absent_or_empty self name = false ->
  exists df, table self name = Frame df /\ empty df = false.
Proof.
  unfold absent_or_empty, table.
  destruct (gtfs_data self !! name) as [[| df] |]; try discriminate.
  intros He. exists df. split; [reflexivity | exact He].
Qed.

Lemma present_frame (self : GTFSProcessor) (name : string) (df : DataFrame) :
  absent_or_empty self name = false -> table self name = Frame df -> empty df = false.
Proof.
  intros Hp Ht. destruct (present_table self name Hp) as (df' & Ht' & He). congruence.
Qed.

(** The report of a feed whose six required tables are held with rows and
    carry the key columns. *)
Lemma complete_feed_errors (self : GTFSProcessor) (T R ST S : DataFrame) :
  (forall name, In name required_files -> absent_or_empty self name = false) ->
  table self "trips" = Frame T ->
  table self "routes" = Frame R ->
  table self "stop_times" = Frame ST ->
  table self "stops" = Frame S ->
  has_column T "route_id" = true -> has_column R "route_id" = true ->
  has_column ST "stop_id" = true -> has_column S "stop_id" = true ->
  has_column ST "trip_id" = true -> has_column T "trip_id" = true ->
  exists vr,
    validate_gtfs_data self = Ok vr
    /\ valid vr = true
    /\ warnings vr = []
    /\ errors vr
       = (reference_errors "Trips reference missing routes: "
            (list_difference (column T "route_id") (column R "route_id"))
          ++ reference_errors "Stop times reference missing stops: "
               (list_difference (column ST "stop_id") (column S "stop_id"))
          ++ reference_errors "Stop times reference missing trips: "
               (list_difference (column ST "trip_id") (column T "trip_id")))%list
    /\ forall name,
         file_counts vr !! name
         = if bool_decide (name ∈ required_files) then Some (rows_held self name) else None.
Proof.
  intros Hall HT HR HST HS HTr HRr HSTs HSs HSTt HTt.
  assert (HeT : empty T = false).
  { apply (present_frame self "trips"); [apply Hall; simpl; tauto | exact HT]. }
  assert (HeR : empty R = false).
  { apply (present_frame self "routes"); [apply Hall; simpl; tauto | exact HR]. }
  assert (HeST : empty ST = false).
  { apply (present_frame self "stop_times"); [apply Hall; simpl; tauto | exact HST]. }
  assert (HeS : empty S = false).
  { apply (present_frame self "stops"); [apply Hall; simpl; tauto | exact HS]. }
  unfold validate_gtfs_data. cbv zeta. unfold check_required_files.
  destruct (check_required_fold self required_files
              (fun name Hin => proj1 (present_not_none self name (Hall name Hin)))
              (mkValidationResults true [] [] ∅))
    as (vr0 & Hfold & Hv & He & Hw & Hf).
  rewrite Hfold. run.
  cbn [valid errors warnings file_counts andb app] in Hv, He, Hw, Hf.
  assert (Hok : forallb (fun n => negb (no_key_or_empty self n)) required_files = true).
  { apply forallb_forall. intros n Hn.
    rewrite (proj2 (present_not_none self n (Hall n Hn))). reflexivity. }
  rewrite Hok in Hv.
  rewrite (filter_no_match (no_key_or_empty self) required_files
             (fun n Hn => proj2 (present_not_none self n (Hall n Hn)))) in He.
  cbn [map] in He.
  rewrite Hv. unfold _validate_data_consistency, get_trips, get_stop_times.
  cbv zeta. rewrite !(filter_if_given_falsy _ _ None eq_refl). run.
  unfold get_routes, get_stops. rewrite HT, HR, HST, HS.
  rewrite (check_references_report _ T R "route_id" _ HeT HeR HTr HRr). run.
  rewrite (check_references_report _ ST S "stop_id" _ HeST HeS HSTs HSs). run.
  rewrite (check_references_report _ ST T "trip_id" _ HeST HeT HSTt HTt).
  cbn [valid errors warnings file_counts]. rewrite He, Hv, Hw. cbn [app].
  eexists. split; [reflexivity |]. cbn [valid errors warnings file_counts].
  split; [reflexivity |]. split; [reflexivity |].
  split; [rewrite app_assoc; reflexivity |].
  intros name. rewrite Hf, lookup_empty.
  destruct (decide (name ∈ required_files)) as [Hin | Hnin].
  - rewrite bool_decide_eq_true_2 by exact Hin.
    rewrite (proj2 (present_not_none self name
                      (Hall name (proj1 (list_elem_of_In _ _) Hin)))).
    reflexivity.
  - rewrite bool_decide_eq_false_2 by exact Hnin. reflexivity.
Qed.

(** C1: on a feed with the six required tables present and non-empty whose
    stop_times visit the stop S9 that the stops table lacks, the error list
    names S9 while the [valid] flag stays true. *)
Theorem validate_dangling_stop_stays_valid :
  exists vr,
    validate_gtfs_data (Samples.processor Samples.feed_dangling) = Ok vr
    /\ valid vr = true
    /\ errors vr = ["Stop times reference missing stops: ['S9']"].
Proof.
  destruct (complete_feed_errors (Samples.processor Samples.feed_dangling)
              Samples.trips Samples.routes Samples.stop_times_dangling Samples.stops
              ltac:(each_required) eq_refl eq_refl eq_refl eq_refl
              eq_refl eq_refl eq_refl eq_refl eq_refl eq_refl)
    as (vr & Hvr & Hv & _ & He & _).
  exists vr. split; [exact Hvr |]. split; [exact Hv |].
  rewrite He.
  rewrite (list_difference_nil (column Samples.trips "route_id")
             (column Samples.routes "route_id") eq_refl).
  rewrite (list_difference_one (column Samples.stop_times_dangling "stop_id")
             (column Samples.stops "stop_id") (VStr "S9") eq_refl).
  rewrite (list_difference_nil (column Samples.stop_times_dangling "trip_id")
             (column Samples.trips "trip_id") eq_refl).
  reflexivity.
Qed.

End validation_properties.

(** ** Route stops without stop times *)

(** With trips for the route and [None] held for stop_times,
    [get_route_stops] subscripts [None]. *)
Lemma get_route_stops_without_stop_times (self : GTFSProcessor) (rid : string)
    (trips : DataFrame) :
  get_trips self (Some (VStr rid)) = Ok (Frame trips) ->
  empty trips = false ->
  has_column trips "trip_id" = true ->
  gtfs_data self !! "stop_times" = Some PyNone ->
  get_route_stops self rid = Raise TypeError.
Proof.
  intros Ht Hne Hc Hst.
  unfold get_route_stops. rewrite Ht. run. cbn [getattr_frame]. run. rewrite Hne.
  rewrite (getcol_has _ _ Hc). run.
  unfold get_stop_times. cbv zeta.
  rewrite (filter_if_given_falsy _ _ None eq_refl). run.
  rewrite (table_key _ _ _ Hst). reflexivity.
Qed.

(** C2: a processor built from a feed without stop_times.txt holds [None]
    for stop_times; its trips table has a trip of route R1, and
    [get_route_stops "R1"] raises. *)
Theorem get_route_stops_raises_without_stop_times :
  exists self,
    load_gtfs_data "feed.zip" ZipFile (Ok Samples.feed_no_stop_times) = Ok self
    /\ gtfs_data self !! "stop_times" = Some PyNone
    /\ get_stop_times self None = Ok PyNone
    /\ (exists trips,
          get_trips self (Some (VStr "R1")) = Ok (Frame trips) /\ empty trips = false)
    /\ get_route_stops self "R1" = Raise TypeError.
Proof.
  eexists. split; [reflexivity |].
  split; [reflexivity |].
  split; [reflexivity |].
  split; [eexists; split; [vm_compute; reflexivity | reflexivity] |].
  vm_compute. reflexivity.
Qed.

(** ** Dates that parse *)



Section dates.
Context `{Pandas}.




End dates.

(** ** Service dates *)

Lemma foldl_collect {A B : Type} (p : A -> bool) (f : A -> B) (l : list A) (acc : list B) :
  foldl (fun acc a => if p a then (acc ++ [f a])%list else acc) acc l
  = (acc ++ map f (List.filter p l))%list.
Proof.
  revert acc. induction l as [| a l IH]; intros acc; simpl.
  - rewrite app_nil_r. reflexivity.
  - rewrite IH. destruct (p a); simpl; [| reflexivity].
    rewrite <- app_assoc. reflexivity.
Qed.

(** The weekdays collected from a calendar row are those whose day column
    holds 1. *)
Lemma active_days_spec (calendar : DataFrame) (service : row) (w : Z) :
  In w (active_days calendar service)
  <-> exists day, In (day, w) days_map /\ cell (columns calendar) service day = VInt 1.
Proof.
  unfold active_days.
  rewrite (foldl_collect
             (fun dw => py_eq (series_get calendar service (fst dw) (VInt 0)) (VInt 1)) snd).
  rewrite app_nil_l, in_map_iff. split.
  - intros ([day w'] & Hw & Hin). simpl in Hw. subst w'.
    apply filter_In in Hin as [Hin Hflag]. simpl in Hflag.
    exists day. split; [exact Hin |]. apply series_get_flag. exact Hflag.
  - intros (day & Hin & Hcell). exists (day, w). split; [reflexivity |].
    apply filter_In. split; [exact Hin |]. simpl. apply series_get_flag. exact Hcell.
Qed.

Lemma generate_dates_step (fuel : nat) (active : list Z) (e s : Z) (dates : list date) :
  generate_dates (S fuel) active (Some (mkDate e)) (Some (mkDate s)) dates
  = if Z.leb s e then
      if Z.ltb s date_max_ordinal then
        generate_dates fuel active (Some (mkDate e)) (Some (mkDate (s + 1)))
          (if bool_decide (weekday (mkDate s) ∈ active)
           then (dates ++ [mkDate s])%list else dates)
      else Some (Raise OverflowError)
    else Some (Ok dates).
Proof.
  cbn [generate_dates nat_leb]. unfold date_leb, add_day. cbn [toordinal].
  destruct (Z.leb s e); [| reflexivity].
  destruct (Z.ltb s date_max_ordinal); reflexivity.
Qed.


(** A range that ends on [date.max] cannot be walked to its end: the day
    after the last one does not exist. *)
Lemma generate_dates_overflow (active : list Z) (n : nat) :
  forall (s : Z) (dates : list date),
    s <= date_max_ordinal ->
    n = Z.to_nat (date_max_ordinal - s + 1) ->
    generate_dates (S n) active (Some (mkDate date_max_ordinal)) (Some (mkDate s)) dates
    = Some (Raise OverflowError).
Proof.
  induction n as [| n IH]; intros s dates Hs Hn; [lia |].
  rewrite generate_dates_step.
  replace (Z.leb s date_max_ordinal) with true by (symmetry; apply Z.leb_le; exact Hs).
  destruct (Z.ltb s date_max_ordinal) eqn:Hlt; [| reflexivity].
  apply Z.ltb_lt in Hlt. apply IH; lia.
Qed.

(** The date loop always comes to its end within the rounds it is given. *)
Lemma generate_dates_total (active : list Z) (e : Z) (n : nat) :
  forall (s : Z) (dates : list date),
    n = Z.to_nat (e - s + 1) ->
    exists r, generate_dates (S n) active (Some (mkDate e)) (Some (mkDate s)) dates = Some r.
Proof.
  induction n as [| n IH]; intros s dates Hn; rewrite generate_dates_step.
  - replace (Z.leb s e) with false by (symmetry; apply Z.leb_gt; lia). eauto.
  - destruct (Z.leb s e); [| eauto].
    destruct (Z.ltb s date_max_ordinal); [| eauto].
    apply IH. lia.
Qed.

Lemma matching_row_has_column (df : DataFrame) (r : row) (c : string) (v : value) :
  py_eq (cell (columns df) r c) v = true -> has_column df c = true.
Proof.
  intros Hm. apply py_eq_true in Hm as [_ Hn].
  apply (cell_not_nan_has_column df r c Hn).
Qed.

Lemma has_column_not_empty (df : DataFrame) (c : string) (r : row) :
  has_column df c = true -> In r (rows df) -> empty df = false.
Proof.
  intros Hc Hr. apply empty_false. split.
  - apply has_column_true in Hc. intros E. rewrite E in Hc. exact Hc.
  - intros E. rewrite E in Hr. exact Hr.
Qed.

Section service_dates_properties.
Context `{Pandas}.

(** What [get_service_dates] computes from the first row that matches a
    non-empty [sid]: nothing but that row and the column labels enter. *)
Lemma get_service_dates_first_row (self : GTFSProcessor) (sid : string)
    (cal : DataFrame) (pre post : list row) (r : row) :
  sid <> "" ->
  table self "calendar" = Frame cal ->
  rows cal = (pre ++ r :: post)%list ->
  (forall r', In r' pre -> py_eq (cell (columns cal) r' "service_id") (VStr sid) = false) ->
  py_eq (cell (columns cal) r "service_id") (VStr sid) = true ->
  get_service_dates self sid
  = match (s ← series_item cal r "start_date";
           start_date ← to_datetime s;
           e ← series_item cal r "end_date";
           end_date ← to_datetime e;
           Ok (start_date, end_date)) with
    | Raise e => Some (Raise e)
    | Ok (start_date, end_date) =>
        generate_dates (rounds start_date end_date) (active_days cal r)
          end_date start_date []
    end.
Proof.
  intros Hsid Htab Hrows Hpre Hr.
  pose proof (matching_row_has_column _ _ _ _ Hr) as Hcol.
  assert (Hne : empty cal = false).
  { apply (has_column_not_empty cal "service_id" r Hcol).
    rewrite Hrows. apply in_or_app. right. left. reflexivity. }
  unfold get_service_dates, get_calendar. cbv zeta. rewrite Htab.
  rewrite (filter_if_given_frame cal _ _ (truthy_nonempty_string sid Hsid)), Hne.
  unfold filter_eq. rewrite Hcol. run. cbn [getattr_frame].
  unfold select. rewrite Hrows.
  rewrite (filter_first_match _ pre post r Hpre Hr).
  cbn [empty columns rows iloc0].
  destruct (columns cal) as [| c0 cols] eqn:Ecols.
  { apply empty_false in Hne as [Hc _]. congruence. }
  run.
  unfold series_item, has_column, active_days, series_get, has_column.
  cbn [columns]. rewrite Ecols.
  destruct (bool_decide ("start_date" ∈ c0 :: cols)); run; [| reflexivity].
  destruct (to_datetime (cell (c0 :: cols) r "start_date")) as [start_date |]; run;
    [| reflexivity].
  destruct (bool_decide ("end_date" ∈ c0 :: cols)); run; [| reflexivity].
  destruct (to_datetime (cell (c0 :: cols) r "end_date")) as [end_date |]; run;
    reflexivity.
Qed.



(** The date loop always comes to its end within the rounds it is given. *)
Lemma get_service_dates_terminates (self : GTFSProcessor) (sid : string) :
  exists r, get_service_dates self sid = Some r.
Proof.
  unfold get_service_dates.
  destruct (_ ≫= _) as [calendar | e]; [| eauto].
  destruct (empty calendar); [eauto |].
  destruct (_ ≫= _) as [[[service start_date] end_date] | e]; [| eauto].
  destruct start_date as [[s] |], end_date as [[e] |];
    try (eexists; reflexivity).
  unfold rounds. cbn [toordinal]. apply generate_dates_total. reflexivity.
Qed.




End service_dates_properties.



Lemma no_empty_cells_cell (df : DataFrame) (r : row) (c : string) :
  no_empty_cells df = true -> In r (rows df) -> has_column df c = true ->
  cell (columns df) r c <> VStr "".
Proof.
  unfold no_empty_cells. intros Hall Hr Hc.
  rewrite forallb_forall in Hall. specialize (Hall r Hr).
  rewrite forallb_forall in Hall. apply has_column_true in Hc.
  specialize (Hall c Hc). unfold same_value in Hall.
  apply negb_true_iff, bool_decide_eq_false in Hall. exact Hall.
Qed.

(** C10: in a calendar read from CSV, the result for [sid] is computed from
    the first row that matches [sid]: two calendars with the same labels
    that agree on that row give the same result, whatever rows (matching
    or not) follow it. *)
Theorem get_service_dates_first_match_only `{Pandas} (self self' : GTFSProcessor)
    (sid : string) (cols : list string) (pre pre' post post' : list row) (r : row) :
  table self "calendar" = Frame (mkDataFrame cols (pre ++ r :: post)) ->
  table self' "calendar" = Frame (mkDataFrame cols (pre' ++ r :: post')) ->
  no_empty_cells (mkDataFrame cols (pre ++ r :: post)) = true ->
  (forall r', In r' pre -> py_eq (cell cols r' "service_id") (VStr sid) = false) ->
  (forall r', In r' pre' -> py_eq (cell cols r' "service_id") (VStr sid) = false) ->
  py_eq (cell cols r "service_id") (VStr sid) = true ->
  get_service_dates self sid = get_service_dates self' sid.
Proof.
  intros Htab Htab' Hcsv Hpre Hpre' Hr.
  assert (Hsid : sid <> "").
  { intros ->.
    apply (no_empty_cells_cell _ r "service_id" Hcsv).
    - simpl. apply in_or_app. right. left. reflexivity.
    - apply (matching_row_has_column (mkDataFrame cols (pre ++ r :: post)) r _ _ Hr).
    - apply py_eq_true in Hr as [Hr _]. exact Hr. }
  rewrite (get_service_dates_first_row self sid _ pre post r Hsid Htab eq_refl Hpre Hr).
  rewrite (get_service_dates_first_row self' sid _ pre' post' r Hsid Htab' eq_refl Hpre' Hr).
  reflexivity.
Qed.

Lemma get_service_dates_first_match_only_sample :
  no_empty_cells Samples.calendar = true
  /\ length (matching Samples.calendar "service_id" (VStr "S1")) = 2%nat
  /\ @get_service_dates Installation.pandas_2 (Samples.processor Samples.feed_full) "S1"
     = @get_service_dates Installation.pandas_2 (Samples.processor Samples.feed_first_row) "S1".
Proof.
  split; [reflexivity |]. split; [reflexivity |].
  apply (@get_service_dates_first_match_only Installation.pandas_2
           (Samples.processor Samples.feed_full) (Samples.processor Samples.feed_first_row)
           "S1" (columns Samples.calendar) [] []
           (tl (rows Samples.calendar)) [] (hd [] (rows Samples.calendar))).
  - reflexivity.
  - reflexivity.
  - reflexivity.
  - intros r' [].
  - intros r' [].
  - reflexivity.
Defined.

(** ** Sorting *)


Section sort_by.
Context {A : Type} (key : A -> value).

Lemma insert_by_perm (x : A) (l : list A) : Permutation (insert_by key x l) (x :: l).
Proof.
  induction l as [| y l IH]; simpl.
  - apply Permutation_refl.
  - destruct (key_leb (key x) (key y)).
    + apply Permutation_refl.
    + apply perm_trans with (y :: x :: l).
      * apply perm_skip. exact IH.
      * apply perm_swap.
Qed.

Lemma sort_by_perm (l : list A) : Permutation (sort_by key l) l.
Proof.
  induction l as [| x l IH]; simpl.
  - apply perm_nil.
  - apply perm_trans with (x :: sort_by key l).
    + apply insert_by_perm.
    + apply perm_skip. exact IH.
Qed.



End sort_by.


(** ** Filtering by a truthy value *)

Lemma empty_matching (df : DataFrame) (c : string) (v : value) :
  empty df = true -> matching df c v = [].
Proof.
  intros He. unfold matching. apply filter_no_match. intros r Hr.
  unfold empty in He. destruct (columns df) as [| c0 cols] eqn:Ec.
  - reflexivity.
  - destruct (rows df); [destruct Hr | discriminate].
Qed.

(** The body shared by the filtered accessors, for a truthy [v] and a table
    that is held: the rows whose cell equals [v], under the labels of the
    stored table. *)
Lemma filtered_table (df : DataFrame) (c : string) (v : value) :
  truthy (Some v) = true ->
  empty df = true \/ has_column df c = true ->
  exists out,
    filter_if_given (Frame df) c (Some v) = Ok (Frame out)
    /\ columns out = columns df
    /\ (matching df c v = [] -> empty out = true)
    /\ (forall t rest, matching df c v = t :: rest ->
          empty out = false /\ rows out = t :: rest).
Proof.
  intros Hv Hc. rewrite (filter_if_given_frame df c v Hv).
  destruct (empty df) eqn:He.
  - exists df. split; [reflexivity |]. split; [reflexivity |]. split.
    + intros _. exact He.
    + intros t rest Hm. rewrite (empty_matching df c v He) in Hm. discriminate.
  - destruct Hc as [Hc | Hc]; [discriminate |].
    unfold filter_eq. rewrite Hc. run.
    exists (select df (fun r => py_eq (cell (columns df) r c) v)).
    split; [reflexivity |]. split; [reflexivity |]. split.
    + intros Hm. apply empty_no_rows. exact Hm.
    + intros t rest Hm. split; [| exact Hm].
      apply empty_false. apply empty_false in He as [Hcols _].
      split; [exact Hcols |]. cbn [select rows]. fold (matching df c v).
      rewrite Hm. discriminate.
Qed.

(** ** Route geometry *)




Lemma has_column_same_columns (df df' : DataFrame) (c : string) :
  columns df = columns df' -> has_column df c = has_column df' c.
Proof. unfold has_column. intros ->. reflexivity. Qed.

Section route_geometry.
Context (self : GTFSProcessor) (rid : string) (T : DataFrame).
Hypothesis Hrid : rid <> "".
Hypothesis HT : table self "trips" = Frame T.
Hypothesis HTc : empty T = true \/ has_column T "route_id" = true.

Lemma get_trips_route :
  exists trips,
    get_trips self (Some (VStr rid)) = Ok (Frame trips)
    /\ columns trips = columns T
    /\ (matching T "route_id" (VStr rid) = [] -> empty trips = true)
    /\ (forall t rest, matching T "route_id" (VStr rid) = t :: rest ->
          empty trips = false /\ rows trips = t :: rest).
Proof.
  unfold get_trips. cbv zeta. rewrite HT.
  apply filtered_table; [apply truthy_nonempty_string; exact Hrid | exact HTc].
Qed.





End route_geometry.



Lemma get_route_geometry_sample_line :
  get_route_geometry (Samples.processor Samples.feed_full) "R2"
  = Ok (Some (mkLineString [(VInt 0, VInt 5); (VInt (-1), VInt 6)])).
Proof. vm_compute. reflexivity. Qed.



(** ** Route stops *)

Lemma get_trips_total (self : GTFSProcessor) (arg : option value) (T : DataFrame) :
  table self "trips" = Frame T ->
  empty T = true \/ has_column T "route_id" = true ->
  exists trips, get_trips self arg = Ok (Frame trips) /\ columns trips = columns T.
Proof.
  intros HT Hc. unfold get_trips, filter_if_given. cbv zeta. rewrite HT.
  destruct (truthy arg); [| exists T; split; reflexivity].
  cbn [getattr_frame]. run.
  destruct (empty T) eqn:He; cbn [negb]; [exists T; split; reflexivity |].
  destruct Hc as [Hc | Hc]; [congruence |].
  unfold filter_eq. rewrite Hc. run. eexists. split; reflexivity.
Qed.

Lemma NoDup_map_filter {A B : Type} (f : A -> B) (p : A -> bool) (l : list A) :
  List.NoDup (map f l) -> List.NoDup (map f (List.filter p l)).
Proof.
  induction l as [| x l IH]; simpl; intros Hnd; [constructor |].
  apply List.NoDup_cons_iff in Hnd as [Hx Hl].
  destruct (p x); simpl; [| apply IH; exact Hl].
  apply List.NoDup_cons_iff. split; [| apply IH; exact Hl].
  intros Hin. apply Hx. apply in_map_iff in Hin as (y & Hy & Hin).
  apply in_map_iff. exists y. split; [exact Hy |].
  apply filter_In in Hin as [Hin _]. exact Hin.
Qed.

Lemma filter_isin_has (df : DataFrame) (c : string) (vs : list value) :
  has_column df c = true ->
  filter_isin df c vs = Ok (select df (fun r => isin (cell (columns df) r c) vs)).
Proof. unfold filter_isin. intros ->. reflexivity. Qed.

Lemma isin_spec (v : value) (l : list value) : isin v l = true <-> In v l.
Proof.
  unfold isin. rewrite existsb_exists. unfold same_value. split.
  - intros (x & Hx & Hv). apply bool_decide_eq_true in Hv. subst x. exact Hx.
  - intros Hv. exists v. split; [exact Hv |]. apply bool_decide_eq_true. reflexivity.
Qed.

Lemma unique_acc_In (v : value) (l seen : list value) :
  In v (unique_acc seen l) <-> In v l /\ ~ In v seen.
Proof.
  revert seen. induction l as [| x l IH]; intros seen; simpl.
  - tauto.
  - destruct (isin x seen) eqn:E.
    + apply isin_spec in E. rewrite IH. split.
      * intros [Hl Hs]. tauto.
      * intros [[-> | Hl] Hs]; [contradiction | tauto].
    + assert (Hx : ~ In x seen).
      { intros Hin. apply isin_spec in Hin. congruence. }
      simpl. rewrite IH. simpl. split.
      * intros [<- | [Hl Hs]]; [tauto | tauto].
      * intros [[<- | Hl] Hs]; [tauto |].
        destruct (decide (x = v)) as [-> | Hne]; [tauto |]. right. tauto.
Qed.

Lemma unique_In (v : value) (l : list value) : In v (unique l) <-> In v l.
Proof. unfold unique. rewrite unique_acc_In. simpl. tauto. Qed.

Lemma isin_unique (v : value) (l : list value) : isin v (unique l) = isin v l.
Proof.
  destruct (isin v l) eqn:E.
  - apply (proj2 (isin_spec _ _)). apply (proj2 (unique_In _ _)).
    apply (proj1 (isin_spec _ _)). exact E.
  - destruct (isin v (unique l)) eqn:E'; [| reflexivity].
    apply (proj1 (isin_spec _ _)) in E'. apply (proj1 (unique_In _ _)) in E'.
    apply (proj2 (isin_spec _ _)) in E'. congruence.
Qed.

Lemma get_stop_times_all (self : GTFSProcessor) :
  get_stop_times self None = Ok (table self "stop_times").
Proof. reflexivity. Qed.

Lemma get_route_stops_no_duplicates (self : GTFSProcessor) (rid : string)
    (T ST S : DataFrame) :
  table self "trips" = Frame T ->
  table self "stop_times" = Frame ST ->
  table self "stops" = Frame S ->
  empty T = true \/ has_column T "route_id" = true ->
  has_column T "trip_id" = true ->
  has_column ST "trip_id" = true ->
  has_column ST "stop_id" = true ->
  has_column S "stop_id" = true ->
  List.NoDup (column S "stop_id") ->
  exists df, get_route_stops self rid = Ok df /\ List.NoDup (column df "stop_id").
Proof.
  intros HT HST HS HTc Htrip Hsttrip Hststop Hstop Hnd.
  destruct (get_trips_total self (Some (VStr rid)) T HT HTc) as (trips & Hget & Hcols).
  unfold get_route_stops. rewrite Hget. run. cbn [getattr_frame]. run.
  destruct (empty trips); [exists DataFrame_new; split; [reflexivity | constructor] |].
  rewrite (getcol_has trips "trip_id")
    by (rewrite (has_column_same_columns trips T _ Hcols); exact Htrip).
  run. rewrite get_stop_times_all, HST. run. cbn [subscript_frame]. run.
  rewrite (filter_isin_has ST "trip_id" _ Hsttrip). run.
  destruct (empty (select ST _));
    [exists DataFrame_new; split; [reflexivity | constructor] |].
  unfold get_stops. rewrite HS. cbn [subscript_frame]. run.
  rewrite (getcol_has S "stop_id" Hstop). run.
  rewrite (getcol_has (select ST _) "stop_id") by exact Hststop. run.
  rewrite (filter_isin_has S "stop_id" _ Hstop).
  eexists. split; [reflexivity |].
  unfold column, select. cbn [rows columns].
  apply NoDup_map_filter. exact Hnd.
Qed.

Lemma get_route_stops_no_trips (self : GTFSProcessor) (rid : string) (T : DataFrame) :
  rid <> "" ->
  table self "trips" = Frame T ->
  empty T = true \/ has_column T "route_id" = true ->
  matching T "route_id" (VStr rid) = [] ->
  get_route_stops self rid = Ok DataFrame_new.
Proof.
  intros Hrid HT HTc Hm.
  destruct (get_trips_route self rid T Hrid HT HTc) as (trips & Hget & _ & Hnone & _).
  unfold get_route_stops. rewrite Hget. run. cbn [getattr_frame]. run.
  rewrite (Hnone Hm). reflexivity.
Qed.

Lemma get_route_stops_no_stop_times (self : GTFSProcessor) (rid : string)
    (T ST : DataFrame) :
  rid <> "" ->
  table self "trips" = Frame T ->
  table self "stop_times" = Frame ST ->
  empty T = true \/ has_column T "route_id" = true ->
  has_column T "trip_id" = true ->
  has_column ST "trip_id" = true ->
  (forall st, In st (rows ST) ->
     isin (cell (columns ST) st "trip_id")
       (map (fun t => cell (columns T) t "trip_id") (matching T "route_id" (VStr rid)))
     = false) ->
  get_route_stops self rid = Ok DataFrame_new.
Proof.
  intros Hrid HT HST HTc Htrip Hsttrip Hnone.
  destruct (matching T "route_id" (VStr rid)) as [| t rest] eqn:Hm.
  { apply (get_route_stops_no_trips self rid T Hrid HT HTc Hm). }
  destruct (get_trips_route self rid T Hrid HT HTc) as (trips & Hget & Hcols & _ & Hsome).
  destruct (Hsome t rest Hm) as [Hne Hrows].
  unfold get_route_stops. rewrite Hget. run. cbn [getattr_frame]. run. rewrite Hne.
  rewrite (getcol_has trips "trip_id")
    by (rewrite (has_column_same_columns trips T _ Hcols); exact Htrip).
  run. rewrite get_stop_times_all, HST. run. cbn [subscript_frame]. run.
  rewrite (filter_isin_has ST "trip_id" _ Hsttrip). run.
  rewrite empty_no_rows; [reflexivity |].
  unfold select. cbn [rows]. apply filter_no_match.
  intros st Hst. rewrite isin_unique. unfold column. rewrite Hrows, Hcols.
  apply Hnone. exact Hst.
Qed.

(** C5, as the code has it.  The trips table is held by the processor and
    carries a route_id column (or is empty).  With the stop_times and stops
    tables held, the columns read by the joins in place (trips: trip_id;
    stop_times: trip_id, stop_id; stops: stop_id) and every stop_id
    occurring in at most one stops row, [get_route_stops] returns, for
    every [rid], a frame without duplicate stop identifiers.  For a
    non-empty [rid] it returns the empty frame when no trip is of the
    route, and when the stop_times table is held, carries a trip_id column
    and has no row of a trip of the route. *)
Theorem get_route_stops_spec (self : GTFSProcessor) (rid : string) (T : DataFrame) :
  table self "trips" = Frame T ->
  empty T = true \/ has_column T "route_id" = true ->
  (forall ST S,
     table self "stop_times" = Frame ST ->
     table self "stops" = Frame S ->
     has_column T "trip_id" = true ->
     has_column ST "trip_id" = true ->
     has_column ST "stop_id" = true ->
     has_column S "stop_id" = true ->
     List.NoDup (column S "stop_id") ->
     exists df, get_route_stops self rid = Ok df /\ List.NoDup (column df "stop_id"))
  /\ (rid <> "" ->
      matching T "route_id" (VStr rid) = [] ->
      get_route_stops self rid = Ok DataFrame_new)
  /\ (forall ST,
        rid <> "" ->
        table self "stop_times" = Frame ST ->
        has_column T "trip_id" = true ->
        has_column ST "trip_id" = true ->
        (forall st, In st (rows ST) ->
           isin (cell (columns ST) st "trip_id")
             (map (fun t => cell (columns T) t "trip_id")
                (matching T "route_id" (VStr rid)))
           = false) ->
        get_route_stops self rid = Ok DataFrame_new).
Proof.
  intros HT HTc. split; [| split].
  - intros ST S HST HS. intros.
    apply (get_route_stops_no_duplicates self rid T ST S); assumption.
  - intros Hrid Hm. apply (get_route_stops_no_trips self rid T); assumption.
  - intros ST Hrid HST Htrip Hsttrip Hnone.
    apply (get_route_stops_no_stop_times self rid T ST); assumption.
Qed.

Lemma get_route_stops_spec_sample :
  table (Samples.processor Samples.feed_full) "trips" = Frame Samples.trips
  /\ table (Samples.processor Samples.feed_full) "stop_times" = Frame Samples.stop_times
  /\ table (Samples.processor Samples.feed_full) "stops" = Frame Samples.stops
  /\ (empty Samples.trips = true \/ has_column Samples.trips "route_id" = true)
  /\ List.NoDup (column Samples.stops "stop_id")
  /\ exists df,
       get_route_stops (Samples.processor Samples.feed_full) "R1" = Ok df
       /\ List.NoDup (column df "stop_id").
Proof.
  assert (Hnd : List.NoDup (column Samples.stops "stop_id")).
  { change (List.NoDup [VStr "S1"; VStr "S2"]).
    constructor; [intros [H | []]; discriminate H |].
    constructor; [intros [] | constructor]. }
  split; [reflexivity |]. split; [reflexivity |]. split; [reflexivity |].
  split; [right; reflexivity |]. split; [exact Hnd |].
  exact (proj1 (get_route_stops_spec (Samples.processor Samples.feed_full) "R1"
                  Samples.trips eq_refl (or_intror eq_refl))
           Samples.stop_times Samples.stops
           eq_refl eq_refl eq_refl eq_refl eq_refl eq_refl Hnd).
Defined.

(** No trip has the empty string as route_id, and [get_route_stops ""]
    returns the stops of every trip of the table. *)
Lemma get_route_stops_empty_id :
  table (Samples.processor Samples.feed_full) "trips" = Frame Samples.trips
  /\ matching Samples.trips "route_id" (VStr "") = []
  /\ get_route_stops (Samples.processor Samples.feed_full) "" = Ok Samples.stops
  /\ get_route_stops (Samples.processor Samples.feed_full) "" <> Ok DataFrame_new.
Proof.
  split; [vm_compute; reflexivity |].
  split; [vm_compute; reflexivity |].
  split; [vm_compute; reflexivity |].
  vm_compute. discriminate.
Qed.

(** ** Route statistics *)

Lemma unique_acc_NoDup (l seen : list value) : List.NoDup (unique_acc seen l).
Proof.
  revert seen. induction l as [| x l IH]; intros seen; simpl.
  - constructor.
  - destruct (isin x seen); [apply IH |].
    constructor; [| apply IH].
    rewrite unique_acc_In. simpl. tauto.
Qed.

Lemma nunique_spec (l : list value) : distinct_count l (nunique l).
Proof.
  unfold nunique, distinct_count.
  exists (unique (List.filter (fun v => negb (isna v)) l)).
  split; [apply unique_acc_NoDup |]. split; [| reflexivity].
  intros v. rewrite unique_In, filter_In.
  destruct v; simpl; split; intros [? ?]; split; congruence.
Qed.

Lemma count_eq_1_column (df : DataFrame) (c : string) :
  count_eq_1 (column df c) = count_flagged (columns df) c (rows df).
Proof.
  unfold count_eq_1, count_flagged, column.
  induction (rows df) as [| r rs IH]; simpl; [reflexivity |].
  destruct (py_eq (cell (columns df) r c) (VInt 1)); simpl; rewrite IH; reflexivity.
Qed.

Lemma get_shapes_all (self : GTFSProcessor) :
  get_shapes self None = Ok (table self "shapes").
Proof. reflexivity. Qed.

(** C6: the only trip of R1 has a null shape_id and R1 has no geometry, yet
    has_shapes is true for R1: the shapes of R2 make the shapes table
    non-empty.  And on the same feed without shapes.txt the statistics of
    R1 are not computed at all: the emptiness test on the shapes raises. *)
Theorem has_shapes_without_route_shapes :
  map (fun t => cell (columns Samples.trips) t "shape_id")
    (matching Samples.trips "route_id" (VStr "R1")) = [VNaN]
  /\ get_route_geometry (Samples.processor Samples.feed_full) "R1" = Ok None
  /\ (exists stats,
        calculate_route_stats (Samples.processor Samples.feed_full) "R1" = Ok (Some stats)
        /\ has_shapes stats = true)
  /\ calculate_route_stats (Samples.processor Samples.feed_no_shapes) "R1"
     = Raise (AttributeError "empty").
Proof.
  split; [vm_compute; reflexivity |].
  split; [vm_compute; reflexivity |].
  split; [eexists; split; [vm_compute; reflexivity | reflexivity] |].
  vm_compute. reflexivity.
Qed.

(** ** Assigning a column *)

Lemma col_index_Some (c : string) (cols : list string) :
  In c cols -> exists i, col_index c cols = Some i /\ nth_error cols i = Some c.
Proof.
  induction cols as [| c' cols IH]; simpl; [tauto |].
  intros Hin. case_bool_decide as Hc.
  - exists 0%nat. subst c'. split; reflexivity.
  - destruct Hin as [Heq | Hin]; [congruence |].
    destruct (IH Hin) as (i & Hi & Hnth). exists (S i). rewrite Hi. split; [reflexivity | exact Hnth].
Qed.

Lemma col_index_app_new (c : string) (cols : list string) :
  ~ In c cols -> col_index c (cols ++ [c]) = Some (length cols).
Proof.
  induction cols as [| c' cols IH]; simpl; intros Hn.
  - rewrite bool_decide_eq_true_2 by reflexivity. reflexivity.
  - rewrite bool_decide_eq_false_2 by (intros ->; apply Hn; left; reflexivity).
    rewrite IH by (intros Hin; apply Hn; right; exact Hin). reflexivity.
Qed.

Lemma cells_length (cols : list string) (r : row) : length (cells cols r) = length cols.
Proof. unfold cells. apply length_map. Qed.

Lemma in_zip_with {A B C : Type} (f : A -> B -> C) (l : list A) (k : list B) (z : C) :
  In z (zip_with f l k) -> exists x y, In x l /\ In y k /\ z = f x y.
Proof.
  revert k. induction l as [| x l IH]; intros [| y k]; simpl; try tauto.
  intros [<- | Hin].
  - exists x, y. tauto.
  - destruct (IH k Hin) as (x' & y' & Hx & Hy & Hz). exists x', y'. tauto.
Qed.

Lemma nth_map_nth_error {A B : Type} (g : A -> B) (l : list A) (i : nat) (a : A) (d : B) :
  nth_error l i = Some a -> nth i (map g l) d = g a.
Proof.
  revert i. induction l as [| x l IH]; intros [| i]; simpl; try discriminate.
  - intros [= ->]. reflexivity.
  - apply IH.
Qed.

(** After [df[c] = values] every row holds one of the values under [c]. *)
Lemma set_column_cell (df df' : DataFrame) (c : string) (values : list value) :
  set_column df c values = Ok df' ->
  forall r', In r' (rows df') -> In (cell (columns df') r' c) values.
Proof.
  unfold set_column.
  destruct (negb (bool_decide (length values = length (rows df)))); [discriminate |].
  destruct (has_column df c) eqn:Hc; intros [= <-] r' Hr'; cbn [rows columns] in *.
  - apply in_zip_with in Hr' as (r & v & _ & Hv & ->).
    apply has_column_true in Hc.
    destruct (col_index_Some c (columns df) Hc) as (i & Hi & Hnth).
    unfold cell. rewrite Hi.
    rewrite (nth_map_nth_error _ _ _ _ _ Hnth).
    rewrite bool_decide_eq_true_2 by reflexivity. exact Hv.
  - apply in_zip_with in Hr' as (r & v & _ & Hv & ->).
    assert (Hn : ~ In c (columns df)).
    { rewrite <- has_column_true. congruence. }
    unfold cell. rewrite (col_index_app_new c (columns df) Hn).
    rewrite app_nth2 by (rewrite cells_length; lia).
    rewrite cells_length, Nat.sub_diag. exact Hv.
Qed.

Lemma clip_bounds (lo hi n : Z) : lo <= hi -> lo <= clip lo hi n <= hi.
Proof. unfold clip. lia. Qed.

(** ** Synthetic demand *)

Lemma for_each_invariant {A S : Type} (P : S -> Prop) (l : list A) (body : A -> S -> S) :
  (forall a s, P s -> P (body a s)) -> forall s, P s -> P (for_each l body s).
Proof.
  intros Hbody. unfold for_each.
  induction l as [| a l IH]; intros s Hs; simpl; [exact Hs |].
  apply IH. apply Hbody. exact Hs.
Qed.

Section demand.
Context `{NumpyRandom}.

Lemma entry_bounded (route stop : string) (hour weekday : Z) (st : list row * rng) :
  Forall (bounded_count generate_synthetic_demand.output_columns) (fst st) ->
  Forall (bounded_count generate_synthetic_demand.output_columns)
    (fst (generate_synthetic_demand.entry route stop hour weekday st)).
Proof.
  destruct st as [data g]. unfold generate_synthetic_demand.entry. simpl fst.
  intros Hdata.
  destruct (if (Z.leb 7 hour && Z.leb hour 9) || (Z.leb 16 hour && Z.leb hour 18)
            then poisson 35 g
            else if Z.leb 10 hour && Z.leb hour 15 then poisson 15 g else poisson 5 g)
    as [base_demand g'].
  simpl fst. apply Forall_app. split; [exact Hdata |].
  constructor; [| constructor].
  exists (clip 0 100 base_demand). split; [reflexivity |].
  apply clip_bounds. lia.
Qed.

Lemma generate_columns (seed_value : Z) (g0 : rng) :
  columns (generate_synthetic_demand.run_with seed_value g0)
  = generate_synthetic_demand.output_columns.
Proof.
  unfold generate_synthetic_demand.run_with.
  destruct (for_each _ _ _) as [data g]. reflexivity.
Qed.

Lemma generate_rows_bounded (seed_value : Z) (g0 : rng) :
  Forall (bounded_count generate_synthetic_demand.output_columns)
    (rows (generate_synthetic_demand.run_with seed_value g0)).
Proof.
  unfold generate_synthetic_demand.run_with.
  remember (for_each _ _ _) as loops eqn:Eloops.
  assert (Hinv : Forall (bounded_count generate_synthetic_demand.output_columns) (fst loops)).
  { subst loops.
    apply (for_each_invariant
             (fun st => Forall (bounded_count generate_synthetic_demand.output_columns) (fst st)));
      [| constructor].
    intros route st Hst. apply for_each_invariant; [| exact Hst]. clear st Hst.
    intros stop st Hst. apply for_each_invariant; [| exact Hst]. clear st Hst.
    intros hour st Hst. apply for_each_invariant; [| exact Hst]. clear st Hst.
    intros weekday st Hst. apply entry_bounded. exact Hst. }
  clear Eloops. destruct loops as [data g]. exact Hinv.
Qed.

Lemma simulate_rows_bounded `{PythonText} (seed_value : Z)
    (stop_times trips calendar : DataFrame) (g0 : rng) (out : DataFrame) :
  simulate_demand.run_with seed_value stop_times trips calendar g0 = Ok out ->
  Forall (bounded_count (columns out)) (rows out).
Proof.
  unfold simulate_demand.run_with. intros Hrun.
  apply bind_Ok_inv in Hrun as (trips1 & _ & Hrun).
  apply bind_Ok_inv in Hrun as (st1 & _ & Hrun).
  apply bind_Ok_inv in Hrun as (st2 & _ & Hrun). cbv zeta in Hrun.
  apply bind_Ok_inv in Hrun as (syn & _ & Hrun).
  destruct (draws (randint 0 7) (len syn) (seed seed_value)) as [weekdays g1].
  apply bind_Ok_inv in Hrun as (syn1 & _ & Hrun).
  destruct (draws (poisson 20) (len syn1) g1) as [counts g2].
  apply bind_Ok_inv in Hrun as (syn2 & Hset & Hrun).
  apply bind_Ok_inv in Hrun as (col & Hcol & Hrun).
  apply List.Forall_forall. intros r Hr.
  pose proof (set_column_cell _ _ _ _ Hrun r Hr) as Hcell.
  apply in_map_iff in Hcell as (v & Hclip & Hv).
  apply getcol_Ok_inv in Hcol as [_ ->].
  apply in_map_iff in Hv as (r2 & <- & Hr2).
  pose proof (set_column_cell _ _ _ _ Hset r2 Hr2) as Hdrawn.
  apply in_map_iff in Hdrawn as (x & Hx & _).
  rewrite <- Hx in Hclip. simpl in Hclip.
  exists (clip 0 100 x). split; [symmetry; exact Hclip |].
  apply clip_bounds. lia.
Qed.

(** C7: each script, for a given seed and given input tables, produces the
    same table from whatever state the generator was in when it started
    (the seed is installed before the first draw); and every
    passenger_count of an output row is a number between 0 and 100. *)
Theorem demand_deterministic_and_bounded `{PythonText} :
  (forall seed_value stop_times trips calendar g1 g2,
     simulate_demand.run_with seed_value stop_times trips calendar g1
     = simulate_demand.run_with seed_value stop_times trips calendar g2)
  /\ (forall seed_value g1 g2,
        generate_synthetic_demand.run_with seed_value g1
        = generate_synthetic_demand.run_with seed_value g2)
  /\ (forall seed_value stop_times trips calendar g0 out,
        simulate_demand.run_with seed_value stop_times trips calendar g0 = Ok out ->
        forall r, In r (rows out) ->
          exists n, cell (columns out) r "passenger_count" = VInt n /\ 0 <= n <= 100)
  /\ (forall seed_value g0 r,
        In r (rows (generate_synthetic_demand.run_with seed_value g0)) ->
        exists n,
          cell (columns (generate_synthetic_demand.run_with seed_value g0)) r
            "passenger_count" = VInt n
          /\ 0 <= n <= 100).
Proof.
  split; [intros; unfold simulate_demand.run_with; reflexivity |].
  split; [intros; unfold generate_synthetic_demand.run_with; reflexivity |].
  split.
  - intros seed_value stop_times trips calendar g0 out Hrun r Hr.
    pose proof (simulate_rows_bounded _ _ _ _ _ _ Hrun) as Hall.
    rewrite List.Forall_forall in Hall. exact (Hall r Hr).
  - intros seed_value g0 r Hr.
    pose proof (generate_rows_bounded seed_value g0) as Hall.
    rewrite List.Forall_forall in Hall. rewrite generate_columns.
    exact (Hall r Hr).
Qed.

End demand.

(** ** Integers from text *)

Lemma decimal_not_space (c : N) : is_decimal c = true -> Py_ISSPACE c = false.
Proof.
  unfold is_decimal, Py_ISSPACE. intros Hc.
  apply andb_true_iff in Hc as [H1 H2]. apply N.leb_le in H1, H2.
  apply orb_false_iff. split.
  - apply andb_false_iff. right. apply N.leb_gt. lia.
  - apply N.eqb_neq. lia.
Qed.

Lemma decimal_not_mark (c : N) :
  is_decimal c = true ->
  N.eqb c underscore = false /\ N.eqb c plus_sign = false /\ N.eqb c minus_sign = false.
Proof.
  unfold is_decimal, underscore, plus_sign, minus_sign. intros Hc.
  apply andb_true_iff in Hc as [H1 H2]. apply N.leb_le in H1, H2.
  repeat split; apply N.eqb_neq; lia.
Qed.

Lemma space_not_digit (c : N) :
  Py_ISSPACE c = true -> is_decimal c = false /\ N.eqb c underscore = false.
Proof.
  intros Hc. split.
  - destruct (is_decimal c) eqn:E; [| reflexivity].
    apply decimal_not_space in E. congruence.
  - unfold Py_ISSPACE, underscore in *. apply N.eqb_neq. intros ->. discriminate Hc.
Qed.

Lemma skip_spaces_spec (cs : list N) :
  exists before,
    cs = (before ++ skip_spaces cs)%list
    /\ forallb Py_ISSPACE before = true.
Proof.
  induction cs as [| c cs IH]; simpl.
  - exists []. split; reflexivity.
  - destruct (Py_ISSPACE c) eqn:Hc.
    + destruct IH as (before & Hcs & Hsp). exists (c :: before). split.
      * simpl. rewrite <- Hcs. reflexivity.
      * simpl. rewrite Hc, Hsp. reflexivity.
    + exists []. split; reflexivity.
Qed.

Lemma skip_spaces_app (before rest : list N) :
  forallb Py_ISSPACE before = true -> skip_spaces (before ++ rest) = skip_spaces rest.
Proof.
  induction before as [| c before IH]; simpl; intros Hsp; [reflexivity |].
  apply andb_true_iff in Hsp as [Hc Hsp]. rewrite Hc. apply IH. exact Hsp.
Qed.

Lemma skip_spaces_all (after : list N) :
  forallb Py_ISSPACE after = true <-> skip_spaces after = [].
Proof.
  induction after as [| c after IH]; simpl; [tauto |].
  destruct (Py_ISSPACE c); simpl; [exact IH |]. split; discriminate.
Qed.

Lemma spaces_stop (after : list N) :
  forallb Py_ISSPACE after = true -> stops_digits after.
Proof.
  destruct after as [| c after]; simpl; [tauto |].
  intros Hsp. apply andb_true_iff in Hsp as [Hc _]. apply space_not_digit. exact Hc.
Qed.

(** What the scan has read when it ends well. *)
Lemma scan_digits_sound (cs : list N) :
  forall acc k prev v k' rest,
    scan_digits acc k prev cs = Some (v, k', rest) ->
    (N.eqb prev underscore = false ->
     exists body ds,
       cs = (body ++ rest)%list /\ more_digits body ds
       /\ v = fold_left (fun a d => 10 * a + d) ds acc
       /\ k' = (k + length ds)%nat
       /\ stops_digits rest)
    /\ (N.eqb prev underscore = true ->
        exists c body ds,
          cs = (c :: body ++ rest)%list /\ is_decimal c = true /\ more_digits body ds
          /\ v = fold_left (fun a d => 10 * a + d) (digit_of c :: ds) acc
          /\ k' = (k + S (length ds))%nat
          /\ stops_digits rest).
Proof.
  induction cs as [| c cs IH]; intros acc k prev v k' rest Hscan; cbn [scan_digits] in Hscan.
  - destruct (N.eqb prev underscore) eqn:Hprev; [discriminate |].
    injection Hscan as <- <- <-. split; [| discriminate].
    intros _. exists [], []. cbn. repeat split; try constructor. lia.
  - destruct (is_decimal c) eqn:Hc.
    + destruct (decimal_not_mark c Hc) as (Hu & _ & _).
      destruct (proj1 (IH _ _ _ _ _ _ Hscan) Hu) as (body & ds & -> & Hmore & -> & -> & Hstop).
      split; intros _.
      * exists (c :: body), (digit_of c :: ds). cbn [fold_left length app].
        repeat split; try assumption; [constructor; assumption | lia].
      * exists c, body, ds. cbn [fold_left length].
        repeat split; try assumption. lia.
    + destruct (N.eqb c underscore) eqn:Hcu.
      * destruct (N.eqb prev underscore) eqn:Hprev; [discriminate |].
        destruct (proj2 (IH _ _ _ _ _ _ Hscan) Hcu)
          as (c' & body & ds & -> & Hc' & Hmore & -> & -> & Hstop).
        split; [intros _ | discriminate].
        apply N.eqb_eq in Hcu. subst c.
        exists (underscore :: c' :: body), (digit_of c' :: ds). cbn [fold_left length app].
        repeat split; try assumption. constructor; assumption.
      * destruct (N.eqb prev underscore) eqn:Hprev; [discriminate |].
        injection Hscan as <- <- <-. split; [| discriminate].
        intros _. exists [], []. cbn [app fold_left length stops_digits].
        repeat split; try constructor; try assumption. lia.
Qed.

(** The scan reads digits and single underscores to their end. *)
Lemma scan_digits_complete (body : list N) (ds : list Z) :
  more_digits body ds ->
  forall acc k prev rest,
    N.eqb prev underscore = false ->
    stops_digits rest ->
    scan_digits acc k prev (body ++ rest)
    = Some (fold_left (fun a d => 10 * a + d) ds acc, (k + length ds)%nat, rest).
Proof.
  induction 1 as [| c cs ds Hc Hmore IH | c cs ds Hc Hmore IH];
    intros acc k prev rest Hprev Hstop.
  - cbn [app fold_left length]. rewrite Nat.add_0_r.
    destruct rest as [| c rest]; cbn [scan_digits]; rewrite Hprev; [reflexivity |].
    destruct Hstop as [Hd Hu]. rewrite Hd, Hu. reflexivity.
  - cbn [app scan_digits]. rewrite Hc.
    rewrite (IH _ _ c rest (proj1 (decimal_not_mark c Hc)) Hstop).
    cbn [fold_left length].
    replace (S k + length ds)%nat with (k + S (length ds))%nat by lia. reflexivity.
  - cbn [app scan_digits]. change (is_decimal underscore) with false.
    rewrite N.eqb_refl, Hprev. cbv iota. cbn [scan_digits]. rewrite Hc.
    rewrite (IH _ _ c rest (proj1 (decimal_not_mark c Hc)) Hstop).
    cbn [fold_left length].
    replace (S k + length ds)%nat with (k + S (length ds))%nat by lia. reflexivity.
Qed.

Section int_properties.
Context `{PythonText}.

Lemma limit_check (k : nat) :
  negb (Nat.eqb int_max_str_digits 0) && Nat.ltb int_max_str_digits k = false
  <-> (int_max_str_digits = 0%nat \/ (k <= int_max_str_digits)%nat).
Proof.
  destruct (Nat.eqb int_max_str_digits 0) eqn:E0; cbn [negb andb].
  - apply Nat.eqb_eq in E0. tauto.
  - apply Nat.eqb_neq in E0. rewrite Nat.ltb_ge. split; [tauto | intros [? | ?]; tauto].
Qed.

Lemma limit_640 (k : nat) :
  (k <= 640)%nat -> int_max_str_digits = 0%nat \/ (k <= int_max_str_digits)%nat.
Proof.
  intros Hk. pose proof int_max_str_digits_range as Hr.
  apply orb_true_iff in Hr as [Hr | Hr].
  - left. apply Nat.eqb_eq. exact Hr.
  - right. apply Nat.leb_le in Hr. lia.
Qed.

(** The parse accepts exactly the numbers of the grammar that have no more
    digits than the limit allows. *)
Lemma long_from_string_spec (cs : list N) (n : Z) :
  long_from_string cs = Some n
  <-> exists k,
        ascii_integer cs n k
        /\ (int_max_str_digits = 0%nat \/ (k <= int_max_str_digits)%nat).
Proof.
  unfold long_from_string. cbv zeta. split.
  - destruct (skip_spaces_spec cs) as (before & Hcs & Hbefore).
    destruct (skip_spaces cs) as [| c0 cs0] eqn:Hskip; [discriminate |].
    set (signed := N.eqb c0 plus_sign || N.eqb c0 minus_sign).
    assert (Hsign : exists sign cs1,
               (c0 :: cs0 = sign ++ cs1)%list
               /\ (if signed then cs0 else c0 :: cs0) = cs1
               /\ ((N.eqb c0 minus_sign = false /\ (sign = [] \/ sign = [plus_sign]))
                   \/ (N.eqb c0 minus_sign = true /\ sign = [minus_sign]))).
    { unfold signed. destruct (N.eqb c0 plus_sign) eqn:Hp.
      - apply N.eqb_eq in Hp. subst c0. exists [plus_sign], cs0.
        split; [reflexivity |]. split; [reflexivity |]. left. split; [reflexivity | tauto].
      - destruct (N.eqb c0 minus_sign) eqn:Hm.
        + apply N.eqb_eq in Hm. subst c0. exists [minus_sign], cs0.
          split; [reflexivity |]. split; [reflexivity |]. right. split; reflexivity.
        + exists [], (c0 :: cs0). split; [reflexivity |]. split; [reflexivity |].
          left. split; [reflexivity | tauto]. }
    destruct Hsign as (sign & cs1 & Hsplit & -> & Hneg).
    destruct cs1 as [| c1 cs1']; [discriminate |].
    destruct (N.eqb c1 underscore) eqn:Hu; [discriminate |].
    destruct (scan_digits 0 0 0%N (c1 :: cs1')) as [[[v k] rest] |] eqn:Hscan;
      [| discriminate].
    destruct (Nat.eqb k 0) eqn:Hk0; [discriminate |].
    destruct (negb (Nat.eqb int_max_str_digits 0) && Nat.ltb int_max_str_digits k) eqn:Hlim;
      [discriminate |].
    destruct (skip_spaces rest) eqn:Hafter; [| discriminate].
    intros Hn.
    destruct (proj1 (scan_digits_sound _ _ _ _ _ _ _ Hscan) eq_refl)
      as (body & ds & Hbody & Hmore & Hv & Hk & _).
    apply Nat.eqb_neq in Hk0.
    inversion Hmore as [Hb Hd | c body' ds' Hc Hmore' Hb Hd | c body' ds' Hc Hmore' Hb Hd];
      subst body ds.
    + cbn in Hk. lia.
    + cbn [app] in Hbody. injection Hbody as <- ->.
      exists k. split; [| apply limit_check; exact Hlim].
      exists before, sign, c1, body', rest, ds'.
      split; [rewrite Hcs, Hsplit; reflexivity |].
      split; [exact Hbefore |].
      split; [apply skip_spaces_all; exact Hafter |].
      split; [exact Hc |]. split; [exact Hmore' |].
      split; [cbn [length] in Hk; lia |].
      unfold decimal_value. rewrite <- Hv.
      destruct Hneg as [[Hneg Hs] | [Hneg Hs]]; rewrite Hneg in Hn;
        injection Hn as <-; [left | right]; split; try assumption; reflexivity.
    + cbn [app] in Hbody. injection Hbody as Hc1 _.
      rewrite Hc1, N.eqb_refl in Hu. discriminate.
  - intros (k & (before & sign & c & body & after & ds
                 & -> & Hbefore & Hafter & Hc & Hmore & -> & Hn) & Hlim).
    rewrite (skip_spaces_app _ _ Hbefore).
    destruct (decimal_not_mark c Hc) as (Hcu & Hcp & Hcm).
    pose proof (decimal_not_space c Hc) as Hcs.
    assert (Hscan : scan_digits 0 0 0%N (c :: body ++ after)
                    = Some (decimal_value (digit_of c :: ds), S (length ds), after)).
    { apply (scan_digits_complete (c :: body) (digit_of c :: ds)
               (next_digit c body ds Hc Hmore) 0 0%nat 0%N after eq_refl).
      apply spaces_stop. exact Hafter. }
    assert (Hend : skip_spaces after = []) by (apply skip_spaces_all; exact Hafter).
    apply limit_check in Hlim.
    destruct Hn as [[[-> | ->] ->] | [-> ->]]; cbn [app skip_spaces].
    + rewrite Hcs. cbv iota. rewrite Hcp, Hcm. cbn [orb]. cbv iota.
      rewrite Hcu, Hscan. cbn [Nat.eqb]. cbv iota.
      rewrite Hlim, Hend. reflexivity.
    + change (Py_ISSPACE plus_sign) with false. cbv iota.
      rewrite N.eqb_refl. cbn [orb]. cbv iota.
      rewrite Hcu, Hscan. cbn [Nat.eqb]. cbv iota.
      rewrite Hlim, Hend. reflexivity.
    + change (Py_ISSPACE minus_sign) with false. cbv iota.
      rewrite N.eqb_refl, orb_true_r. cbv iota.
      rewrite Hcu, Hscan. cbn [Nat.eqb]. cbv iota.
      rewrite Hlim, Hend. reflexivity.
Qed.

Lemma int_of_str_spec (s : string) (n : Z) :
  int_of_str s = Some n <-> integer_text s n.
Proof. unfold int_of_str, integer_text. apply long_from_string_spec. Qed.

(** *** Numbers written in decimal *)

Lemma digit_code_decimal (d : Z) :
  0 <= d <= 9 ->
  is_decimal (digit_code d) = true /\ digit_of (digit_code d) = d
  /\ ascii_of (digit_code d) = Some (digit_code d).
Proof.
  intros Hd.
  assert (Hcases : d = 0 \/ d = 1 \/ d = 2 \/ d = 3 \/ d = 4 \/ d = 5 \/ d = 6
                   \/ d = 7 \/ d = 8 \/ d = 9) by lia.
  repeat (destruct Hcases as [-> | Hcases]); try subst d; repeat split; reflexivity.
Qed.

Lemma uint_digits_range (u : Decimal.uint) :
  Forall (fun d => 0 <= d <= 9) (uint_digits u).
Proof. induction u; simpl; constructor; try assumption; lia. Qed.

Lemma more_digits_codes (ds : list Z) :
  Forall (fun d => 0 <= d <= 9) ds -> more_digits (map digit_code ds) ds.
Proof.
  induction 1 as [| d ds Hd Hds IH]; simpl; [constructor |].
  destruct (digit_code_decimal d Hd) as (Hdec & Hval & _).
  rewrite <- Hval at 2. constructor; assumption.
Qed.

Lemma to_ascii_codes (ds : list Z) :
  Forall (fun d => 0 <= d <= 9) ds -> to_ascii (map digit_code ds) = map digit_code ds.
Proof.
  induction 1 as [| d ds Hd Hds IH]; simpl; [reflexivity |].
  destruct (digit_code_decimal d Hd) as (_ & _ & Hascii).
  rewrite Hascii, IH. reflexivity.
Qed.

Lemma code_points_uint (u : Decimal.uint) :
  code_points (NilEmpty.string_of_uint u) = map digit_code (uint_digits u).
Proof. induction u; cbn; f_equal; assumption. Qed.

Lemma length_uint (u : Decimal.uint) :
  String.length (NilEmpty.string_of_uint u) = length (uint_digits u).
Proof. induction u; simpl; f_equal; assumption. Qed.

Lemma no_colon_uint (u : Decimal.uint) :
  contains_char ":"%char (NilEmpty.string_of_uint u) = false.
Proof. induction u; simpl; try reflexivity; assumption. Qed.

Lemma uint_value_acc (u : Decimal.uint) :
  forall acc : positive,
    fold_left (fun a d => 10 * a + d) (uint_digits u) (Z.pos acc)
    = Z.pos (Pos.of_uint_acc u acc).
Proof.
  induction u; intros acc; cbn [uint_digits fold_left Pos.of_uint_acc];
    try reflexivity; rewrite <- IHu; f_equal; lia.
Qed.

Lemma uint_value (u : Decimal.uint) : decimal_value (uint_digits u) = Z.of_uint u.
Proof.
  unfold decimal_value, Z.of_uint.
  induction u; cbn [uint_digits fold_left Pos.of_uint]; try reflexivity;
    try exact IHu;
    match goal with
    | |- fold_left _ _ ?a = _ => change a with (Z.pos (Z.to_pos a))
    end; rewrite uint_value_acc; reflexivity.
Qed.

Lemma nonnil_string (u : Decimal.uint) :
  u <> Decimal.Nil -> NilZero.string_of_uint u = NilEmpty.string_of_uint u.
Proof. destruct u; [congruence | reflexivity ..]. Qed.

(** [int(str(n)) == n], for a number whose text has 640 characters at
    most. *)
Lemma int_of_str_of_Z (n : Z) :
  (String.length (str_of_Z n) <= 640)%nat -> int_of_str (str_of_Z n) = Some n.
Proof.
  intros Hlen. apply int_of_str_spec. unfold integer_text, str_of_Z in *.
  assert (Hu : forall u, u <> Decimal.Nil ->
            exists c body ds,
              to_ascii (code_points (NilEmpty.string_of_uint u)) = c :: body
              /\ is_decimal c = true /\ more_digits body ds
              /\ uint_digits u = digit_of c :: ds).
  { intros u Hnil. rewrite code_points_uint, (to_ascii_codes _ (uint_digits_range u)).
    pose proof (uint_digits_range u) as Hr.
    destruct (uint_digits u) as [| d ds] eqn:E.
    - destruct u; discriminate || congruence.
    - inversion Hr as [| ? ? Hd Hds]; subst.
      destruct (digit_code_decimal d Hd) as (Hdec & Hval & _).
      exists (digit_code d), (map digit_code ds), ds.
      split; [reflexivity |]. split; [exact Hdec |].
      split; [apply more_digits_codes; exact Hds | rewrite Hval; reflexivity]. }
  pose proof (DecimalZ.of_to n) as Hback.
  destruct n as [| p | p]; cbn [Z.to_int NilZero.string_of_int] in *.
  - exists 1%nat. split; [| apply limit_640; lia].
    exists [], [], 48%N, [], [], [].
    split; [vm_compute; reflexivity |].
    split; [reflexivity |]. split; [reflexivity |]. split; [reflexivity |].
    split; [constructor |]. split; [reflexivity |].
    left. split; [left; reflexivity | reflexivity].
  - pose proof (Unsigned.to_uint_nonnil p) as Hnil.
    rewrite (nonnil_string _ Hnil) in *.
    destruct (Hu _ Hnil) as (c & body & ds & Htext & Hc & Hmore & Hdigits).
    exists (S (length ds)). split.
    + exists [], [], c, body, [], ds. rewrite Htext, app_nil_r. cbn [app forallb].
      split; [reflexivity |]. split; [reflexivity |]. split; [reflexivity |].
      split; [exact Hc |]. split; [exact Hmore |]. split; [reflexivity |].
      left. split; [left; reflexivity |].
      rewrite <- Hdigits, uint_value. symmetry. exact Hback.
    + apply limit_640. rewrite length_uint, Hdigits in Hlen. exact Hlen.
  - pose proof (Unsigned.to_uint_nonnil p) as Hnil.
    rewrite (nonnil_string _ Hnil) in *.
    destruct (Hu _ Hnil) as (c & body & ds & Htext & Hc & Hmore & Hdigits).
    exists (S (length ds)). split.
    + exists [], [minus_sign], c, body, [], ds.
      cbn [code_points]. change (N.ltb (N_of_ascii "-") 128) with true. cbv iota.
      cbn [to_ascii]. change (ascii_of (N_of_ascii "-")) with (Some minus_sign).
      cbv iota. rewrite Htext, app_nil_r. cbn [app forallb].
      split; [reflexivity |]. split; [reflexivity |]. split; [reflexivity |].
      split; [exact Hc |]. split; [exact Hmore |]. split; [reflexivity |].
      right. split; [reflexivity |].
      rewrite <- Hdigits, uint_value.
      cbn [Z.of_int] in Hback. symmetry. exact Hback.
    + apply limit_640. cbn [String.length] in Hlen.
      rewrite length_uint, Hdigits in Hlen. cbn [length] in Hlen. lia.
Qed.

Lemma no_colon_str_of_Z (n : Z) : contains_char ":"%char (str_of_Z n) = false.
Proof.
  unfold str_of_Z. destruct n as [| p | p]; cbn [Z.to_int NilZero.string_of_int].
  - reflexivity.
  - rewrite (nonnil_string _ (Unsigned.to_uint_nonnil p)). apply no_colon_uint.
  - rewrite (nonnil_string _ (Unsigned.to_uint_nonnil p)). cbn [contains_char].
    rewrite no_colon_uint. reflexivity.
Qed.

End int_properties.

(** ** Hours of arrival *)

Section hours.
Context `{PythonText}.

Lemma before_colon_app (s rest : string) :
  contains_char ":"%char s = false ->
  simulate_demand.before_colon (s ++ String ":"%char rest) = s.
Proof.
  induction s as [| a s IH]; simpl; intros Hs.
  - reflexivity.
  - apply orb_false_iff in Hs as [Ha Hs].
    rewrite Ha, (IH Hs). reflexivity.
Qed.

Lemma cell_appended (cols : list string) (r : row) (c : string) (v : value) :
  ~ In c cols -> cell (cols ++ [c])%list (cells cols r ++ [v])%list c = v.
Proof.
  intros Hn. unfold cell. rewrite (col_index_app_new c cols Hn).
  rewrite app_nth2 by (rewrite cells_length; lia).
  rewrite cells_length, Nat.sub_diag. reflexivity.
Qed.

Lemma filter_zip_with_map {A B C : Type} (p : C -> bool) (g : A -> B -> C) (h : A -> B)
    (l : list A) :
  List.filter p (zip_with g l (map h l))
  = map (fun x => g x (h x)) (List.filter (fun x => p (g x (h x))) l).
Proof.
  induction l as [| x l IH]; simpl; [reflexivity |].
  rewrite IH. destruct (p (g x (h x))); reflexivity.
Qed.

(** The rows [extract_hour] keeps are those whose arrival_time gives an
    hour, each extended by that hour. *)
Lemma extract_hour_rows (df : DataFrame) :
  has_column df "arrival_time" = true ->
  has_column df "hour" = false ->
  simulate_demand.extract_hour df
  = Ok (mkDataFrame (columns df ++ ["hour"])%list
          (map (fun r => (cells (columns df) r
                          ++ [simulate_demand.parse_hour (cell (columns df) r "arrival_time")])%list)
             (List.filter
                (fun r => negb (isna (simulate_demand.parse_hour
                                        (cell (columns df) r "arrival_time"))))
                (rows df)))).
Proof.
  intros Harr Hhour.
  assert (Hn : ~ In "hour" (columns df)).
  { rewrite <- has_column_true. congruence. }
  unfold simulate_demand.extract_hour. rewrite (getcol_has _ _ Harr). run.
  unfold set_column, column. rewrite !length_map.
  rewrite bool_decide_eq_true_2 by reflexivity. cbn [negb]. rewrite Hhour. run.
  unfold dropna.
  replace (has_column _ "hour") with true
    by (symmetry; apply has_column_true; cbn [columns]; apply in_or_app; right; left;
        reflexivity).
  unfold select. cbn [columns rows]. f_equal. f_equal.
  rewrite map_map.
  rewrite (filter_zip_with_map _ (fun r v => (cells (columns df) r ++ [v])%list)
             (fun r => simulate_demand.parse_hour (cell (columns df) r "arrival_time"))).
  f_equal. apply filter_ext. intros r.
  rewrite (cell_appended _ _ _ _ Hn). reflexivity.
Qed.

(** C9: an arrival_time whose text before the first colon is a number in
    decimal, 24 or more included, is kept with that number modulo 24 as
    its hour, so "25:10:00" gets hour 1; more generally the hour is
    [n mod 24] whenever that text is one [int] reads as [n] (white space,
    a sign, digits with single underscores, with the digits and spaces of
    other scripts, within the digit limit of the interpreter).  A string
    becomes NaN exactly when that text is no such number, and a cell that
    is no string becomes NaN; the rows kept by the script are exactly those
    whose hour is not NaN. *)
Theorem parse_hour_spec :
  (forall n rest,
     (String.length (str_of_Z n) <= 640)%nat ->
     simulate_demand.parse_hour (VStr (str_of_Z n ++ String ":"%char rest)) = VInt (n mod 24)
     /\ 0 <= n mod 24 < 24)
  /\ simulate_demand.parse_hour (VStr "25:10:00") = VInt 1
  /\ (forall s n,
        integer_text (simulate_demand.before_colon s) n ->
        simulate_demand.parse_hour (VStr s) = VInt (n mod 24))
  /\ (forall s,
        simulate_demand.parse_hour (VStr s) = VNaN
        <-> ~ exists n, integer_text (simulate_demand.before_colon s) n)
  /\ (forall v, is_str v = false -> simulate_demand.parse_hour v = VNaN)
  /\ (forall df,
        has_column df "arrival_time" = true ->
        has_column df "hour" = false ->
        simulate_demand.extract_hour df
        = Ok (mkDataFrame (columns df ++ ["hour"])%list
                (map (fun r =>
                        (cells (columns df) r
                         ++ [simulate_demand.parse_hour
                               (cell (columns df) r "arrival_time")])%list)
                   (List.filter
                      (fun r => negb (isna (simulate_demand.parse_hour
                                              (cell (columns df) r "arrival_time"))))
                      (rows df))))).
Proof.
  assert (Hdecimal : forall n rest,
            (String.length (str_of_Z n) <= 640)%nat ->
            simulate_demand.parse_hour (VStr (str_of_Z n ++ String ":"%char rest))
            = VInt (n mod 24)).
  { intros n rest Hlen. unfold simulate_demand.parse_hour.
    rewrite (before_colon_app _ rest (no_colon_str_of_Z n)).
    rewrite (int_of_str_of_Z n Hlen). reflexivity. }
  split; [| split; [| split; [| split; [| split]]]].
  - intros n rest Hlen. split; [apply Hdecimal; exact Hlen |].
    apply Z.mod_pos_bound. lia.
  - apply (Hdecimal 25 "10:00"). simpl. lia.
  - intros s n Hn. unfold simulate_demand.parse_hour.
    apply int_of_str_spec in Hn. rewrite Hn. reflexivity.
  - intros s. unfold simulate_demand.parse_hour.
    destruct (int_of_str (simulate_demand.before_colon s)) as [n |] eqn:E.
    + split; [discriminate |]. intros Hno. exfalso. apply Hno.
      exists n. apply int_of_str_spec. exact E.
    + split; [| reflexivity]. intros _ (n & Hn).
      apply int_of_str_spec in Hn. congruence.
  - intros [s | n |] Hv; [discriminate | reflexivity | reflexivity].
  - apply extract_hour_rows.
Qed.

End hours.

(** On CPython 3.11: hours after midnight, a text that is no number, a
    missing cell; digits and a space of other scripts; the separator
    U+001C, which [str.isspace] accepts and [int] does not. *)
Lemma parse_hour_after_midnight :
  map (@simulate_demand.parse_hour Installation.python_3_11)
    [VStr "24:00:00"; VStr "25:10:00"; VStr "47:59:59"; VStr "8:05:00"; VStr " 9 :05:00";
     VStr "-1:00:00"; VStr "1_0:00:00"; VStr "xx:10:00"; VStr ":10:00"; VNaN]
  = [VInt 0; VInt 1; VInt 23; VInt 8; VInt 9; VInt 23; VInt 10; VNaN; VNaN; VNaN].
Proof. vm_compute. reflexivity. Qed.

Lemma parse_hour_other_scripts :
  map (@simulate_demand.parse_hour Installation.python_3_11)
    [VStr "٣:10:00"; VStr "１２:00:00"; VStr " 7:00:00";
     VStr (String (ascii_of_nat 28) "5:00:00")]
  = [VInt 3; VInt 12; VInt 7; VNaN].
Proof. vm_compute. reflexivity. Qed.

(** Every hour from 0 to 199 written in decimal before the colon is read
    back modulo 24. *)
Lemma parse_hour_decimal_hours :
  forallb (fun n =>
             same_value (@simulate_demand.parse_hour Installation.python_3_11
                           (VStr (str_of_Z n ++ ":10:00")))
               (VInt (n mod 24)))
    (map Z.of_nat (seq 0 200)) = true.
Proof. vm_compute. reflexivity. Qed.

(** * Further properties *)

(** ** Loading *)

(** X1: A processor holds each of the thirteen table names as a key, and no
    other name: under a name is the table the feed has for it, or [None]
    when the feed has no such file or the file has no row.  It is only
    built for a zip file or a directory. *)
Theorem load_gtfs_data_tables (path : string) (kind : path_kind)
    (fd : Feed) (self : GTFSProcessor) :
  load_gtfs_data path kind (Ok fd) = Ok self ->
  kind <> NoFeedPath
  /\ (forall name,
        gtfs_data self !! name
        = if bool_decide (name ∈ feed_attributes) then Some (getattr fd name) else None)
  /\ (forall name,
        In name feed_attributes ->
        (has_rows fd name = false -> gtfs_data self !! name = Some PyNone)
        /\ (forall df, fd !! name = Some df -> empty df = false ->
              gtfs_data self !! name = Some (Frame df))).
Proof.
  intros Hload. pose proof (load_gtfs_data_Ok_inv _ _ _ _ Hload) as [Hkind Hdata].
  split; [exact Hkind |]. split.
  - intros name. rewrite Hdata. apply loaders_lookup.
  - intros name Hname. rewrite (loaded_lookup _ _ _ _ name Hload Hname). split.
    + intros Hrows. f_equal. apply getattr_none. exact Hrows.
    + intros df Hdf He. f_equal. apply getattr_frame_inv. split; assumption.
Qed.

Lemma load_gtfs_data_tables_sample :
  load_gtfs_data "feed.zip" ZipFile (Ok (<["notes" := Samples.agency]> Samples.feed_full))
    = Ok (Samples.processor (<["notes" := Samples.agency]> Samples.feed_full))
  /\ gtfs_data (Samples.processor (<["notes" := Samples.agency]> Samples.feed_full)) !! "notes"
     = None
  /\ gtfs_data (Samples.processor (<["notes" := Samples.agency]> Samples.feed_full)) !! "shapes"
     = Some (Frame Samples.shapes)
  /\ gtfs_data (Samples.processor (<["notes" := Samples.agency]> Samples.feed_full))
       !! "frequencies"
     = Some PyNone.
Proof.
  split; [reflexivity |].
  pose proof (load_gtfs_data_tables "feed.zip" ZipFile
                (<["notes" := Samples.agency]> Samples.feed_full)
                (Samples.processor (<["notes" := Samples.agency]> Samples.feed_full))
                eq_refl) as [_ [Hkeys Hnames]].
  split; [| split].
  - exact (Hkeys "notes").
  - exact (Hkeys "shapes").
  - apply (Hnames "frequencies"); [simpl; tauto | reflexivity].
Defined.

(** ** Accessors *)

(** X2: For a table the processor holds as [None], [get_routes] and
    [get_stops] return [None]; a filtered accessor returns [None] when it
    is given no filter or a falsy one, and raises [AttributeError] when it
    is given a truthy one; [get_transfers] raises as soon as one of its
    two filters is truthy. *)
Theorem accessors_without_table (self : GTFSProcessor) :
  (gtfs_data self !! "routes" = Some PyNone -> get_routes self = PyNone)
  /\ (gtfs_data self !! "stops" = Some PyNone -> get_stops self = PyNone)
  /\ (forall get name arg,
        In (get, name)
          [(get_trips, "trips"); (get_stop_times, "stop_times"); (get_shapes, "shapes");
           (get_calendar, "calendar"); (get_frequencies, "frequencies")] ->
        gtfs_data self !! name = Some PyNone ->
        get self arg = if truthy arg then Raise (AttributeError "empty") else Ok PyNone)
  /\ (forall a b,
        gtfs_data self !! "transfers" = Some PyNone ->
        get_transfers self a b
        = if truthy a || truthy b then Raise (AttributeError "empty") else Ok PyNone).
Proof.
  split; [apply table_key |]. split; [apply table_key |]. split.
  - intros get name arg Hin Hnone. simpl in Hin.
    repeat (destruct Hin as [[= <- <-] | Hin]); try destruct Hin;
      unfold get_trips, get_stop_times, get_shapes, get_calendar, get_frequencies;
      cbv zeta; rewrite (table_key _ _ _ Hnone); unfold filter_if_given;
      destruct (truthy arg); reflexivity.
  - intros a b Hnone. unfold get_transfers. cbv zeta.
    rewrite (table_key _ _ _ Hnone). unfold filter_if_given.
    destruct (truthy a); [reflexivity |]. run.
    destruct (truthy b); reflexivity.
Qed.

Lemma accessors_without_table_sample :
  gtfs_data (Samples.processor Samples.feed_full) !! "frequencies" = Some PyNone
  /\ get_frequencies (Samples.processor Samples.feed_full) (Some (VStr "T1"))
     = Raise (AttributeError "empty")
  /\ get_frequencies (Samples.processor Samples.feed_full) None = Ok PyNone.
Proof.
  split; [reflexivity |]. split.
  - exact (proj1 (proj2 (proj2 (accessors_without_table
                                  (Samples.processor Samples.feed_full))))
             get_frequencies "frequencies" (Some (VStr "T1"))
             ltac:(simpl; tauto) eq_refl).
  - exact (proj1 (proj2 (proj2 (accessors_without_table
                                  (Samples.processor Samples.feed_full))))
             get_frequencies "frequencies" None ltac:(simpl; tauto) eq_refl).
Defined.

Lemma filtered_select (df : DataFrame) (c : string) (v : value) :
  truthy (Some v) = true ->
  has_column df c = true ->
  filter_if_given (Frame df) c (Some v) = Ok (Frame (mkDataFrame (columns df) (matching df c v))).
Proof.
  intros Hv Hc. rewrite (filter_if_given_frame df c v Hv).
  destruct (empty df) eqn:He.
  - rewrite (empty_matching df c v He).
    destruct df as [cols rs]. cbn [columns]. unfold empty in He. cbn in He.
    destruct cols as [| c0 cols].
    + apply has_column_true in Hc. destruct Hc.
    + destruct rs; [reflexivity | discriminate].
  - unfold filter_eq. rewrite Hc. reflexivity.
Qed.

Lemma filtered_key_error (df : DataFrame) (c : string) (v : value) :
  truthy (Some v) = true ->
  empty df = false ->
  has_column df c = false ->
  filter_if_given (Frame df) c (Some v) = Raise (KeyError c).
Proof.
  intros Hv He Hc. rewrite (filter_if_given_frame df c v Hv), He.
  unfold filter_eq. rewrite Hc. reflexivity.
Qed.

(** X3: With a truthy filter value an accessor returns, under the labels of
    the stored table, exactly the rows whose key cell equals the value, in
    the order of the table; when the stored table is not empty and lacks
    the key column it raises [KeyError]. *)
Theorem filtered_accessors_select (self : GTFSProcessor) (v : value) :
  truthy (Some v) = true ->
  (forall get name c T,
     In (get, name, c)
       [(get_trips, "trips", "route_id"); (get_stop_times, "stop_times", "trip_id");
        (get_shapes, "shapes", "shape_id"); (get_calendar, "calendar", "service_id");
        (get_frequencies, "frequencies", "trip_id")] ->
     table self name = Frame T ->
     (has_column T c = true ->
      get self (Some v) = Ok (Frame (mkDataFrame (columns T) (matching T c v))))
     /\ (empty T = false ->
         has_column T c = false ->
         get self (Some v) = Raise (KeyError c))).
Proof.
  intros Hv get name c T Hin HT. simpl in Hin.
  repeat (destruct Hin as [[= <- <- <-] | Hin]);
    try (destruct Hin);
    unfold get_trips, get_stop_times, get_shapes, get_calendar, get_frequencies;
    cbv zeta; rewrite HT; split;
    try (intros Hc; apply filtered_select; assumption);
    intros He Hc; apply filtered_key_error; assumption.
Qed.

Lemma filtered_accessors_select_sample :
  truthy (Some (VStr "R2")) = true
  /\ get_trips (Samples.processor Samples.feed_full) (Some (VStr "R2"))
     = Ok (Frame (mkDataFrame (columns Samples.trips)
                    [[VStr "R2"; VStr "WK"; VStr "T2"; VStr "SH1"]])).
Proof.
  split; [reflexivity |].
  exact (proj1 (filtered_accessors_select (Samples.processor Samples.feed_full)
                  (VStr "R2") eq_refl get_trips "trips" "route_id" Samples.trips
                  (or_introl eq_refl) eq_refl) eq_refl).
Defined.

Lemma filter_filter_andb {A : Type} (p q : A -> bool) (l : list A) :
  List.filter q (List.filter p l) = List.filter (fun x => p x && q x) l.
Proof.
  induction l as [| x l IH]; simpl; [reflexivity |].
  destruct (p x); simpl; [destruct (q x) |]; rewrite IH; reflexivity.
Qed.

(** X4: [get_transfers] with both stops given (truthy) returns exactly the
    transfers from the first stop to the second. *)
Theorem get_transfers_both (self : GTFSProcessor) (a b : value) (T : DataFrame) :
  truthy (Some a) = true ->
  truthy (Some b) = true ->
  table self "transfers" = Frame T ->
  has_column T "from_stop_id" = true ->
  has_column T "to_stop_id" = true ->
  get_transfers self (Some a) (Some b)
  = Ok (Frame (mkDataFrame (columns T)
                 (List.filter
                    (fun r => py_eq (cell (columns T) r "from_stop_id") a
                              && py_eq (cell (columns T) r "to_stop_id") b)
                    (rows T)))).
Proof.
  intros Ha Hb HT Hfrom Hto. unfold get_transfers. cbv zeta. rewrite HT.
  rewrite (filtered_select _ "from_stop_id" a Ha Hfrom). run.
  rewrite (filtered_select _ "to_stop_id" b Hb) by exact Hto.
  cbn [columns]. unfold matching. cbn [rows columns].
  rewrite filter_filter_andb. reflexivity.
Qed.

Lemma get_transfers_both_sample :
  truthy (Some (VStr "S1")) = true
  /\ truthy (Some (VStr "S2")) = true
  /\ get_transfers (Samples.processor MoreSamples.feed_extended)
       (Some (VStr "S1")) (Some (VStr "S2"))
     = Ok (Frame (mkDataFrame (columns MoreSamples.transfers)
                    [[VStr "S1"; VStr "S2"; VInt 0]])).
Proof.
  split; [reflexivity |]. split; [reflexivity |].
  exact (get_transfers_both (Samples.processor MoreSamples.feed_extended)
           (VStr "S1") (VStr "S2") MoreSamples.transfers
           eq_refl eq_refl eq_refl eq_refl eq_refl).
Defined.

(** ** Stop geometry *)

(** X5: With the stops table held by the processor, [get_stop_geometry]
    gives no point when the table is empty or no stop has the identifier,
    and otherwise the point (longitude, latitude) of the first stop with
    that identifier; the empty string is looked up like any other
    identifier.  Where the processor holds [None] for the stops, the call
    raises. *)
Theorem get_stop_geometry_spec (self : GTFSProcessor) (stop_id : string) :
  (forall S,
     table self "stops" = Frame S ->
     (empty S = true -> get_stop_geometry self stop_id = Ok None)
     /\ (has_column S "stop_id" = true ->
         matching S "stop_id" (VStr stop_id) = [] ->
         get_stop_geometry self stop_id = Ok None)
     /\ (forall r rest,
           matching S "stop_id" (VStr stop_id) = r :: rest ->
           has_column S "stop_lon" = true ->
           has_column S "stop_lat" = true ->
           is_str (cell (columns S) r "stop_lon") = false ->
           is_str (cell (columns S) r "stop_lat") = false ->
           get_stop_geometry self stop_id
           = Ok (Some (mkPoint (cell (columns S) r "stop_lon")
                         (cell (columns S) r "stop_lat"))))
     /\ (empty S = false -> has_column S "stop_id" = false ->
         get_stop_geometry self stop_id = Raise (KeyError "stop_id")))
  /\ (table self "stops" = PyNone ->
      get_stop_geometry self stop_id = Raise (AttributeError "empty")).
Proof.
  split; [| unfold get_stop_geometry, get_stops; intros ->; reflexivity].
  intros S HS. unfold get_stop_geometry, get_stops. rewrite HS.
  cbn [getattr_frame]. run.
  split; [| split; [| split]].
  - intros ->. reflexivity.
  - intros Hc Hm. destruct (empty S); [reflexivity |].
    unfold filter_eq. rewrite Hc. run.
    rewrite empty_no_rows by exact Hm. reflexivity.
  - intros r rest Hm Hlon Hlat Hnlon Hnlat.
    assert (Hin : In r (matching S "stop_id" (VStr stop_id))) by (rewrite Hm; left; reflexivity).
    apply filter_In in Hin as [Hr Hp].
    pose proof (matching_row_has_column S r _ _ Hp) as Hc.
    rewrite (has_column_not_empty S "stop_id" r Hc Hr).
    unfold filter_eq. rewrite Hc. run.
    assert (He : empty (select S (fun r0 => py_eq (cell (columns S) r0 "stop_id") (VStr stop_id)))
                 = false).
    { apply (has_column_not_empty _ "stop_id" r); [exact Hc |].
      cbn [select rows]. fold (matching S "stop_id" (VStr stop_id)). rewrite Hm.
      left. reflexivity. }
    rewrite He. unfold iloc0, select. cbn [rows].
    fold (matching S "stop_id" (VStr stop_id)). rewrite Hm. run.
    unfold series_item, has_column. cbn [columns].
    fold (has_column S "stop_lon"). fold (has_column S "stop_lat").
    rewrite Hlon, Hlat. run.
    unfold Point_new. rewrite Hnlon, Hnlat. reflexivity.
  - intros He Hc. rewrite He. unfold filter_eq. rewrite Hc. reflexivity.
Qed.

Lemma get_stop_geometry_spec_sample :
  table (Samples.processor Samples.feed_full) "stops" = Frame Samples.stops
  /\ get_stop_geometry (Samples.processor Samples.feed_full) "S2"
     = Ok (Some (mkPoint (VInt (-1)) (VInt 6)))
  /\ get_stop_geometry (Samples.processor Samples.feed_full) "" = Ok None.
Proof.
  split; [reflexivity |].
  split.
  - exact (proj1 (proj2 (proj2 (proj1 (get_stop_geometry_spec
                                         (Samples.processor Samples.feed_full) "S2")
                                  Samples.stops eq_refl)))
             (nth 1 (rows Samples.stops) []) [] eq_refl eq_refl eq_refl eq_refl eq_refl).
  - exact (proj1 (proj2 (proj1 (get_stop_geometry_spec
                                  (Samples.processor Samples.feed_full) "")
                           Samples.stops eq_refl)) eq_refl eq_refl).
Defined.

(** ** Route stops as a join *)

Lemma isin_unique_map {A : Type} (f : A -> value) (l : list A) (v : value) :
  isin v (unique (map f l)) = true <-> exists x, In x l /\ f x = v.
Proof.
  rewrite isin_unique, isin_spec, in_map_iff.
  split; intros (x & H1 & H2); exists x; split; assumption.
Qed.

Lemma empty_select_no_rows (df : DataFrame) (c : string) (p : row -> bool) :
  has_column df c = true ->
  empty (select df p) = true ->
  List.filter p (rows df) = [].
Proof.
  intros Hc He. unfold empty, select in He. cbn [columns rows] in He.
  apply has_column_true in Hc.
  destruct (columns df) as [| c0 cols]; [destruct Hc |].
  destruct (List.filter p (rows df)); [reflexivity | discriminate].
Qed.

(** X6: A stop is among the stops of a route exactly when some stop time of
    some trip of the route visits it. *)
Theorem get_route_stops_join (self : GTFSProcessor) (rid : string) (T ST S : DataFrame) :
  rid <> "" ->
  table self "trips" = Frame T ->
  table self "stop_times" = Frame ST ->
  table self "stops" = Frame S ->
  has_column T "route_id" = true ->
  has_column T "trip_id" = true ->
  has_column ST "trip_id" = true ->
  has_column ST "stop_id" = true ->
  has_column S "stop_id" = true ->
  exists df,
    get_route_stops self rid = Ok df
    /\ forall r,
         In r (rows df)
         <-> (In r (rows S)
              /\ exists st t,
                   In st (rows ST)
                   /\ In t (matching T "route_id" (VStr rid))
                   /\ cell (columns T) t "trip_id" = cell (columns ST) st "trip_id"
                   /\ cell (columns ST) st "stop_id" = cell (columns S) r "stop_id").
Proof.
  intros Hrid HT HST HS Hroute Htrip Hsttrip Hststop Hstop.
  assert (HTc : empty T = true \/ has_column T "route_id" = true) by (right; exact Hroute).
  destruct (matching T "route_id" (VStr rid)) as [| t0 rest] eqn:Hm.
  { exists DataFrame_new. split.
    - apply (get_route_stops_no_trips self rid T Hrid HT HTc Hm).
    - intros r. simpl. split; [tauto |]. intros (_ & st & t & _ & [] & _). }
  destruct (get_trips_route self rid T Hrid HT HTc) as (trips & Hget & Hcols & _ & Hsome).
  destruct (Hsome t0 rest Hm) as [Hne Hrows].
  unfold get_route_stops. rewrite Hget. run. cbn [getattr_frame]. run. rewrite Hne.
  rewrite (getcol_has trips "trip_id")
    by (rewrite (has_column_same_columns trips T _ Hcols); exact Htrip).
  run. rewrite get_stop_times_all, HST. run. cbn [subscript_frame]. run.
  rewrite (filter_isin_has ST "trip_id" _ Hsttrip). run.
  unfold column. rewrite Hrows, Hcols.
  set (of_route := fun st : row =>
         isin (cell (columns ST) st "trip_id")
           (unique (map (fun r : row => cell (columns T) r "trip_id") (t0 :: rest)))).
  assert (Hof : forall st, of_route st = true
                  <-> exists t, In t (t0 :: rest)
                        /\ cell (columns T) t "trip_id" = cell (columns ST) st "trip_id").
  { intros st. unfold of_route. apply isin_unique_map. }
  destruct (empty (select ST of_route)) eqn:Hrst.
  { exists DataFrame_new. split; [reflexivity |].
    intros r. simpl. split; [tauto |].
    intros (_ & st & t & Hst & Ht & Heq & _).
    pose proof (empty_select_no_rows ST "trip_id" of_route Hsttrip Hrst) as Hnone.
    assert (Hin : In st (List.filter of_route (rows ST))).
    { apply filter_In. split; [exact Hst |]. apply Hof. exists t.
      split; [exact Ht | exact Heq]. }
    rewrite Hnone in Hin. destruct Hin. }
  unfold get_stops. rewrite HS. cbn [subscript_frame]. run.
  rewrite (getcol_has S "stop_id" Hstop). run.
  rewrite (getcol_has (select ST of_route) "stop_id") by exact Hststop. run.
  rewrite (filter_isin_has S "stop_id" _ Hstop).
  eexists. split; [reflexivity |].
  intros r. unfold select, column. cbn [rows columns].
  rewrite filter_In, isin_unique_map. split.
  - intros (Hr & st & Hst & Heq). apply filter_In in Hst as [Hst Hroute_st].
    apply Hof in Hroute_st as (t & Ht & Htid).
    split; [exact Hr |]. exists st, t.
    split; [exact Hst |]. split; [exact Ht |]. split; [exact Htid | exact Heq].
  - intros (Hr & st & t & Hst & Ht & Htid & Hsid).
    split; [exact Hr |]. exists st. split; [| exact Hsid].
    apply filter_In. split; [exact Hst |]. apply Hof. exists t.
    split; [exact Ht | exact Htid].
Qed.

Lemma get_route_stops_join_sample :
  "R2" <> ""
  /\ exists df,
       get_route_stops (Samples.processor Samples.feed_full) "R2" = Ok df
       /\ forall r,
            In r (rows df)
            <-> (In r (rows Samples.stops)
                 /\ exists st t,
                      In st (rows Samples.stop_times)
                      /\ In t (matching Samples.trips "route_id" (VStr "R2"))
                      /\ cell (columns Samples.trips) t "trip_id"
                         = cell (columns Samples.stop_times) st "trip_id"
                      /\ cell (columns Samples.stop_times) st "stop_id"
                         = cell (columns Samples.stops) r "stop_id").
Proof.
  split; [discriminate |].
  exact (get_route_stops_join (Samples.processor Samples.feed_full) "R2"
           Samples.trips Samples.stop_times Samples.stops
           ltac:(discriminate) eq_refl eq_refl eq_refl eq_refl eq_refl eq_refl eq_refl eq_refl).
Defined.

(** ** Lines have two points *)

(** What a filtered accessor returns is [None], or has the labels of a held
    table and rows of it. *)
Lemma filtered_sub_table (t : table_or_none) (out : DataFrame) (c : string)
    (arg : option value) :
  filter_if_given t c arg = Ok (Frame out) ->
  exists df,
    t = Frame df /\ columns out = columns df /\ (forall r, In r (rows out) -> In r (rows df)).
Proof.
  unfold filter_if_given. destruct (truthy arg).
  - intros H0. apply bind_Ok_inv in H0 as (df & Hdf & H0).
    destruct t as [| df']; [discriminate |]. injection Hdf as ->.
    exists df. split; [reflexivity |].
    destruct (negb (empty df)).
    + apply bind_Ok_inv in H0 as (df' & Hf & H0). injection H0 as <-.
      unfold filter_eq in Hf. destruct (has_column df c); [| discriminate].
      injection Hf as <-. split; [reflexivity |].
      intros r Hr. apply filter_In in Hr as [Hr _]. exact Hr.
    + injection H0 as <-. split; [reflexivity | tauto].
  - intros [= ->]. exists out. split; [reflexivity |]. split; [reflexivity | tauto].
Qed.

Lemma getattr_frame_Ok_inv (t : table_or_none) (attr : string) (df : DataFrame) :
  getattr_frame t attr = Ok df -> t = Frame df.
Proof. destruct t; [discriminate | intros [= ->]; reflexivity]. Qed.

Lemma shape_coords_rows (df : DataFrame) (rs : list row) (cs : list (value * value)) :
  shape_coords df rs = Ok cs -> cs = map (lon_lat (columns df)) rs.
Proof.
  revert cs. induction rs as [| r rs IH]; simpl; intros cs H.
  - injection H as <-. reflexivity.
  - apply bind_Ok_inv in H as (lon & Hlon & H).
    apply bind_Ok_inv in H as (lat & Hlat & H).
    apply bind_Ok_inv in H as (rest & Hrest & H).
    injection H as <-. rewrite (IH rest Hrest).
    unfold series_item in Hlon, Hlat.
    destruct (has_column df "shape_pt_lon"); [| discriminate].
    destruct (has_column df "shape_pt_lat"); [| discriminate].
    injection Hlon as <-. injection Hlat as <-. reflexivity.
Qed.

Lemma sort_values_rows (df out : DataFrame) (c : string) :
  sort_values df c = Ok out ->
  columns out = columns df /\ Permutation (rows out) (rows df).
Proof.
  unfold sort_values. intros H. apply bind_Ok_inv in H as (keys & _ & H).
  destruct (orderable keys); [| discriminate]. injection H as <-.
  split; [reflexivity | apply sort_by_perm].
Qed.

(** X7: Whatever the argument, a line returned by [get_route_geometry] has at
    least two points, each of them the (longitude, latitude) of a row of
    the stored shapes table, and no coordinate is a string. *)
Theorem get_route_geometry_line (self : GTFSProcessor) (rid : string) (line : LineString) :
  get_route_geometry self rid = Ok (Some line) ->
  (2 <= length (coords line))%nat
  /\ exists SH pts,
       table self "shapes" = Frame SH
       /\ coords line = map (lon_lat (columns SH)) pts
       /\ (forall r, In r pts -> In r (rows SH))
       /\ forallb (numeric_point (columns SH)) pts = true.
Proof.
  unfold get_route_geometry. intros H0.
  apply bind_Ok_inv in H0 as (trips0 & _ & H0).
  apply bind_Ok_inv in H0 as (trips & _ & H0).
  destruct (empty trips || negb (has_column trips "shape_id")); [discriminate |].
  apply bind_Ok_inv in H0 as (shape_col & _ & H0).
  destruct (isna (hd VNaN shape_col)); [discriminate |].
  apply bind_Ok_inv in H0 as (shapes0 & Hshapes & H0).
  apply bind_Ok_inv in H0 as (shapes1 & Hframe & H0).
  apply getattr_frame_Ok_inv in Hframe. subst shapes0.
  destruct (empty shapes1); [discriminate |].
  apply bind_Ok_inv in H0 as (sorted & Hsort & H0).
  apply bind_Ok_inv in H0 as (cs & Hcs & H0).
  case_bool_decide as Hlen; [| discriminate].
  apply bind_Ok_inv in H0 as (line0 & Hline & H0). injection H0 as <-.
  unfold get_shapes in Hshapes. cbv zeta in Hshapes.
  apply filtered_sub_table in Hshapes as (SH & HSH & Hcols & Hsub).
  apply sort_values_rows in Hsort as [Hcols' Hperm].
  apply shape_coords_rows in Hcs. rewrite Hcols', Hcols in Hcs.
  unfold LineString_new in Hline.
  destruct (existsb _ cs) eqn:Hstr; [discriminate |]. injection Hline as <-.
  cbn [coords]. split; [lia |].
  exists SH, (rows sorted). split; [exact HSH |]. split; [exact Hcs |]. split.
  - intros r Hr. apply Hsub. apply (Permutation_in r Hperm). exact Hr.
  - apply forallb_forall. intros r Hr. unfold numeric_point.
    destruct (is_str _ || is_str _) eqn:E; [| reflexivity].
    exfalso. assert (Hex : existsb (fun xy => is_str (fst xy) || is_str (snd xy)) cs = true).
    { apply existsb_exists. exists (lon_lat (columns SH) r).
      split; [rewrite Hcs; apply in_map; exact Hr | exact E]. }
    congruence.
Qed.

Lemma get_route_geometry_line_sample :
  exists line,
    get_route_geometry (Samples.processor Samples.feed_full) "R2" = Ok (Some line)
    /\ (2 <= length (coords line))%nat.
Proof.
  exists (mkLineString [(VInt 0, VInt 5); (VInt (-1), VInt 6)]).
  split; [reflexivity |].
  exact (proj1 (get_route_geometry_line (Samples.processor Samples.feed_full) "R2"
                  (mkLineString [(VInt 0, VInt 5); (VInt (-1), VInt 6)]) eq_refl)).
Defined.

(** ** Bounds of the route statistics *)

Lemma filter_length_le {A : Type} (p : A -> bool) (l : list A) :
  (length (List.filter p l) <= length l)%nat.
Proof.
  induction l as [| x l IH]; simpl; [lia |]. destruct (p x); simpl; lia.
Qed.

Lemma unique_acc_length (l seen : list value) :
  (length (unique_acc seen l) <= length l)%nat.
Proof.
  revert seen. induction l as [| x l IH]; intros seen; simpl; [lia |].
  destruct (isin x seen); simpl.
  - specialize (IH seen). lia.
  - specialize (IH (x :: seen)). lia.
Qed.

Lemma nunique_le (l : list value) : (nunique l <= length l)%nat.
Proof.
  unfold nunique, unique.
  etransitivity; [apply unique_acc_length | apply filter_length_le].
Qed.

Lemma count_eq_1_le (l : list value) : (count_eq_1 l <= length l)%nat.
Proof. unfold count_eq_1. apply filter_length_le. Qed.

Lemma column_length (df : DataFrame) (c : string) : length (column df c) = len df.
Proof. unfold column, len. apply length_map. Qed.

(** X8: Statistics are only returned for at least one trip, and none of the
    counts over the trips (directions, services, wheelchair-accessible and
    bikes-allowed trips) exceeds the number of trips. *)
Theorem calculate_route_stats_bounds (self : GTFSProcessor) (rid : string)
    (stats : RouteStats) :
  calculate_route_stats self rid = Ok (Some stats) ->
  route_id stats = rid
  /\ (1 <= total_trips stats)%nat
  /\ (directions stats <= total_trips stats)%nat
  /\ (service_ids stats <= total_trips stats)%nat
  /\ (wheelchair_accessible_trips stats <= total_trips stats)%nat
  /\ (bikes_allowed_trips stats <= total_trips stats)%nat.
Proof.
  unfold calculate_route_stats. intros H0.
  apply bind_Ok_inv in H0 as (trips1 & _ & H0).
  apply bind_Ok_inv in H0 as (trips0 & _ & H0).
  destruct (empty trips0) eqn:Hne; [discriminate |].
  assert (Hlen : (1 <= len trips0)%nat).
  { apply empty_false in Hne as [_ Hrows]. unfold len.
    destruct (rows trips0); [congruence | simpl; lia]. }
  apply bind_Ok_inv in H0 as (route_stops & _ & H0).
  apply bind_Ok_inv in H0 as (shapes0 & _ & H0).
  apply bind_Ok_inv in H0 as (dirs & Hdirs & H0).
  apply bind_Ok_inv in H0 as (services & Hsvc & H0).
  apply bind_Ok_inv in H0 as (shapes1 & _ & H0).
  apply bind_Ok_inv in H0 as (stats1 & Hwc & H0).
  apply bind_Ok_inv in H0 as (stats2 & Hbk & H0).
  injection H0 as <-.
  assert (Hd : (dirs <= len trips0)%nat).
  { destruct (has_column trips0 "direction_id").
    - apply bind_Ok_inv in Hdirs as (col & Hcol & Hdirs). injection Hdirs as <-.
      apply getcol_Ok_inv in Hcol as [_ ->].
      rewrite <- (column_length trips0 "direction_id"). apply nunique_le.
    - injection Hdirs as <-. exact Hlen. }
  assert (Hs : (nunique services <= len trips0)%nat).
  { apply getcol_Ok_inv in Hsvc as [_ ->].
    rewrite <- (column_length trips0 "service_id"). apply nunique_le. }
  assert (H1 : route_id stats1 = rid /\ total_trips stats1 = len trips0
               /\ directions stats1 = dirs /\ service_ids stats1 = nunique services
               /\ (wheelchair_accessible_trips stats1 <= len trips0)%nat
               /\ bikes_allowed_trips stats1 = 0%nat).
  { destruct (has_column trips0 "wheelchair_accessible").
    - apply bind_Ok_inv in Hwc as (col & Hcol & Hwc). injection Hwc as <-.
      apply getcol_Ok_inv in Hcol as [_ ->]. cbn.
      repeat split; try reflexivity.
      rewrite <- (column_length trips0 "wheelchair_accessible"). apply count_eq_1_le.
    - injection Hwc as <-. cbn. repeat split; try reflexivity. lia. }
  destruct H1 as (Hr1 & Ht1 & Hd1 & Hs1 & Hw1 & Hb1).
  destruct (has_column trips0 "bikes_allowed").
  - apply bind_Ok_inv in Hbk as (col & Hcol & Hbk). injection Hbk as <-.
    apply getcol_Ok_inv in Hcol as [_ ->]. cbn.
    rewrite Hr1, Ht1, Hd1, Hs1.
    repeat split; try assumption; try reflexivity.
    rewrite <- (column_length trips0 "bikes_allowed"). apply count_eq_1_le.
  - injection Hbk as <-. rewrite Hr1, Ht1, Hd1, Hs1, Hb1.
    repeat split; try assumption; try reflexivity. lia.
Qed.

Lemma calculate_route_stats_bounds_sample :
  exists stats,
    calculate_route_stats (Samples.processor Samples.feed_full) "" = Ok (Some stats)
    /\ total_trips stats = 2%nat
    /\ (service_ids stats <= total_trips stats)%nat.
Proof.
  eexists. split; [vm_compute; reflexivity |]. split; [reflexivity |].
  refine (proj1 (proj2 (proj2 (proj2
            (calculate_route_stats_bounds (Samples.processor Samples.feed_full) "" _ _))))).
  vm_compute. reflexivity.
Defined.

(** ** Statistics without stop times *)

(** X9: The statistics of a route with trips cannot be computed by a
    processor that holds [None] for stop_times, as one built from a feed
    without stop_times.txt does: the [TypeError] of [get_route_stops] is
    passed on. *)
Theorem calculate_route_stats_without_stop_times (self : GTFSProcessor) (rid : string)
    (trips : DataFrame) :
  get_trips self (Some (VStr rid)) = Ok (Frame trips) ->
  empty trips = false ->
  has_column trips "trip_id" = true ->
  gtfs_data self !! "stop_times" = Some PyNone ->
  calculate_route_stats self rid = Raise TypeError.
Proof.
  intros Ht Hne Hc Hst. unfold calculate_route_stats. rewrite Ht. run.
  cbn [getattr_frame]. run. rewrite Hne.
  rewrite (get_route_stops_without_stop_times self rid trips Ht Hne Hc Hst).
  reflexivity.
Qed.

Lemma calculate_route_stats_without_stop_times_sample :
  load_gtfs_data "feed.zip" ZipFile (Ok Samples.feed_no_stop_times)
    = Ok (Samples.processor Samples.feed_no_stop_times)
  /\ gtfs_data (Samples.processor Samples.feed_no_stop_times) !! "stop_times" = Some PyNone
  /\ calculate_route_stats (Samples.processor Samples.feed_no_stop_times) "R1"
     = Raise TypeError.
Proof.
  split; [reflexivity |]. split; [reflexivity |].
  exact (calculate_route_stats_without_stop_times
           (Samples.processor Samples.feed_no_stop_times) "R1"
           (mkDataFrame (columns Samples.trips) (take 1 (rows Samples.trips)))
           eq_refl eq_refl eq_refl eq_refl).
Defined.

(** ** Validation reports *)

Lemma forallb_false_exists {A : Type} (p : A -> bool) (l : list A) :
  (exists x, In x l /\ p x = false) -> forallb p l = false.
Proof.
  intros (x & Hx & Hp). destruct (forallb p l) eqn:E; [| reflexivity].
  rewrite forallb_forall in E. rewrite (E x Hx) in Hp. discriminate.
Qed.

Lemma existsb_false_forall {A : Type} (p : A -> bool) (l : list A) :
  existsb p l = false -> forall x, In x l -> p x = false.
Proof.
  intros E x Hx. destruct (p x) eqn:Hp; [| reflexivity].
  rewrite <- E. symmetry. apply existsb_exists. exists x. split; assumption.
Qed.

Lemma dangling_spec (used known : list value) (v : value) :
  In v (dangling used known) <-> In v used /\ ~ In v known.
Proof.
  unfold dangling, set_difference, py_set. rewrite filter_In, unique_In.
  rewrite negb_true_iff, isin_unique.
  split; intros [Hu Hk]; (split; [exact Hu |]).
  - intros Hin. apply isin_spec in Hin. congruence.
  - destruct (isin v known) eqn:E; [| reflexivity].
    apply isin_spec in E. contradiction.
Qed.

Lemma dangling_nil (used known : list value) :
  (forall v, In v used -> In v known) -> dangling used known = [].
Proof.
  intros Hincl. destruct (dangling used known) as [| v l] eqn:E; [reflexivity |].
  assert (Hv : In v (dangling used known)) by (rewrite E; left; reflexivity).
  apply dangling_spec in Hv as [Hu Hk]. exfalso. apply Hk, Hincl, Hu.
Qed.


Section validation_reports.
Context `{PythonSets}.

(** The loop over the required files, for a dictionary where none of them
    holds [None] and one of them is no key or holds an empty frame. *)
Lemma validate_invalid (self : GTFSProcessor) :
  (forall name, In name required_files -> holds_none self name = false) ->
  (exists name, In name required_files /\ no_key_or_empty self name = true) ->
  exists vr,
    validate_gtfs_data self = Ok vr
    /\ valid vr = false
    /\ errors vr = map missing_file_error (List.filter (no_key_or_empty self) required_files)
    /\ warnings vr = [].
Proof.
  intros Hall (name & Hin & Habs). unfold validate_gtfs_data. cbv zeta.
  unfold check_required_files.
  destruct (check_required_fold self required_files Hall (mkValidationResults true [] [] ∅))
    as (vr & Hfold & Hv & He & Hw & _).
  cbn [valid errors warnings andb app] in Hv, He, Hw.
  rewrite (forallb_false_exists _ required_files) in Hv
    by (exists name; split; [exact Hin | rewrite Habs; reflexivity]).
  rewrite Hfold. run. rewrite Hv. exists vr. split; [reflexivity |].
  split; [exact Hv |]. split; [exact He | exact Hw].
Qed.

(** Validation returns only where no required name holds [None]. *)
Lemma validate_Ok_no_none (self : GTFSProcessor) (vr : ValidationResults) :
  validate_gtfs_data self = Ok vr ->
  forall name, In name required_files -> holds_none self name = false.
Proof.
  intros Hvr. apply existsb_false_forall.
  destruct (existsb (holds_none self) required_files) eqn:E; [| reflexivity].
  apply existsb_exists in E.
  unfold validate_gtfs_data, check_required_files in Hvr. cbv zeta in Hvr.
  rewrite (check_required_none self required_files E) in Hvr. discriminate.
Qed.

(** X10: When no required name holds [None] and one of them is no key of the
    dictionary or holds an empty frame (a state the constructor does not
    leave: it stores [None] for a file the feed lacks), validation does not
    raise: the feed is reported invalid, the errors are the missing-file
    strings of those names in the order of the required list, and no
    consistency check is run. *)
Theorem validate_incomplete_feed (self : GTFSProcessor) (name : string) :
  (forall n, In n required_files -> holds_none self n = false) ->
  In name required_files ->
  no_key_or_empty self name = true ->
  exists vr,
    validate_gtfs_data self = Ok vr
    /\ valid vr = false
    /\ errors vr = map missing_file_error (List.filter (no_key_or_empty self) required_files)
    /\ In (missing_file_error name) (errors vr)
    /\ warnings vr = [].
Proof.
  intros Hall Hin Habs.
  destruct (validate_invalid self Hall) as (vr & Hvr & Hv & He & Hw).
  { exists name. split; assumption. }
  exists vr. split; [exact Hvr |]. split; [exact Hv |]. split; [exact He |].
  split; [| exact Hw].
  rewrite He. apply in_map. apply filter_In. split; assumption.
Qed.

(** X11: When validation returns, the row counts are recorded for exactly
    the required names that hold a frame with rows. *)
Theorem validate_file_counts (self : GTFSProcessor) (vr : ValidationResults) :
  validate_gtfs_data self = Ok vr ->
  forall name,
    file_counts vr !! name
    = if bool_decide (name ∈ required_files) && negb (no_key_or_empty self name)
      then Some (rows_held self name)
      else None.
Proof.
  intros Hvr name. pose proof (validate_Ok_no_none self vr Hvr) as Hall.
  unfold validate_gtfs_data, check_required_files in Hvr. cbv zeta in Hvr.
  destruct (check_required_fold self required_files Hall (mkValidationResults true [] [] ∅))
    as (vr0 & Hfold & _ & _ & _ & Hf).
  cbn [file_counts] in Hf. rewrite Hfold in Hvr. rewrite bind_Ok in Hvr.
  assert (Hsame : file_counts vr = file_counts vr0).
  { destruct (valid vr0); [| injection Hvr as <-; reflexivity].
    unfold _validate_data_consistency in Hvr.
    apply bind_Ok_inv in Hvr as (trips0 & _ & Hvr).
    apply bind_Ok_inv in Hvr as (vr1 & H1 & Hvr).
    apply bind_Ok_inv in Hvr as (st0 & _ & Hvr).
    apply bind_Ok_inv in Hvr as (vr2 & H2 & Hvr).
    apply check_references_keeps in H1 as [_ H1], H2 as [_ H2], Hvr as [_ Hvr].
    congruence. }
  rewrite Hsame, Hf, lookup_empty. reflexivity.
Qed.


Section complete_feed.
Context (self : GTFSProcessor) (T R ST S : DataFrame).
Hypothesis Hall : forall name, In name required_files -> absent_or_empty self name = false.
Hypothesis HT : table self "trips" = Frame T.
Hypothesis HR : table self "routes" = Frame R.
Hypothesis HST : table self "stop_times" = Frame ST.
Hypothesis HS : table self "stops" = Frame S.
Hypothesis HTr : has_column T "route_id" = true.
Hypothesis HRr : has_column R "route_id" = true.
Hypothesis HSTs : has_column ST "stop_id" = true.
Hypothesis HSs : has_column S "stop_id" = true.
Hypothesis HSTt : has_column ST "trip_id" = true.
Hypothesis HTt : has_column T "trip_id" = true.

(** X13: A complete feed in which every referenced route, stop and trip exists
    validates without any error. *)
Theorem validate_consistent_feed :
  (forall v, In v (column T "route_id") -> In v (column R "route_id")) ->
  (forall v, In v (column ST "stop_id") -> In v (column S "stop_id")) ->
  (forall v, In v (column ST "trip_id") -> In v (column T "trip_id")) ->
  exists vr,
    validate_gtfs_data self = Ok vr
    /\ valid vr = true /\ errors vr = [] /\ warnings vr = [].
Proof.
  intros Hroutes Hstops Htrips.
  destruct (complete_feed_errors self T R ST S Hall HT HR HST HS
              HTr HRr HSTs HSs HSTt HTt) as (vr & Hvr & Hv & Hw & He & _).
  exists vr. split; [exact Hvr |]. split; [exact Hv |]. split; [| exact Hw].
  rewrite He.
  rewrite (list_difference_nil _ _ (dangling_nil _ _ Hroutes)),
    (list_difference_nil _ _ (dangling_nil _ _ Hstops)),
    (list_difference_nil _ _ (dangling_nil _ _ Htrips)).
  reflexivity.
Qed.


End complete_feed.

(** X15: Validation of a processor built from a feed raises [AttributeError]
    when the feed lacks one of the six required files, or has it without
    a row: the loop reads [.empty] of the [None] stored for it.  When it
    returns, every required file has rows and the feed is reported valid:
    no processor built from a feed is reported invalid. *)
Theorem loaded_feed_missing_table (path : string) (kind : path_kind)
    (fd : Feed) (self : GTFSProcessor) :
  load_gtfs_data path kind (Ok fd) = Ok self ->
  ((exists name, In name required_files /\ has_rows fd name = false) ->
   validate_gtfs_data self = Raise (AttributeError "empty"))
  /\ (forall vr,
        validate_gtfs_data self = Ok vr ->
        valid vr = true
        /\ forall name, In name required_files -> has_rows fd name = true).
Proof.
  intros Hload.
  assert (Hreq : forall name, In name required_files -> In name feed_attributes).
  { intros name Hin. unfold feed_attributes. apply in_or_app. left. exact Hin. }
  assert (Hraise : (exists name, In name required_files /\ has_rows fd name = false) ->
                   validate_gtfs_data self = Raise (AttributeError "empty")).
  { intros (name & Hin & Hrows).
    unfold validate_gtfs_data, check_required_files. cbv zeta.
    rewrite (check_required_none self required_files); [reflexivity |].
    exists name. split; [exact Hin |]. unfold holds_none.
    rewrite (loaded_lookup _ _ _ _ name Hload (Hreq name Hin)).
    apply getattr_none in Hrows. rewrite Hrows. reflexivity. }
  split; [exact Hraise |].
  intros vr Hvr.
  assert (Hrows : forall name, In name required_files -> has_rows fd name = true).
  { intros name Hin. destruct (has_rows fd name) eqn:E; [reflexivity |].
    rewrite Hraise in Hvr by (exists name; split; assumption). discriminate. }
  split; [| exact Hrows].
  assert (Hpresent : forall name, In name required_files ->
                                  holds_none self name = false
                                  /\ no_key_or_empty self name = false).
  { intros name Hin. apply present_not_none. unfold absent_or_empty.
    rewrite (loaded_lookup _ _ _ _ name Hload (Hreq name Hin)).
    specialize (Hrows name Hin). unfold has_rows in Hrows. unfold getattr.
    destruct (fd !! name) as [df |]; [| discriminate].
    destruct (empty df) eqn:Hdf; [discriminate |]. exact Hdf. }
  unfold validate_gtfs_data, check_required_files in Hvr. cbv zeta in Hvr.
  destruct (check_required_fold self required_files
              (fun name Hin => proj1 (Hpresent name Hin))
              (mkValidationResults true [] [] ∅))
    as (vr0 & Hfold & Hv & _).
  rewrite Hfold in Hvr. rewrite bind_Ok in Hvr.
  assert (Hok : forallb (fun n => negb (no_key_or_empty self n)) required_files = true).
  { apply forallb_forall. intros n Hn. rewrite (proj2 (Hpresent n Hn)). reflexivity. }
  cbn [valid andb] in Hv. rewrite Hok in Hv. rewrite Hv in Hvr.
  rewrite (consistency_keeps_valid self vr0 vr Hvr). exact Hv.
Qed.

End validation_reports.

Lemma validate_incomplete_feed_sample :
  (forall n, In n required_files ->
     holds_none (Samples.without_key (Samples.processor Samples.feed_full) "stop_times") n
     = false)
  /\ In "stop_times" required_files
  /\ no_key_or_empty (Samples.without_key (Samples.processor Samples.feed_full) "stop_times")
       "stop_times" = true
  /\ exists vr,
       @validate_gtfs_data Installation.insertion_order
         (Samples.without_key (Samples.processor Samples.feed_full) "stop_times") = Ok vr
       /\ valid vr = false
       /\ errors vr = ["Missing required file: stop_times.txt"].
Proof.
  assert (Hall : forall n, In n required_files ->
            holds_none (Samples.without_key (Samples.processor Samples.feed_full) "stop_times")
              n = false) by each_required.
  assert (Hin : In "stop_times" required_files) by (simpl; tauto).
  split; [exact Hall |]. split; [exact Hin |]. split; [reflexivity |].
  destruct (@validate_incomplete_feed Installation.insertion_order
              (Samples.without_key (Samples.processor Samples.feed_full) "stop_times")
              "stop_times" Hall Hin eq_refl) as (vr & Hvr & Hv & He & _).
  exists vr. split; [exact Hvr |]. split; [exact Hv |]. rewrite He. reflexivity.
Defined.

Lemma validate_file_counts_sample :
  exists vr,
    @validate_gtfs_data Installation.insertion_order
      (Samples.processor Samples.feed_full) = Ok vr
    /\ file_counts vr !! "trips" = Some 2%nat
    /\ file_counts vr !! "stop_times" = Some 3%nat
    /\ file_counts vr !! "shapes" = None.
Proof.
  eexists. split; [vm_compute; reflexivity |].
  split; [| split].
  - exact (@validate_file_counts Installation.insertion_order
             (Samples.processor Samples.feed_full) _
             ltac:(vm_compute; reflexivity) "trips").
  - exact (@validate_file_counts Installation.insertion_order
             (Samples.processor Samples.feed_full) _
             ltac:(vm_compute; reflexivity) "stop_times").
  - exact (@validate_file_counts Installation.insertion_order
             (Samples.processor Samples.feed_full) _
             ltac:(vm_compute; reflexivity) "shapes").
Defined.


Lemma validate_consistent_feed_sample :
  (forall name, In name required_files ->
     absent_or_empty (Samples.processor Samples.feed_full) name = false)
  /\ exists vr,
       @validate_gtfs_data Installation.insertion_order
         (Samples.processor Samples.feed_full) = Ok vr
       /\ valid vr = true /\ errors vr = [] /\ warnings vr = [].
Proof.
  assert (Hall : forall name, In name required_files ->
            absent_or_empty (Samples.processor Samples.feed_full) name = false)
    by each_required.
  split; [exact Hall |].
  apply (@validate_consistent_feed Installation.insertion_order
           (Samples.processor Samples.feed_full)
           Samples.trips Samples.routes Samples.stop_times Samples.stops
           Hall eq_refl eq_refl eq_refl eq_refl
           eq_refl eq_refl eq_refl eq_refl eq_refl eq_refl);
    intros v Hv; simpl in Hv |- *; tauto.
Defined.


Lemma loaded_feed_missing_table_sample :
  load_gtfs_data "feed.zip" ZipFile (Ok Samples.feed_no_stop_times)
    = Ok (Samples.processor Samples.feed_no_stop_times)
  /\ In "stop_times" required_files
  /\ has_rows Samples.feed_no_stop_times "stop_times" = false
  /\ @validate_gtfs_data Installation.insertion_order
       (Samples.processor Samples.feed_no_stop_times) = Raise (AttributeError "empty").
Proof.
  assert (Hin : In "stop_times" required_files) by (simpl; tauto).
  split; [reflexivity |]. split; [exact Hin |]. split; [reflexivity |].
  apply (proj1 (@loaded_feed_missing_table Installation.insertion_order
                  "feed.zip" ZipFile Samples.feed_no_stop_times
                  (Samples.processor Samples.feed_no_stop_times) eq_refl)).
  exists "stop_times". split; [exact Hin | reflexivity].
Defined.
(** ** Edge cases of the service dates *)

Lemma weekday_range (d : date) : 0 <= weekday d < 7.
Proof. unfold weekday. apply Z.mod_pos_bound. lia. Qed.

(** The date loop when every weekday is active. *)
Lemma generate_dates_every_day (active : list Z) (e : Z) (n : nat) :
  (forall w, 0 <= w < 7 -> In w active) ->
  e < date_max_ordinal ->
  forall (s : Z) (dates : list date),
    n = Z.to_nat (e - s + 1) ->
    generate_dates (S n) active (Some (mkDate e)) (Some (mkDate s)) dates
    = Some (Ok (dates ++ map (fun i => mkDate (s + Z.of_nat i)) (seq 0 n))%list).
Proof.
  intros Hall Hmax. induction n as [| n IH]; intros s dates Hn.
  - rewrite generate_dates_step. cbn [seq map].
    assert (Hlt : e < s) by lia. apply Z.leb_gt in Hlt.
    rewrite Hlt, app_nil_r. reflexivity.
  - assert (Hle : s <= e) by lia.
    rewrite generate_dates_step.
    replace (Z.leb s e) with true by (symmetry; apply Z.leb_le; exact Hle).
    replace (Z.ltb s date_max_ordinal) with true by (symmetry; apply Z.ltb_lt; lia).
    rewrite bool_decide_eq_true_2
      by (apply list_elem_of_In, Hall, weekday_range).
    rewrite IH by lia.
    rewrite <- app_assoc. do 3 f_equal. cbn [seq map app].
    rewrite Z.add_0_r. f_equal.
    rewrite <- seq_shift, map_map. apply map_ext. intros i. f_equal. lia.
Qed.

(** A range that ends on the last date there is, or after it, cannot be
    walked to its end. *)
Lemma generate_dates_past_max (active : list Z) (e : Z) (n : nat) :
  date_max_ordinal <= e ->
  forall (s : Z) (dates : list date),
    s <= e ->
    n = Z.to_nat (e - s + 1) ->
    generate_dates (S n) active (Some (mkDate e)) (Some (mkDate s)) dates
    = Some (Raise OverflowError).
Proof.
  intros Hmax. induction n as [| n IH]; intros s dates Hs Hn; [lia |].
  rewrite generate_dates_step.
  replace (Z.leb s e) with true by (symmetry; apply Z.leb_le; exact Hs).
  destruct (Z.ltb s date_max_ordinal) eqn:Hlt; [| reflexivity].
  apply Z.ltb_lt in Hlt. apply IH; lia.
Qed.

Section service_dates_edge_cases.
Context `{Pandas}.

(** X16: A service whose end_date lies before its start_date has no dates:
    the range is not swapped. *)
Theorem get_service_dates_reversed_range (self : GTFSProcessor) (sid : string)
    (cal : DataFrame) (pre post : list row) (r : row) (start_date end_date : date) :
  sid <> "" ->
  table self "calendar" = Frame cal ->
  rows cal = (pre ++ r :: post)%list ->
  (forall r', In r' pre -> py_eq (cell (columns cal) r' "service_id") (VStr sid) = false) ->
  py_eq (cell (columns cal) r "service_id") (VStr sid) = true ->
  to_datetime (cell (columns cal) r "start_date") = Ok (Some start_date) ->
  to_datetime (cell (columns cal) r "end_date") = Ok (Some end_date) ->
  toordinal end_date < toordinal start_date ->
  get_service_dates self sid = Some (Ok []).
Proof.
  intros Hsid Htab Hrows Hpre Hr Hs He Hlt.
  rewrite (get_service_dates_first_row self sid cal pre post r Hsid Htab Hrows Hpre Hr).
  assert (Hcs : has_column cal "start_date" = true).
  { destruct (has_column cal "start_date") eqn:E; [reflexivity |].
    exfalso. rewrite (cell_lacks _ _ _ E) in Hs. discriminate. }
  assert (Hce : has_column cal "end_date" = true).
  { destruct (has_column cal "end_date") eqn:E; [reflexivity |].
    exfalso. rewrite (cell_lacks _ _ _ E) in He. discriminate. }
  rewrite (series_item_has _ _ _ Hcs). run. rewrite Hs. run.
  rewrite (series_item_has _ _ _ Hce). run. rewrite He. run.
  destruct start_date as [s], end_date as [e]. cbn [toordinal] in Hlt.
  unfold rounds. rewrite generate_dates_step.
  apply Z.leb_gt in Hlt. rewrite Hlt. reflexivity.
Qed.

(** X17: A service that runs on all seven days has every date from start_date
    to end_date, in order: as many dates as the range has days.  That is
    for a range that ends before the last date there is, 9999-12-31; a
    range that reaches that date ends in [OverflowError], at the step past
    it. *)
Theorem get_service_dates_daily (self : GTFSProcessor) (sid : string)
    (cal : DataFrame) (pre post : list row) (r : row) (start_date end_date : date) :
  sid <> "" ->
  table self "calendar" = Frame cal ->
  rows cal = (pre ++ r :: post)%list ->
  (forall r', In r' pre -> py_eq (cell (columns cal) r' "service_id") (VStr sid) = false) ->
  py_eq (cell (columns cal) r "service_id") (VStr sid) = true ->
  to_datetime (cell (columns cal) r "start_date") = Ok (Some start_date) ->
  to_datetime (cell (columns cal) r "end_date") = Ok (Some end_date) ->
  (forall day w, In (day, w) days_map -> cell (columns cal) r day = VInt 1) ->
  toordinal start_date <= toordinal end_date ->
  (toordinal end_date < date_max_ordinal ->
   exists dates,
     get_service_dates self sid = Some (Ok dates)
     /\ dates = map (fun i => mkDate (toordinal start_date + Z.of_nat i))
                  (seq 0 (length dates))
     /\ Z.of_nat (length dates) = toordinal end_date - toordinal start_date + 1)
  /\ (date_max_ordinal <= toordinal end_date ->
      get_service_dates self sid = Some (Raise OverflowError)).
Proof.
  intros Hsid Htab Hrows Hpre Hr Hs He Hflags Hle.
  rewrite (get_service_dates_first_row self sid cal pre post r Hsid Htab Hrows Hpre Hr).
  assert (Hcs : has_column cal "start_date" = true).
  { destruct (has_column cal "start_date") eqn:E; [reflexivity |].
    exfalso. rewrite (cell_lacks _ _ _ E) in Hs. discriminate. }
  assert (Hce : has_column cal "end_date" = true).
  { destruct (has_column cal "end_date") eqn:E; [reflexivity |].
    exfalso. rewrite (cell_lacks _ _ _ E) in He. discriminate. }
  rewrite (series_item_has _ _ _ Hcs). run. rewrite Hs. run.
  rewrite (series_item_has _ _ _ Hce). run. rewrite He. run.
  destruct start_date as [s], end_date as [e]. cbn [toordinal] in *.
  unfold rounds. cbn [toordinal]. split.
  - intros Hmax.
    rewrite (generate_dates_every_day (active_days cal r) e (Z.to_nat (e - s + 1))).
    + cbn [app]. eexists. split; [reflexivity |].
      rewrite length_map, length_seq. split; [reflexivity | lia].
    + intros w Hw. apply active_days_spec.
      assert (Hday : exists day, In (day, w) days_map).
      { assert (Hcases : w = 0 \/ w = 1 \/ w = 2 \/ w = 3 \/ w = 4 \/ w = 5 \/ w = 6) by lia.
        unfold days_map.
        repeat (destruct Hcases as [-> | Hcases]); try subst w;
          eexists; simpl; eauto 10. }
      destruct Hday as (day & Hday). exists day. split; [exact Hday |].
      apply (Hflags day w Hday).
    + exact Hmax.
    + reflexivity.
  - intros Hmax.
    apply (generate_dates_past_max (active_days cal r) e (Z.to_nat (e - s + 1)) Hmax);
      [exact Hle | reflexivity].
Qed.

End service_dates_edge_cases.

Lemma get_service_dates_reversed_range_sample :
  "S1" <> ""
  /\ toordinal (date_of_ymd 2024 1 1) < toordinal (date_of_ymd 2024 1 14)
  /\ @get_service_dates Installation.pandas_2
       (Samples.processor MoreSamples.feed_reversed_range) "S1"
     = Some (Ok []).
Proof.
  split; [discriminate |]. split; [reflexivity |].
  apply (@get_service_dates_reversed_range Installation.pandas_2
           (Samples.processor MoreSamples.feed_reversed_range) "S1"
           MoreSamples.calendar_reversed [] [] (hd [] (rows MoreSamples.calendar_reversed))
           (date_of_ymd 2024 1 14) (date_of_ymd 2024 1 1)).
  - discriminate.
  - reflexivity.
  - reflexivity.
  - intros r' [].
  - reflexivity.
  - reflexivity.
  - reflexivity.
  - reflexivity.
Defined.

Lemma get_service_dates_daily_sample :
  "S1" <> ""
  /\ toordinal (date_of_ymd 2024 1 1) <= toordinal (date_of_ymd 2024 1 7)
  /\ toordinal (date_of_ymd 2024 1 7) < date_max_ordinal
  /\ exists dates,
       @get_service_dates Installation.pandas_2
         (Samples.processor MoreSamples.feed_daily) "S1" = Some (Ok dates)
       /\ dates = map (fun i => mkDate (toordinal (date_of_ymd 2024 1 1) + Z.of_nat i))
                    (seq 0 (length dates))
       /\ Z.of_nat (length dates)
          = toordinal (date_of_ymd 2024 1 7) - toordinal (date_of_ymd 2024 1 1) + 1.
Proof.
  split; [discriminate |]. split; [vm_compute; discriminate |].
  split; [reflexivity |].
  apply (proj1 (@get_service_dates_daily Installation.pandas_2
           (Samples.processor MoreSamples.feed_daily) "S1"
           MoreSamples.calendar_daily [] [] (hd [] (rows MoreSamples.calendar_daily))
           (date_of_ymd 2024 1 1) (date_of_ymd 2024 1 7)
           ltac:(discriminate) eq_refl eq_refl ltac:(intros r' []) eq_refl eq_refl eq_refl
           ltac:(intros day w Hday; simpl in Hday;
                 repeat (destruct Hday as [[= <- <-] | Hday]; [reflexivity |]);
                 destruct Hday)
           ltac:(vm_compute; discriminate))).
  reflexivity.
Defined.

(** A calendar that runs to 9999-12-31, read by a release of pandas that
    holds such dates: the loop ends in [OverflowError]. *)
Lemma get_service_dates_last_day :
  @get_service_dates Installation.pandas_3
    (mkGTFSProcessor "feed.zip"
       (<["calendar" :=
            Frame (mkDataFrame (columns Samples.calendar)
                     [[VStr "S1"; VInt 1; VInt 1; VInt 1; VInt 1; VInt 1; VInt 1; VInt 1;
                       VStr "99991230"; VStr "99991231"]])]> ∅)
       None) "S1"
  = Some (Raise OverflowError).
Proof. vm_compute. reflexivity. Qed.
(** ** Summary *)

Lemma has_key {A : Type} (x : A) : bool_decide (is_Some (Some x)) = true.
Proof. apply bool_decide_eq_true_2. exists x. reflexivity. Qed.

Lemma getattr_has_rows (fd : Feed) (name : string) (t : DataFrame) :
  getattr fd name = Frame t ->
  has_rows fd name = true /\ fd !! name = Some t /\ empty t = false.
Proof.
  intros Hg. apply getattr_frame_inv in Hg as [Hfd He].
  unfold has_rows. rewrite Hfd, He. repeat split; reflexivity.
Qed.

Lemma iloc0_not_empty (df : DataFrame) :
  empty df = false -> exists r, iloc0 df = Ok r.
Proof.
  intros He. apply empty_false in He as [_ Hr]. unfold iloc0.
  destruct (rows df) as [| r rs]; [congruence | eauto].
Qed.

(** The length of a table held by a processor built from a feed. *)
Lemma loaded_table_len (path : string) (kind : path_kind) (fd : Feed)
    (self : GTFSProcessor) (name : string) :
  load_gtfs_data path kind (Ok fd) = Ok self ->
  In name feed_attributes ->
  table_len self name
  = match getattr fd name with
    | Frame t => Ok (len t)
    | PyNone => Raise TypeError
    end.
Proof.
  intros Hload Hin. unfold table_len.
  rewrite (loaded_lookup path kind fd self name Hload Hin).
  destruct (getattr fd name); reflexivity.
Qed.

(** The three ways [get_gtfs_summary] ends for a processor built from a
    feed. *)
Lemma summary_loaded_cases (path : string) (kind : path_kind) (fd : Feed)
    (self : GTFSProcessor) :
  load_gtfs_data path kind (Ok fd) = Ok self ->
  (get_gtfs_summary self = Raise TypeError
   /\ exists name, In name counted_tables /\ has_rows fd name = false)
  \/ ((forall name, In name counted_tables -> has_rows fd name = true)
      /\ ((get_gtfs_summary self = Raise (AttributeError "empty")
           /\ has_rows fd "feed_info" = false)
          \/ (has_rows fd "feed_info" = true
              /\ exists s,
                   get_gtfs_summary self = Ok s
                   /\ (forall name count,
                         In (name, count)
                           [("agency", agencies s); ("routes", routes s);
                            ("stops", stops s); ("trips", trips s);
                            ("stop_times", stop_times s); ("shapes", shapes s);
                            ("calendar", calendar_services s)] ->
                         exists t, fd !! name = Some t /\ empty t = false /\ count = len t)
                   /\ has_frequencies s = true
                   /\ has_transfers s = true
                   /\ has_feed_info s = true))).
Proof.
  intros Hload.
  pose proof (loaded_lookup path kind fd self) as Hk.
  pose proof (loaded_table_len path kind fd self) as Hlen.
  unfold get_gtfs_summary, get_routes, table, has_table.
  rewrite (Hlen "agency" Hload), (Hlen "routes" Hload), (Hlen "stops" Hload),
    (Hlen "trips" Hload), (Hlen "stop_times" Hload), (Hlen "shapes" Hload),
    (Hlen "calendar" Hload) by (simpl; tauto).
  rewrite (Hk "frequencies" Hload), (Hk "transfers" Hload), (Hk "feed_info" Hload),
    (Hk "routes" Hload) by (simpl; tauto).
  rewrite !has_key. cbn [default].
  destruct (getattr fd "agency") as [| t_agency] eqn:Eagency;
    [left; split; [reflexivity |]; exists "agency"; split;
     [simpl; tauto | apply getattr_none; exact Eagency] |].
  destruct (getattr fd "routes") as [| t_routes] eqn:Eroutes;
    [left; split; [reflexivity |]; exists "routes"; split;
     [simpl; tauto | apply getattr_none; exact Eroutes] |].
  destruct (getattr fd "stops") as [| t_stops] eqn:Estops;
    [left; split; [reflexivity |]; exists "stops"; split;
     [simpl; tauto | apply getattr_none; exact Estops] |].
  destruct (getattr fd "trips") as [| t_trips] eqn:Etrips;
    [left; split; [reflexivity |]; exists "trips"; split;
     [simpl; tauto | apply getattr_none; exact Etrips] |].
  destruct (getattr fd "stop_times") as [| t_stop_times] eqn:Estop_times;
    [left; split; [reflexivity |]; exists "stop_times"; split;
     [simpl; tauto | apply getattr_none; exact Estop_times] |].
  destruct (getattr fd "shapes") as [| t_shapes] eqn:Eshapes;
    [left; split; [reflexivity |]; exists "shapes"; split;
     [simpl; tauto | apply getattr_none; exact Eshapes] |].
  destruct (getattr fd "calendar") as [| t_calendar] eqn:Ecalendar;
    [left; split; [reflexivity |]; exists "calendar"; split;
     [simpl; tauto | apply getattr_none; exact Ecalendar] |].
  right. run. cbn [getattr_frame]. run.
  split.
  { intros name Hin. simpl in Hin.
    repeat (destruct Hin as [<- | Hin];
            [eapply getattr_has_rows; eassumption |]).
    destruct Hin. }
  destruct (getattr fd "feed_info") as [| t_info] eqn:Einfo.
  - left. split; [reflexivity | apply getattr_none; exact Einfo].
  - right. pose proof (getattr_has_rows _ _ _ Einfo) as (Hrows & _ & Hne).
    split; [exact Hrows |].
    cbn [getattr_frame]. run. rewrite Hne. cbn [negb].
    destruct (iloc0_not_empty t_info Hne) as (r & Hr). rewrite Hr. run.
    eexists. split; [reflexivity |].
    cbn [agencies routes stops trips stop_times shapes calendar_services
         has_frequencies has_transfers has_feed_info].
    split; [| repeat split; reflexivity].
    intros name count Hin. simpl in Hin.
    repeat (destruct Hin as [[= <- <-] | Hin];
            [eexists; split; [| split; [| reflexivity]];
             eapply getattr_has_rows; eassumption |]).
    destruct Hin.
Qed.

(** X18: The summary of a processor built from a feed is computed only when
    the feed has agency, routes, stops, trips, stop_times, shapes,
    calendar and feed_info, each with rows.  When one of the seven counted
    files is missing the call raises [TypeError] (the length of [None]);
    when they are there and feed_info is missing it raises
    [AttributeError].  When it returns, the counts are the numbers of rows
    of the files, and the three presence flags are true, whether or not the
    feed has frequencies or transfers. *)
Theorem summary_of_loaded_feed (path : string) (kind : path_kind)
    (fd : Feed) (self : GTFSProcessor) :
  load_gtfs_data path kind (Ok fd) = Ok self ->
  ((exists name, In name counted_tables /\ has_rows fd name = false) ->
   get_gtfs_summary self = Raise TypeError)
  /\ ((forall name, In name counted_tables -> has_rows fd name = true) ->
      has_rows fd "feed_info" = false ->
      get_gtfs_summary self = Raise (AttributeError "empty"))
  /\ (forall s,
        get_gtfs_summary self = Ok s ->
        (forall name count,
           In (name, count)
             [("agency", agencies s); ("routes", routes s); ("stops", stops s);
              ("trips", trips s); ("stop_times", stop_times s); ("shapes", shapes s);
              ("calendar", calendar_services s)] ->
           exists t, fd !! name = Some t /\ empty t = false /\ count = len t)
        /\ has_frequencies s = true
        /\ has_transfers s = true
        /\ has_feed_info s = true
        /\ has_rows fd "feed_info" = true).
Proof.
  intros Hload.
  destruct (summary_loaded_cases path kind fd self Hload)
    as [[Hraise (n & Hn & Hrows)]
       | [Hall [[Hraise Hinfo] | [Hinfo (s' & Hs' & Hcounts & Hf & Ht & Hi)]]]].
  - split; [intros _; exact Hraise |]. split.
    + intros Hall _. rewrite (Hall n Hn) in Hrows. discriminate.
    + intros s Hs. rewrite Hraise in Hs. discriminate.
  - split; [| split].
    + intros (n & Hn & Hrows). rewrite (Hall n Hn) in Hrows. discriminate.
    + intros _ _. exact Hraise.
    + intros s Hs. rewrite Hraise in Hs. discriminate.
  - split; [| split].
    + intros (n & Hn & Hrows). rewrite (Hall n Hn) in Hrows. discriminate.
    + intros _ Hno. rewrite Hinfo in Hno. discriminate.
    + intros s Hs. rewrite Hs' in Hs. injection Hs as <-.
      split; [exact Hcounts |]. repeat split; assumption.
Qed.

Lemma summary_of_loaded_feed_sample :
  load_gtfs_data "feed.zip" ZipFile (Ok MoreSamples.feed_extended)
    = Ok (Samples.processor MoreSamples.feed_extended)
  /\ MoreSamples.feed_extended !! "frequencies" = None
  /\ (exists s,
        get_gtfs_summary (Samples.processor MoreSamples.feed_extended) = Ok s
        /\ stop_times s = 3%nat
        /\ has_frequencies s = true
        /\ has_transfers s = true)
  /\ load_gtfs_data "feed.zip" ZipFile (Ok Samples.feed_no_shapes)
     = Ok (Samples.processor Samples.feed_no_shapes)
  /\ get_gtfs_summary (Samples.processor Samples.feed_no_shapes) = Raise TypeError
  /\ load_gtfs_data "feed.zip" ZipFile (Ok Samples.feed_full)
     = Ok (Samples.processor Samples.feed_full)
  /\ get_gtfs_summary (Samples.processor Samples.feed_full)
     = Raise (AttributeError "empty").
Proof.
  split; [reflexivity |]. split; [reflexivity |].
  split.
  { pose proof (summary_of_loaded_feed "feed.zip" ZipFile MoreSamples.feed_extended
                  (Samples.processor MoreSamples.feed_extended) eq_refl)
      as (_ & _ & Hs).
    eexists. split; [vm_compute; reflexivity |].
    split; [reflexivity |].
    split; eapply Hs; vm_compute; reflexivity. }
  split; [reflexivity |]. split.
  { apply (proj1 (summary_of_loaded_feed "feed.zip" ZipFile Samples.feed_no_shapes
                    (Samples.processor Samples.feed_no_shapes) eq_refl)).
    exists "shapes". split; [simpl; tauto | reflexivity]. }
  split; [reflexivity |].
  apply (proj1 (proj2 (summary_of_loaded_feed "feed.zip" ZipFile Samples.feed_full
                         (Samples.processor Samples.feed_full) eq_refl))).
  - intros name Hin. simpl in Hin.
    repeat (destruct Hin as [<- | Hin]; [reflexivity |]). destruct Hin.
  - reflexivity.
Defined.

Lemma table_len_Ok_inv (self : GTFSProcessor) (name : string) (n : nat) :
  table_len self name = Ok n -> holds_none self name = false.
Proof.
  unfold table_len, holds_none.
  destruct (gtfs_data self !! name) as [[| df] |]; [discriminate | reflexivity | reflexivity].
Qed.

(** X19: When the summary is returned, the routes table is a frame, and the
    route types are the distinct values of its route_type column, each
    once; the list is empty when the routes table is empty or has no such
    column. *)
Theorem summary_route_types (self : GTFSProcessor) (s : Summary) :
  get_gtfs_summary self = Ok s ->
  exists R,
    get_routes self = Frame R
    /\ List.NoDup (route_types s)
    /\ (has_column R "route_type" = true ->
        forall v, In v (route_types s) <-> In v (column R "route_type"))
    /\ (has_column R "route_type" = false -> route_types s = [])
    /\ (empty R = true -> route_types s = []).
Proof.
  unfold get_gtfs_summary. intros Hs.
  apply bind_Ok_inv in Hs as (n1 & _ & Hs).
  apply bind_Ok_inv in Hs as (n2 & _ & Hs).
  apply bind_Ok_inv in Hs as (n3 & _ & Hs).
  apply bind_Ok_inv in Hs as (n4 & _ & Hs).
  apply bind_Ok_inv in Hs as (n5 & _ & Hs).
  apply bind_Ok_inv in Hs as (n6 & _ & Hs).
  apply bind_Ok_inv in Hs as (n7 & _ & Hs).
  cbv zeta in Hs.
  apply bind_Ok_inv in Hs as (R & HR & Hs).
  apply bind_Ok_inv in Hs as (info & _ & Hs).
  injection Hs as <-. cbn [route_types].
  exists R. split.
  { destruct (get_routes self) as [| R']; [discriminate |].
    injection HR as ->. reflexivity. }
  split; [| split; [| split]].
  - destruct (negb _ && _); [apply unique_acc_NoDup | constructor].
  - intros Hc v. rewrite Hc, andb_true_r.
    destruct (empty R) eqn:He; cbn [negb].
    + split; [intros [] |]. unfold column. intros Hin.
      apply in_map_iff in Hin as (r & _ & Hr).
      unfold empty in He. apply has_column_true in Hc.
      destruct (columns R); [destruct Hc |].
      destruct (rows R); [destruct Hr | discriminate].
    + apply unique_In.
  - intros ->. rewrite andb_false_r. reflexivity.
  - intros ->. reflexivity.
Qed.

Lemma summary_route_types_sample :
  exists s,
    get_gtfs_summary (Samples.processor MoreSamples.feed_extended) = Ok s
    /\ get_routes (Samples.processor MoreSamples.feed_extended) = Frame Samples.routes
    /\ route_types s = [VInt 3]
    /\ List.NoDup (route_types s).
Proof.
  eexists. split; [vm_compute; reflexivity |].
  split; [reflexivity |]. split; [reflexivity |].
  destruct (summary_route_types (Samples.processor MoreSamples.feed_extended) _
              ltac:(vm_compute; reflexivity)) as (R & _ & Hnd & _).
  exact Hnd.
Defined.
(** ** Output of the demand scripts *)

Lemma col_index_app_old (c : string) (cols more : list string) :
  In c cols -> col_index c (cols ++ more) = col_index c cols.
Proof.
  induction cols as [| c' cols IH]; simpl; [tauto |].
  intros Hin. case_bool_decide as Hc; [reflexivity |].
  destruct Hin as [Heq | Hin]; [congruence |]. rewrite (IH Hin). reflexivity.
Qed.

Lemma nth_error_lt {A : Type} (l : list A) (i : nat) (a : A) :
  nth_error l i = Some a -> (i < length l)%nat.
Proof. intros H. apply nth_error_Some. congruence. Qed.

(** Assigning column [c] leaves the cells under the other labels as they
    were. *)
Lemma set_column_other (df df' : DataFrame) (c c' : string) (values : list value) :
  set_column df c values = Ok df' ->
  c' <> c ->
  has_column df c' = true ->
  has_column df' c' = true
  /\ forall r', In r' (rows df') ->
       exists r, In r (rows df) /\ cell (columns df') r' c' = cell (columns df) r c'.
Proof.
  unfold set_column. intros Hset Hne Hc'.
  destruct (negb (bool_decide (length values = length (rows df)))); [discriminate |].
  pose proof Hc' as Hin. apply has_column_true in Hin.
  destruct (col_index_Some c' (columns df) Hin) as (i & Hi & Hnth).
  destruct (has_column df c) eqn:Hc; injection Hset as <-; cbn [rows columns].
  - split; [exact Hc' |]. intros r' Hr'.
    apply in_zip_with in Hr' as (r & v & Hr & _ & ->). exists r. split; [exact Hr |].
    unfold cell at 1. rewrite Hi, (nth_map_nth_error _ _ _ _ _ Hnth).
    rewrite bool_decide_eq_false_2 by exact Hne. reflexivity.
  - split.
    + apply has_column_true. cbn [columns]. apply in_or_app. left. exact Hin.
    + intros r' Hr'.
      apply in_zip_with in Hr' as (r & v & Hr & _ & ->). exists r. split; [exact Hr |].
      unfold cell at 1. rewrite (col_index_app_old c' _ _ Hin), Hi.
      rewrite app_nth1 by (rewrite cells_length; apply (nth_error_lt _ _ _ Hnth)).
      unfold cells. apply (nth_map_nth_error _ _ _ _ _ Hnth).
Qed.

Lemma project_cell (df out : DataFrame) (cs : list string) (c : string) :
  project df cs = Ok out ->
  In c cs ->
  columns out = cs
  /\ forall r', In r' (rows out) ->
       exists r, In r (rows df) /\ cell cs r' c = cell (columns df) r c.
Proof.
  unfold project. intros Hp Hc.
  destruct (List.filter _ cs); [| discriminate]. injection Hp as <-.
  split; [reflexivity |]. cbn [rows]. intros r' Hr'.
  apply in_map_iff in Hr' as (r & <- & Hr). exists r. split; [exact Hr |].
  destruct (col_index_Some c cs Hc) as (i & Hi & Hnth).
  unfold cell at 1. rewrite Hi. apply (nth_map_nth_error _ _ _ _ _ Hnth).
Qed.

(** The hours that remain after [extract_hour] are numbers from 0 to 23. *)
Lemma extract_hour_range `{PythonText} (df out : DataFrame) :
  simulate_demand.extract_hour df = Ok out ->
  has_column out "hour" = true
  /\ forall r, In r (rows out) ->
       exists h, cell (columns out) r "hour" = VInt h /\ 0 <= h < 24.
Proof.
  unfold simulate_demand.extract_hour. intros Hx.
  apply bind_Ok_inv in Hx as (arrival & _ & Hx).
  apply bind_Ok_inv in Hx as (st & Hset & Hx).
  unfold dropna in Hx. destruct (has_column st "hour") eqn:Hc; [| discriminate].
  injection Hx as <-. split; [exact Hc |].
  cbn [select rows columns]. intros r Hr.
  apply filter_In in Hr as [Hr Hnan].
  pose proof (set_column_cell _ _ _ _ Hset r Hr) as Hcell.
  apply in_map_iff in Hcell as (x & Hparse & _).
  rewrite <- Hparse in Hnan |- *. unfold simulate_demand.parse_hour in *.
  destruct x as [s | n |]; try discriminate.
  destruct (int_of_str (simulate_demand.before_colon s)) as [n |];
    [| discriminate].
  exists (n mod 24). split; [reflexivity |]. apply Z.mod_pos_bound. lia.
Qed.

Section simulate_output.
Context `{PythonText} `{NumpyRandom}.

(** X20: The table written by simulate_demand.py has the five columns
    route_id, stop_id, hour, weekday, passenger_count, in that order, and
    every hour in it is a number from 0 to 23. *)
Theorem simulate_demand_output (seed_value : Z) (stop_times trips calendar : DataFrame)
    (g0 : rng) (out : DataFrame) :
  simulate_demand.run_with seed_value stop_times trips calendar g0 = Ok out ->
  columns out = ["route_id"; "stop_id"; "hour"; "weekday"; "passenger_count"]
  /\ forall r, In r (rows out) ->
       exists h, cell (columns out) r "hour" = VInt h /\ 0 <= h < 24.
Proof.
  unfold simulate_demand.run_with. intros Hrun.
  apply bind_Ok_inv in Hrun as (trips1 & _ & Hrun).
  apply bind_Ok_inv in Hrun as (st1 & _ & Hrun).
  apply bind_Ok_inv in Hrun as (st2 & Hhours & Hrun). cbv zeta in Hrun.
  apply bind_Ok_inv in Hrun as (syn & Hproj & Hrun).
  destruct (draws (randint 0 7) (len syn) (seed seed_value)) as [weekdays g1].
  apply bind_Ok_inv in Hrun as (syn1 & Hset1 & Hrun).
  destruct (draws (poisson 20) (len syn1) g1) as [counts g2].
  apply bind_Ok_inv in Hrun as (syn2 & Hset2 & Hrun).
  apply bind_Ok_inv in Hrun as (col & _ & Hrun).
  apply extract_hour_range in Hhours as [_ Hhours].
  destruct (project_cell st2 syn ["route_id"; "stop_id"; "hour"] "hour" Hproj
              ltac:(simpl; tauto)) as [Hcols Hcell].
  assert (Hc0 : has_column syn "hour" = true).
  { unfold has_column. rewrite Hcols. reflexivity. }
  destruct (set_column_other syn syn1 "weekday" "hour" _ Hset1 ltac:(discriminate) Hc0)
    as [Hc1 Hcell1].
  destruct (set_column_other syn1 syn2 "passenger_count" "hour" _ Hset2
              ltac:(discriminate) Hc1) as [Hc2 Hcell2].
  destruct (set_column_other syn2 out "passenger_count" "hour" _ Hrun
              ltac:(discriminate) Hc2) as [_ Hcell3].
  split.
  - unfold set_column in Hset1, Hset2, Hrun.
    destruct (negb (bool_decide (length (map VInt weekdays) = length (rows syn))));
      [discriminate |].
    unfold has_column in Hset1. rewrite Hcols in Hset1. cbn in Hset1.
    injection Hset1 as <-. cbn [rows columns] in Hset2.
    destruct (negb (bool_decide (length (map VInt counts) = _))); [discriminate |].
    unfold has_column in Hset2. cbn in Hset2.
    injection Hset2 as <-. cbn [rows columns] in Hrun.
    destruct (negb (bool_decide (length (map (clip_value 0 100) col) = _)));
      [discriminate |].
    unfold has_column in Hrun. cbn in Hrun. injection Hrun as <-. reflexivity.
  - intros r Hr.
    destruct (Hcell3 r Hr) as (r2 & Hr2 & ->).
    destruct (Hcell2 r2 Hr2) as (r1 & Hr1 & ->).
    destruct (Hcell1 r1 Hr1) as (r0 & Hr0 & ->).
    rewrite Hcols. destruct (Hcell r0 Hr0) as (rs & Hrs & ->).
    apply Hhours. exact Hrs.
Qed.

End simulate_output.

Lemma simulate_demand_output_sample :
  exists out,
    @simulate_demand.run_with Installation.python_3_11 MoreSamples.counting_random 42
      Samples.stop_times Samples.trips MoreSamples.calendar_wk 0 = Ok out
    /\ len out = 3%nat
    /\ columns out = ["route_id"; "stop_id"; "hour"; "weekday"; "passenger_count"]
    /\ forall r, In r (rows out) ->
         exists h, cell (columns out) r "hour" = VInt h /\ 0 <= h < 24.
Proof.
  eexists. split; [vm_compute; reflexivity |]. split; [reflexivity |].
  refine (@simulate_demand_output Installation.python_3_11 MoreSamples.counting_random 42
            Samples.stop_times Samples.trips MoreSamples.calendar_wk 0 _ _).
  vm_compute. reflexivity.
Defined.

Lemma for_each_invariant_in {A S : Type} (P : S -> Prop) (l : list A) (body : A -> S -> S) :
  (forall a s, In a l -> P s -> P (body a s)) -> forall s, P s -> P (for_each l body s).
Proof.
  unfold for_each. induction l as [| a l IH]; intros Hbody s Hs; simpl; [exact Hs |].
  apply IH.
  - intros b s' Hb. apply Hbody. right. exact Hb.
  - apply Hbody; [left; reflexivity | exact Hs].
Qed.

Lemma for_each_length {A R B : Type} (l : list A) (body : A -> list B * R -> list B * R)
    (k : nat) :
  (forall a s, length (fst (body a s)) = (length (fst s) + k)%nat) ->
  forall s, length (fst (for_each l body s)) = (length (fst s) + length l * k)%nat.
Proof.
  intros Hbody. unfold for_each.
  induction l as [| a l IH]; intros s; simpl; [lia |].
  rewrite IH, Hbody. lia.
Qed.

Section generate_output.
Context `{NumpyRandom}.

Lemma entry_record (route stop : string) (hour weekday : Z) (st : list row * rng) :
  In route generate_synthetic_demand.ROUTES ->
  In stop generate_synthetic_demand.STOPS ->
  In hour generate_synthetic_demand.HOURS ->
  In weekday generate_synthetic_demand.WEEKDAYS ->
  Forall generated_record (fst st) ->
  Forall generated_record (fst (generate_synthetic_demand.entry route stop hour weekday st)).
Proof.
  intros Hroute Hstop Hhour Hweekday. destruct st as [data g].
  unfold generate_synthetic_demand.entry. cbn [fst]. intros Hdata.
  destruct (if (Z.leb 7 hour && Z.leb hour 9) || (Z.leb 16 hour && Z.leb hour 18)
            then poisson 35 g
            else if Z.leb 10 hour && Z.leb hour 15 then poisson 15 g else poisson 5 g)
    as [base_demand g'].
  cbn [fst]. apply Forall_app. split; [exact Hdata |].
  constructor; [| constructor].
  exists route, stop, hour, weekday, (clip 0 100 base_demand).
  split; [reflexivity |]. split; [exact Hroute |]. split; [exact Hstop |].
  unfold generate_synthetic_demand.HOURS, generate_synthetic_demand.WEEKDAYS in *.
  apply in_map_iff in Hhour as (i & <- & Hi). apply in_seq in Hi.
  apply in_map_iff in Hweekday as (j & <- & Hj). apply in_seq in Hj.
  split; [lia |]. split; [lia |]. apply clip_bounds. lia.
Qed.

Lemma entry_length (route stop : string) (hour weekday : Z) (st : list row * rng) :
  length (fst (generate_synthetic_demand.entry route stop hour weekday st))
  = (length (fst st) + 1)%nat.
Proof.
  destruct st as [data g]. unfold generate_synthetic_demand.entry.
  destruct (if (Z.leb 7 hour && Z.leb hour 9) || (Z.leb 16 hour && Z.leb hour 18)
            then poisson 35 g
            else if Z.leb 10 hour && Z.leb hour 15 then poisson 15 g else poisson 5 g)
    as [base_demand g'].
  cbn [fst]. rewrite length_app. reflexivity.
Qed.

(** X21: The table written by generate_synthetic_demand.py has 112000 rows, one
    per round of the four nested loops; each is a record of a known route
    and stop, an hour from 6 to 21, a weekday from 0 to 6 and a count from
    0 to 100. *)
Theorem generate_synthetic_demand_output (seed_value : Z) (g0 : rng) :
  columns (generate_synthetic_demand.run_with seed_value g0)
  = ["route_id"; "stop_id"; "hour"; "weekday"; "passenger_count"]
  /\ Z.of_nat (len (generate_synthetic_demand.run_with seed_value g0)) = 112000
  /\ Forall generated_record (rows (generate_synthetic_demand.run_with seed_value g0)).
Proof.
  split; [apply generate_columns |].
  unfold generate_synthetic_demand.run_with, len.
  remember (for_each _ _ _) as loops eqn:Eloops.
  assert (Hlen : length (fst loops)
                 = (0 + length generate_synthetic_demand.ROUTES
                        * (length generate_synthetic_demand.STOPS
                           * (length generate_synthetic_demand.HOURS
                              * (length generate_synthetic_demand.WEEKDAYS * 1))))%nat).
  { subst loops.
    apply (for_each_length generate_synthetic_demand.ROUTES _
             (length generate_synthetic_demand.STOPS
              * (length generate_synthetic_demand.HOURS
                 * (length generate_synthetic_demand.WEEKDAYS * 1)))).
    intros route st1.
    apply (for_each_length generate_synthetic_demand.STOPS _
             (length generate_synthetic_demand.HOURS
              * (length generate_synthetic_demand.WEEKDAYS * 1))).
    intros stop st2.
    apply (for_each_length generate_synthetic_demand.HOURS _
             (length generate_synthetic_demand.WEEKDAYS * 1)).
    intros hour st3.
    apply (for_each_length generate_synthetic_demand.WEEKDAYS _ 1).
    intros weekday st4. apply entry_length. }
  assert (Hrec : Forall generated_record (fst loops)).
  { subst loops.
    apply (for_each_invariant_in (fun st => Forall generated_record (fst st)));
      [| constructor].
    intros route st Hroute Hst. apply for_each_invariant_in; [| exact Hst]. clear st Hst.
    intros stop st Hstop Hst. apply for_each_invariant_in; [| exact Hst]. clear st Hst.
    intros hour st Hhour Hst. apply for_each_invariant_in; [| exact Hst]. clear st Hst.
    intros weekday st Hweekday Hst. apply entry_record; assumption. }
  clear Eloops. destruct loops as [data g]. cbn [fst rows] in *.
  split; [| exact Hrec].
  rewrite Hlen.
  unfold generate_synthetic_demand.ROUTES, generate_synthetic_demand.STOPS,
    generate_synthetic_demand.HOURS, generate_synthetic_demand.WEEKDAYS.
  rewrite !length_map, !length_seq. rewrite !Nat2Z.inj_add, !Nat2Z.inj_mul.
  reflexivity.
Qed.

End generate_output.
(** ** Counts of the route statistics *)

(** X22: For a non-empty route id with no trip, [calculate_route_stats]
    returns the empty structure.  For a non-empty route id with trips
    [t :: rest] (the trips table carrying service_id, the processor holding
    a shapes table, and [get_route_stops] returning [route_stops]):
    total_trips is their number, total_stops the number of rows of
    [route_stops], directions and service_ids count the distinct non-null
    values of their columns (directions is 1 without a direction_id
    column), and the two accessibility counts are the trips with 1 in the
    column (0 without the column).  Where the processor holds [None] for
    the shapes, the statistics of a route with trips are not computed: the
    call raises [AttributeError]. *)
Theorem calculate_route_stats_spec (self : GTFSProcessor) (rid : string) (T : DataFrame) :
  rid <> "" ->
  table self "trips" = Frame T ->
  empty T = true \/ has_column T "route_id" = true ->
  (matching T "route_id" (VStr rid) = [] -> calculate_route_stats self rid = Ok None)
  /\ (forall t rest route_stops SH,
        matching T "route_id" (VStr rid) = t :: rest ->
        has_column T "service_id" = true ->
        get_route_stops self rid = Ok route_stops ->
        table self "shapes" = Frame SH ->
        exists stats,
          calculate_route_stats self rid = Ok (Some stats)
          /\ route_id stats = rid
          /\ total_trips stats = length (t :: rest)
          /\ total_stops stats = len route_stops
          /\ (has_column T "direction_id" = true ->
              distinct_count (map (fun r => cell (columns T) r "direction_id") (t :: rest))
                (directions stats))
          /\ (has_column T "direction_id" = false -> directions stats = 1%nat)
          /\ distinct_count (map (fun r => cell (columns T) r "service_id") (t :: rest))
               (service_ids stats)
          /\ wheelchair_accessible_trips stats
             = (if has_column T "wheelchair_accessible"
                then count_flagged (columns T) "wheelchair_accessible" (t :: rest)
                else 0%nat)
          /\ bikes_allowed_trips stats
             = (if has_column T "bikes_allowed"
                then count_flagged (columns T) "bikes_allowed" (t :: rest)
                else 0%nat))
  /\ (forall t rest route_stops,
        matching T "route_id" (VStr rid) = t :: rest ->
        has_column T "service_id" = true ->
        get_route_stops self rid = Ok route_stops ->
        table self "shapes" = PyNone ->
        calculate_route_stats self rid = Raise (AttributeError "empty")).
Proof.
  intros Hrid HT HTc.
  destruct (get_trips_route self rid T Hrid HT HTc) as (trips & Hget & Hcols & Hnone & Hsome).
  split; [| split].
  - intros Hm. unfold calculate_route_stats. rewrite Hget. run.
    cbn [getattr_frame]. run. rewrite (Hnone Hm). reflexivity.
  - intros t rest route_stops SH Hm Hsvc Hstops HSH.
    destruct (Hsome t rest Hm) as [Hne Hrows].
    unfold calculate_route_stats. rewrite Hget. run. cbn [getattr_frame]. run.
    rewrite Hne, Hstops. run.
    rewrite get_shapes_all, HSH. run.
    rewrite !(has_column_same_columns trips T _ Hcols).
    rewrite (getcol_has trips "service_id")
      by (rewrite (has_column_same_columns trips T _ Hcols); exact Hsvc).
    assert (Hcolumn : forall c, column trips c = map (fun r => cell (columns T) r c) (t :: rest)).
    { intros c. unfold column. rewrite Hrows, Hcols. reflexivity. }
    assert (Hcount : forall c, count_eq_1 (column trips c) = count_flagged (columns T) c (t :: rest)).
    { intros c. rewrite count_eq_1_column, Hrows, Hcols. reflexivity. }
    assert (Hlen : len trips = length (t :: rest)).
    { unfold len. rewrite Hrows. reflexivity. }
    destruct (has_column T "direction_id") eqn:Hdir;
      destruct (has_column T "wheelchair_accessible") eqn:Hwc;
      destruct (has_column T "bikes_allowed") eqn:Hbk;
      repeat match goal with
      | |- context [getcol trips ?c] =>
          rewrite (getcol_has trips c)
            by (rewrite (has_column_same_columns trips T _ Hcols); assumption)
      end;
      run; eexists; (split; [reflexivity |]); cbn [route_id total_trips total_stops
        directions service_ids has_shapes wheelchair_accessible_trips bikes_allowed_trips];
      rewrite ?Hcount, Hlen;
      repeat split; try reflexivity; try (intros Hx; discriminate Hx); try (intros _);
      rewrite <- ?Hcolumn; try apply nunique_spec; reflexivity.
  - intros t rest route_stops Hm Hsvc Hstops HSH.
    destruct (Hsome t rest Hm) as [Hne Hrows].
    unfold calculate_route_stats. rewrite Hget. run. cbn [getattr_frame]. run.
    rewrite Hne, Hstops. run.
    rewrite get_shapes_all, HSH. run.
    rewrite !(has_column_same_columns trips T _ Hcols).
    rewrite (getcol_has trips "service_id")
      by (rewrite (has_column_same_columns trips T _ Hcols); exact Hsvc).
    destruct (has_column T "direction_id") eqn:Hdir;
      [rewrite (getcol_has trips "direction_id")
         by (rewrite (has_column_same_columns trips T _ Hcols); exact Hdir) |];
      reflexivity.
Qed.

Lemma calculate_route_stats_spec_sample :
  "R2" <> ""
  /\ table (Samples.processor Samples.feed_full) "trips" = Frame Samples.trips
  /\ table (Samples.processor Samples.feed_full) "shapes" = Frame Samples.shapes
  /\ (empty Samples.trips = true \/ has_column Samples.trips "route_id" = true)
  /\ exists stats,
       calculate_route_stats (Samples.processor Samples.feed_full) "R2" = Ok (Some stats)
       /\ total_trips stats = 1%nat
       /\ distinct_count [VStr "WK"] (service_ids stats)
       /\ wheelchair_accessible_trips stats = 0%nat.
Proof.
  split; [discriminate |]. split; [reflexivity |]. split; [reflexivity |].
  split; [right; reflexivity |].
  destruct (proj1 (proj2 (calculate_route_stats_spec (Samples.processor Samples.feed_full)
                            "R2" Samples.trips ltac:(discriminate) eq_refl
                            (or_intror eq_refl)))
              (nth 1 (rows Samples.trips) []) []
              (mkDataFrame (columns Samples.stops) (take 1 (rows Samples.stops)))
              Samples.shapes
              eq_refl eq_refl eq_refl eq_refl)
    as (stats & Hstats & _ & Htrips & _ & _ & _ & Hsvc & Hwc & _).
  exists stats. split; [exact Hstats |]. split; [exact Htrips |].
  split; [exact Hsvc | exact Hwc].
Defined.
